(** * Carapace dashboard: action event store and analytics engine

    A shallow embedding of the two TypeScript modules that carry the logic
    of the dashboard:

    - the Express server ([GET /api/logs], [/api/logs/stats],
      [/api/reviews], [/api/reviews/trends]), and
    - the [LogStore] class ([initialize], [logAction], [cleanupOldLogs]).

    JavaScript strings are modelled as [string] (byte strings), integers
    produced by [parseInt] as [Z], the remaining JavaScript numbers (scores,
    amounts, averages) as exact rationals [Q].  The SQL statements of the
    source are modelled by their meaning on lists of rows. *)

From Stdlib Require Import ZArith QArith Qround List String Ascii Bool Lia.
From Stdlib Require Import DecimalString DecimalPos DecimalZ.
From Stdlib Require Import Permutation Sorted RelationClasses Lqa.
Import ListNotations.

Local Open Scope string_scope.
Local Open Scope list_scope.
Local Open Scope Z_scope.

(* ================================================================= *)
(** ** JavaScript primitives used by the handlers *)

Module JS.

(** [StrWhiteSpaceChar] restricted to the ASCII range: TAB, LF, VT, FF, CR
    and SPACE. *)
Definition isWhiteSpace (c : ascii) : bool :=
  let n := N_of_ascii c in
  ((9 <=? n)%N && (n <=? 13)%N) || (n =? 32)%N.

Fixpoint trimStart (s : string) : string :=
  match s with
  | String c s' => if isWhiteSpace c then trimStart s' else s
  | EmptyString => EmptyString
  end.

(** Value of a character as a digit in radix [r] (10 or 16), if it is one. *)
Definition digitValue (r : Z) (c : ascii) : option Z :=
  let n := Z.of_N (N_of_ascii c) in
  let v :=
    if (48 <=? n) && (n <=? 57) then Some (n - 48)
    else if (97 <=? n) && (n <=? 122) then Some (n - 87)
    else if (65 <=? n) && (n <=? 90) then Some (n - 55)
    else None in
  match v with
  | Some d => if d <? r then Some d else None
  | None => None
  end.

(** The longest prefix of radix-[r] digits, read most significant first.
    [acc] is [None] until a first digit has been seen. *)
Fixpoint readDigits (r : Z) (s : string) (acc : option Z) : option Z :=
  match s with
  | String c s' =>
      match digitValue r c with
      | Some d =>
          readDigits r s' (Some (match acc with Some a => a * r + d | None => d end))
      | None => acc
      end
  | EmptyString => acc
  end.

(** [parseInt(string)] with the radix left undefined: white space is
    skipped, then a sign, then a [0x] prefix, which selects radix 16.
    [None] is [NaN].  An absent query parameter is [undefined], whose string
    form has no digits. *)
Definition stripSign (s : string) : Z * string :=
  match s with
  | String "-" s' => (-1, s')
  | String "+" s' => (1, s')
  | _ => (1, s)
  end.

Definition stripPrefix (s : string) : Z * string :=
  match s with
  | String "0" (String "x" s') => (16, s')
  | String "0" (String "X" s') => (16, s')
  | _ => (10, s)
  end.

Definition parseIntString (input : string) : option Z :=
  let '(sign, s) := stripSign (trimStart input) in
  let '(r, s) := stripPrefix s in
  match readDigits r s None with
  | Some m => Some (sign * m)
  | None => None
  end.

Definition parseInt (arg : option string) : option Z :=
  match arg with
  | Some s => parseIntString s
  | None => parseIntString "undefined"
  end.

(** [x || d] on a number [x]: [NaN] and zero are falsy. *)
Definition orDefault (x : option Z) (d : Z) : Z :=
  match x with
  | Some 0 => d
  | Some n => n
  | None => d
  end.

(** Truthiness of an optional string: [undefined] and [""] are falsy. *)
Definition truthy (s : option string) : bool :=
  match s with
  | Some EmptyString => false
  | Some _ => true
  | None => false
  end.

(** [s.split('T')[0]]: the part of [s] before the first ['T']. *)
Fixpoint splitT0 (s : string) : string :=
  match s with
  | String c s' => if Ascii.eqb c "T" then EmptyString else String c (splitT0 s')
  | EmptyString => EmptyString
  end.

(** [arr.reduce((a, b) => a + b, 0)]. *)
Definition sum (arr : list Q) : Q := fold_left Qplus arr (0%Q).

(** [Math.round(x * 100) / 100]; [Math.round] rounds halves upwards. *)
Definition round2 (x : Q) : Q :=
  Qmake (Qfloor (x * 100 + (1 # 2))%Q) 100.

(** [String(n)] for an integer [n]: its decimal digits, after a minus sign
    when it is negative.  (From 1e21 on JavaScript writes an exponent; the
    callers pass page sizes, offsets and tiers.) *)
Definition numberToString (n : Z) : string :=
  NilZero.string_of_int (Z.to_int n).

(** [s.slice(0, e)]: a negative [e] counts from the end of [s]. *)
Definition slice0 (s : string) (e : Z) : string :=
  let len := Z.of_nat (String.length s) in
  let e' := if e <? 0 then Z.max (len + e) 0 else Z.min e len in
  String.substring 0 (Z.to_nat e') s.

End JS.

(* ================================================================= *)
(** ** Data model: the two tables of [logs.db] *)

(** One row of [actions] (see the [CREATE TABLE] of [LogStore.initialize]).
    [key_was_valid] is stored as the integer 1 or 0. *)
Record Action := mkAction {
  id : Z;
  timestamp : string;
  session_id : string;
  action_type : string;
  target : string;
  amount : Q;
  description : string;
  verdict : string;
  reason : string;
  key_was_valid : bool;
  tier : Z;
  created_at : string
}.

(** One row of [reviews]; [highlights] and [insights] hold JSON text. *)
Record Review := mkReview {
  review_id : Z;
  review_timestamp : string;
  review_session_id : string;
  overall_grade : string;
  overall_score : Q;
  goal_alignment_score : Q;
  security_compliance_score : Q;
  constraint_adherence_score : Q;
  total_actions : Z;
  verified_actions : Z;
  blocked_actions : Z;
  highlights : string;
  insights : string
}.

(** The database file.  A table that was never created is [None]; a
    statement over it fails with "no such table".  [actions_seq] is the
    AUTOINCREMENT high-water mark of [actions]. *)
Record Database := mkDatabase {
  actions : option (list Action);
  actions_seq : Z;
  reviews : option (list Review)
}.

(** The file system as far as the handlers look at it: the file at
    [DB_PATH], if it exists. *)
Definition FileSystem := option Database.

#[warnings="-register-all"] Inductive json :=
| JNull
| JBool (b : bool)
| JNum (q : Q)
| JStr (s : string)
| JArr (l : list json)
| JObj (l : list (string * json)).

(* ================================================================= *)
(** ** The platform: what the source takes from its runtime *)

(** [ORDER BY timestamp] leaves the order of rows with equal timestamps to
    the storage engine, and the date functions are library code.  They are
    fields of a [Platform]; [platform_ok] is the contract SQL puts on
    [orderBy].  [JSON.parse], used by one handler only, is passed to it. *)
Record Platform := mkPlatform {
  (** [ORDER BY key DESC] when [desc] is true, [ORDER BY key ASC] otherwise *)
  orderBy : forall A : Type, (A -> string) -> bool -> list A -> list A;
  (** [Date.prototype.toISOString] on a valid time value (ms since epoch) *)
  toISOString : Z -> string;
  (** [new Date(s).getTime()]; [None] is an invalid date *)
  Date_parse : string -> option Z;
  (** [d.setDate(d.getDate() + n)] as a function of the time value *)
  addDays : Z -> Z -> Z;
  (** SQLite [date(X)]; [None] is NULL *)
  sql_date : string -> option string;
  (** SQLite [date('now')] and [datetime('now')] at a given time *)
  sql_date_now : Z -> string;
  sql_datetime_now : Z -> string
}.

(** [a] comes before [b] or is tied with it. *)
Definition key_ordered (desc : bool) (a b : string) : Prop :=
  if desc then String.leb b a = true else String.leb a b = true.

Definition platform_ok (P : Platform) : Prop :=
  forall (A : Type) (key : A -> string) (desc : bool) (l : list A),
    Permutation l (orderBy P A key desc l) /\
    StronglySorted (fun a b => key_ordered desc (key a) (key b))
                   (orderBy P A key desc l).

(* ================================================================= *)
(** ** SQL operators used by the statements *)

Module Sql.

(** ASCII upper-casing, as in SQLite's built-in [LIKE]. *)
Definition upper (c : ascii) : ascii :=
  let n := N_of_ascii c in
  if ((97 <=? n)%N && (n <=? 122)%N)%bool then ascii_of_N (n - 32) else c.

Definition eq_nocase (c d : ascii) : bool := Ascii.eqb (upper c) (upper d).

(** [s LIKE p] without an ESCAPE clause: ['%'] matches any run of
    characters, ['_'] any one character, other characters match
    themselves up to ASCII case. *)
Fixpoint like (p s : string) {struct p} : bool :=
  match p with
  | EmptyString => match s with EmptyString => true | _ => false end
  | String c p' =>
      if Ascii.eqb c "%" then
        (fix star (s : string) : bool :=
           like p' s ||
           match s with
           | EmptyString => false
           | String _ s' => star s'
           end) s
      else if Ascii.eqb c "_" then
        match s with
        | EmptyString => false
        | String _ s' => like p' s'
        end
      else
        match s with
        | EmptyString => false
        | String d s' => eq_nocase c d && like p' s'
        end
  end.

(** [COUNT( * )] over the rows satisfying [f]. *)
Definition count {A : Type} (f : A -> bool) (rows : list A) : Z :=
  Z.of_nat (List.length (filter f rows)).

(** [LIMIT limit OFFSET offset]: a negative limit is no limit, a negative
    offset is zero. *)
Definition limit_offset {A : Type} (limit offset : Z) (rows : list A) : list A :=
  let rest := skipn (Z.to_nat offset) rows in
  if limit <? 0 then rest else firstn (Z.to_nat limit) rest.

(** [COALESCE(SUM(x), 0)]. *)
Definition sum (xs : list Q) : Q := fold_right Qplus 0%Q xs.

End Sql.

(* ================================================================= *)
(** ** Exceptions *)

(** A computation that may throw; the exception is kept as its message,
    which is all the [catch] blocks look at. *)
Inductive result (A : Type) : Type :=
| Ok (a : A)
| Throw (message : string).
Arguments Ok {A} a.
Arguments Throw {A} message.

Definition bind {A B : Type} (m : result A) (k : A -> result B) : result B :=
  match m with
  | Ok a => k a
  | Throw e => Throw e
  end.

Notation "x <- m ;; k" := (bind m (fun x => k))
  (at level 61, m at next level, right associativity).

(** [SELECT ... FROM t]: fails when the table does not exist. *)
Definition from_table {A : Type} (name : string) (t : option (list A)) : result (list A) :=
  match t with
  | Some rows => Ok rows
  | None => Throw ("no such table: " ++ name)%string
  end.

(** [xs.map(f)] where [f] may throw. *)
Fixpoint mapM {A B : Type} (f : A -> result B) (xs : list A) : result (list B) :=
  match xs with
  | [] => Ok []
  | x :: xs' => y <- f x ;; ys <- mapM f xs' ;; Ok (y :: ys)
  end.

(** [s.includes(sub)]. *)
Fixpoint includes (s sub : string) : bool :=
  String.prefix sub s ||
  match s with
  | EmptyString => false
  | String _ s' => includes s' sub
  end.

(** A [Date] holds a valid time value only within 8.64e15 ms of the epoch;
    [toISOString] throws a RangeError otherwise. *)
Definition validTime (t : Z) : bool := Z.abs t <=? 8640000000000000.

Definition Date_toISOString (P : Platform) (t : Z) : result string :=
  if validTime t then Ok (toISOString P t) else Throw "Invalid time value".

(* ================================================================= *)
(** ** The API server *)

Module Server.

(** *** Responses *)

Record TierBreakdown := mkTierBreakdown { t1 : Z; t2 : Z; t3 : Z }.

Record LogStats := mkLogStats {
  totalActions : Z;
  sessionActions : Z;
  verifiedCount : Z;
  unverifiedCount : Z;
  blockedCount : Z;
  unverifiedTier1Count : Z;
  tierBreakdown : TierBreakdown;
  dailySpend : Q
}.

Record DailyScore := mkDailyScore {
  date : string;
  overall : Q;
  alignment : Q;
  security : Q
}.

Record DayScore := mkDayScore { day_date : string; score : Q }.

Record TrendsData := mkTrendsData {
  daily_scores : list DailyScore;
  averages : Q * Q * Q;   (* overall, alignment, security *)
  trend_direction : string;
  best_day : option DayScore;
  worst_day : option DayScore
}.

(** A review row with [highlights] and [insights] replaced by their
    decoded values. *)
Record ReviewOut := mkReviewOut {
  row : Review;
  highlights_json : json;
  insights_json : json
}.

Inductive Body :=
| LogsBody (actions : list Action) (total : Z)
| StatsBody (stats : LogStats)
| ReviewsBody (reviews : list ReviewOut) (total : Z)
| TrendsBody (trends : TrendsData)
| ErrorBody (error : string).

(** [res.json(b)] answers with status 200, [res.status(n).json(b)] with [n]. *)
Record Response := mkResponse { status : Z; body : Body }.

Definition json_ok (b : Body) : Response := mkResponse 200 b.
Definition json_status (n : Z) (b : Body) : Response := mkResponse n b.

(** *** GET /api/logs *)

Record LogsQuery := mkLogsQuery {
  q_limit : option string;
  q_offset : option string;
  q_verdict : option string;
  q_tier : option string;
  q_search : option string;
  q_since : option string
}.

(** One entry of [conditions] together with its bound parameters. *)
Inductive condition :=
| VerdictEq (v : string)         (* verdict = ? *)
| TierEq (t : option Z)          (* tier = ?, [None] being NaN *)
| SearchLike (like : string)     (* (action_type LIKE ? OR target LIKE ? OR description LIKE ?) *)
| TimestampGe (since : string).  (* timestamp >= ? *)

Definition limit (q : LogsQuery) : Z := JS.orDefault (JS.parseInt (q_limit q)) 50.
Definition offset (q : LogsQuery) : Z := JS.orDefault (JS.parseInt (q_offset q)) 0.

(** [req.query.tier ? parseInt(req.query.tier) : undefined]; the outer
    [None] is [undefined], [Some None] is NaN. *)
Definition tier_param (q : LogsQuery) : option (option Z) :=
  if JS.truthy (q_tier q) then Some (JS.parseInt (q_tier q)) else None.

Definition conditions (q : LogsQuery) : list condition :=
  (match q_verdict q with
   | Some v => if JS.truthy (Some v) && negb (String.eqb v "all") then [VerdictEq v] else []
   | None => []
   end) ++
  (match tier_param q with
   | Some t => [TierEq t]
   | None => []
   end) ++
  (match q_search q with
   | Some s => if JS.truthy (Some s) then [SearchLike ("%" ++ s ++ "%")%string] else []
   | None => []
   end) ++
  (match q_since q with
   | Some s => if JS.truthy (Some s) then [TimestampGe s] else []
   | None => []
   end).

(** A NaN parameter is bound as NULL, and [tier = NULL] holds of no row. *)
Definition eval_condition (c : condition) (r : Action) : bool :=
  match c with
  | VerdictEq v => String.eqb (verdict r) v
  | TierEq (Some t) => tier r =? t
  | TierEq None => false
  | SearchLike like =>
      Sql.like like (action_type r) || Sql.like like (target r) || Sql.like like (description r)
  | TimestampGe since => String.leb since (timestamp r)
  end.

(** [WHERE c1 AND c2 AND ...]; no condition, no [WHERE]. *)
Definition where_ (conds : list condition) (r : Action) : bool :=
  forallb (fun c => eval_condition c r) conds.

Definition get_api_logs (P : Platform) (fs : FileSystem) (q : LogsQuery) : Response :=
  match fs with
  | None => json_ok (LogsBody [] 0)
  | Some db =>
      let attempt :=
        rows <- from_table "actions" (actions db) ;;
        let total := Sql.count (where_ (conditions q)) rows in
        let page :=
          Sql.limit_offset (limit q) (offset q)
            (orderBy P Action timestamp true (filter (where_ (conditions q)) rows)) in
        Ok (json_ok (LogsBody page total)) in
      match attempt with
      | Ok res => res
      | Throw _ => json_status 500 (ErrorBody "Failed to query logs")
      end
  end.

(** *** GET /api/logs/stats *)

Definition empty_stats : LogStats :=
  mkLogStats 0 0 0 0 0 0 (mkTierBreakdown 0 0 0) 0%Q.

Definition spent_today (P : Platform) (now : Z) (r : Action) : bool :=
  match sql_date P (timestamp r) with
  | Some d => String.eqb d (sql_date_now P now)
  | None => false
  end.

Definition get_api_logs_stats (P : Platform) (fs : FileSystem) (now : Z) : Response :=
  match fs with
  | None => json_ok (StatsBody empty_stats)
  | Some db =>
      let attempt :=
        rows <- from_table "actions" (actions db) ;;
        let totalActions := Sql.count (fun _ => true) rows in
        let verifiedCount := Sql.count (fun r => key_was_valid r) rows in
        let blockedCount := Sql.count (fun r => String.eqb (verdict r) "block") rows in
        let unverifiedTier1Count :=
          Sql.count (fun r => negb (key_was_valid r) && (tier r =? 1)) rows in
        let t1 := Sql.count (fun r => tier r =? 1) rows in
        let t2 := Sql.count (fun r => tier r =? 2) rows in
        let t3 := Sql.count (fun r => tier r =? 3) rows in
        let dailySpend := Sql.sum (map amount (filter (spent_today P now) rows)) in
        Ok (json_ok (StatsBody
          (mkLogStats totalActions totalActions verifiedCount
             (totalActions - verifiedCount) blockedCount unverifiedTier1Count
             (mkTierBreakdown t1 t2 t3) dailySpend))) in
      match attempt with
      | Ok res => res
      | Throw _ => json_status 500 (ErrorBody "Failed to query stats")
      end
  end.

(** *** GET /api/reviews *)

Definition decode_review (JSON_parse : string -> option json) (r : Review)
    : result ReviewOut :=
  match JSON_parse (highlights r), JSON_parse (insights r) with
  | Some h, Some i => Ok (mkReviewOut r h i)
  | _, _ => Throw "Unexpected token in JSON"
  end.

Definition get_api_reviews (P : Platform) (JSON_parse : string -> option json)
    (fs : FileSystem) (q_limit q_offset : option string) : Response :=
  match fs with
  | None => json_ok (ReviewsBody [] 0)
  | Some db =>
      let limit := JS.orDefault (JS.parseInt q_limit) 20 in
      let offset := JS.orDefault (JS.parseInt q_offset) 0 in
      let attempt :=
        all <- from_table "reviews" (reviews db) ;;
        let total := Sql.count (fun _ => true) all in
        let rows :=
          Sql.limit_offset limit offset (orderBy P Review review_timestamp true all) in
        reviews <- mapM (decode_review JSON_parse) rows ;;
        Ok (json_ok (ReviewsBody reviews total)) in
      match attempt with
      | Ok res => res
      | Throw message =>
          if includes message "no such table"
          then json_ok (ReviewsBody [] 0)
          else json_status 500 (ErrorBody "Failed to query reviews")
      end
  end.

(** *** GET /api/reviews/trends *)

Definition empty_trends : TrendsData :=
  mkTrendsData [] (0%Q, 0%Q, 0%Q) "stable" None None.

(** [arr.length > 0 ? arr.reduce((a, b) => a + b, 0) / arr.length : 0]. *)
Definition avg (arr : list Q) : Q :=
  match arr with
  | [] => 0%Q
  | _ => (JS.sum arr / inject_Z (Z.of_nat (List.length arr)))%Q
  end.

(** The value kept under one date of [byDate]: three arrays of scores. *)
Record Scores := mkScores {
  s_overall : list Q;
  s_alignment : list Q;
  s_security : list Q
}.

Definition push_scores (sc : Scores) (r : Review) : Scores :=
  mkScores (s_overall sc ++ [overall_score r])
           (s_alignment sc ++ [goal_alignment_score r])
           (s_security sc ++ [security_compliance_score r]).

(** One round of the grouping loop on [byDate], an object whose keys are
    kept in the order in which they were first set.  (Keys that are
    canonical array indices or names of [Object.prototype] behave
    otherwise; the part of a timestamp before its ['T'] is taken not to be
    one.) *)
Fixpoint byDate_add (d : string) (r : Review) (byDate : list (string * Scores))
    : list (string * Scores) :=
  match byDate with
  | [] => [(d, push_scores (mkScores [] [] []) r)]
  | (k, sc) :: rest =>
      if String.eqb k d then (k, push_scores sc r) :: rest
      else (k, sc) :: byDate_add d r rest
  end.

Definition byDate (rows : list Review) : list (string * Scores) :=
  fold_left (fun acc r => byDate_add (JS.splitT0 (review_timestamp r)) r acc) rows [].

Definition daily_scores_of (rows : list Review) : list DailyScore :=
  map (fun '(d, sc) =>
         mkDailyScore d (JS.round2 (avg (s_overall sc)))
                        (JS.round2 (avg (s_alignment sc)))
                        (JS.round2 (avg (s_security sc))))
      (byDate rows).

Definition averages_of (rows : list Review) : Q * Q * Q :=
  (JS.round2 (avg (map overall_score rows)),
   JS.round2 (avg (map goal_alignment_score rows)),
   JS.round2 (avg (map security_compliance_score rows))).

(** [new Date(r.timestamp) >= d]: false when the timestamp does not parse. *)
Definition date_ge (P : Platform) (ts : string) (d : Z) : bool :=
  match Date_parse P ts with
  | Some t => d <=? t
  | None => false
  end.

Definition date_lt (P : Platform) (ts : string) (d : Z) : bool :=
  match Date_parse P ts with
  | Some t => t <? d
  | None => false
  end.

Definition recentScores (P : Platform) (now : Z) (rows : list Review) : list Q :=
  map overall_score
    (filter (fun r => date_ge P (review_timestamp r) (addDays P now (-7))) rows).

Definition previousScores (P : Platform) (now : Z) (rows : list Review) : list Q :=
  map overall_score
    (filter (fun r => date_ge P (review_timestamp r) (addDays P now (-14)) &&
                      date_lt P (review_timestamp r) (addDays P now (-7))) rows).

Definition Qltb (x y : Q) : bool := negb (Qle_bool y x).

Definition trend_direction_of (P : Platform) (now : Z) (rows : list Review) : string :=
  let recentScores := recentScores P now rows in
  let previousScores := previousScores P now rows in
  let diff := (avg recentScores - avg previousScores)%Q in
  if (List.length previousScores =? 0)%nat || (List.length recentScores =? 0)%nat then "stable"
  else if Qltb 5 diff then "improving"
  else if Qltb diff (-5) then "declining"
  else "stable".

(** One round of the loop over [daily_scores] that keeps the best and the
    worst day seen so far. *)
Definition best_worst_step (acc : option DayScore * option DayScore) (entry : DailyScore)
    : option DayScore * option DayScore :=
  let '(best_day, worst_day) := acc in
  (match best_day with
   | None => Some (mkDayScore (date entry) (overall entry))
   | Some b =>
       if Qltb (score b) (overall entry)
       then Some (mkDayScore (date entry) (overall entry))
       else best_day
   end,
   match worst_day with
   | None => Some (mkDayScore (date entry) (overall entry))
   | Some w =>
       if Qltb (overall entry) (score w)
       then Some (mkDayScore (date entry) (overall entry))
       else worst_day
   end).

Definition best_worst (daily_scores : list DailyScore) : option DayScore * option DayScore :=
  fold_left best_worst_step daily_scores (None, None).

(** [t_cutoff] and [t_now] are the readings of the clock by the two
    [new Date()] of the handler. *)
Definition get_api_reviews_trends (P : Platform) (fs : FileSystem)
    (q_days : option string) (t_cutoff t_now : Z) : Response :=
  match fs with
  | None => json_ok (TrendsBody empty_trends)
  | Some db =>
      let days := JS.orDefault (JS.parseInt q_days) 30 in
      let attempt :=
        cutoffStr <- Date_toISOString P (addDays P t_cutoff (- days)) ;;
        all <- from_table "reviews" (reviews db) ;;
        let rows :=
          orderBy P Review review_timestamp false
            (filter (fun r => String.leb cutoffStr (review_timestamp r)) all) in
        let daily_scores := daily_scores_of rows in
        let '(best_day, worst_day) := best_worst daily_scores in
        Ok (json_ok (TrendsBody
          (mkTrendsData daily_scores (averages_of rows)
             (trend_direction_of P t_now rows) best_day worst_day))) in
      match attempt with
      | Ok res => res
      | Throw message =>
          if includes message "no such table"
          then json_ok (TrendsBody empty_trends)
          else json_status 500 (ErrorBody "Failed to query review trends")
      end
  end.

End Server.

(* ================================================================= *)
(** ** The LogStore class *)

Module LogStore.

Record LogEntry := mkLogEntry {
  e_timestamp : string;
  e_action_type : string;
  e_target : string;
  e_amount : Q;
  e_description : string;
  e_verdict : string;
  e_reason : string;
  e_key_was_valid : bool;
  e_tier : option Z
}.

(** The fields of a [LogStore] object.  [db] tells whether [this.db] holds
    a connection ([null] until [initialize] has run); the connection itself
    is to the file of the [FileSystem]. *)
Record t := mkLogStore {
  db : bool;
  dbPath : string;
  sessionStart : string
}.

(** [new LogStore()] at time [now]. *)
Definition constructor (P : Platform) (homedir : string) (now : Z) : t :=
  mkLogStore false (homedir ++ "/.carapace/logs.db")%string (toISOString P now).

(** Opens the file, creating it when missing, and runs
    [CREATE TABLE IF NOT EXISTS actions]. *)
Definition initialize (fs : FileSystem) (s : t) : FileSystem * t :=
  let d := match fs with
           | Some d => d
           | None => mkDatabase None 0 None
           end in
  let d' := match actions d with
            | Some _ => d
            | None => mkDatabase (Some []) (actions_seq d) (reviews d)
            end in
  (Some d', mkLogStore true (dbPath s) (sessionStart s)).

(** [INTEGER PRIMARY KEY AUTOINCREMENT]: one more than the largest id the
    table has ever held. *)
Definition next_id (seq : Z) (rows : list Action) : Z :=
  fold_right Z.max seq (map id rows) + 1.

Definition actions_of (fs : FileSystem) : option (list Action) :=
  match fs with
  | Some d => actions d
  | None => None
  end.

Definition set_actions (fs : FileSystem) (seq : Z) (rows : list Action) : FileSystem :=
  match fs with
  | Some d => Some (mkDatabase (Some rows) seq (reviews d))
  | None => None
  end.

Definition seq_of (fs : FileSystem) : Z :=
  match fs with
  | Some d => actions_seq d
  | None => 0
  end.

(** The row that [logAction] inserts for [entry]. *)
Definition new_row (P : Platform) (s : t) (now : Z) (i : Z) (entry : LogEntry) : Action :=
  mkAction i
    (e_timestamp entry)
    (sessionStart s)
    (e_action_type entry)
    (e_target entry)
    (e_amount entry)
    (e_description entry)
    (e_verdict entry)
    (e_reason entry)
    (e_key_was_valid entry)
    (match e_tier entry with Some n => n | None => 0 end)
    (sql_datetime_now P now).

Definition logAction (P : Platform) (fs : FileSystem) (s : t) (now : Z) (entry : LogEntry)
    : result (FileSystem * Z) :=
  if negb (db s) then Throw "LogStore not initialized. Call initialize() first."
  else
    rows <- from_table "actions" (actions_of fs) ;;
    let i := next_id (seq_of fs) rows in
    Ok (set_actions fs i (rows ++ [new_row P s now i entry]), i).

(** [DELETE FROM actions WHERE timestamp < ?]; returns [result.changes]. *)
Definition cleanupOldLogs (P : Platform) (fs : FileSystem) (s : t) (now : Z)
    (retentionDays : Z) : result (FileSystem * Z) :=
  if negb (db s) then Ok (fs, 0)
  else
    cutoffStr <- Date_toISOString P (addDays P now (- retentionDays)) ;;
    rows <- from_table "actions" (actions_of fs) ;;
    let doomed := fun r => String.ltb (timestamp r) cutoffStr in
    Ok (set_actions fs (seq_of fs) (filter (fun r => negb (doomed r)) rows),
        Sql.count doomed rows).

Definition getDbPath (s : t) : string := dbPath s.

Record SessionStats := mkSessionStats {
  totalActions : Z;
  verifiedActions : Z;
  blockedActions : Z;
  unverifiedTier1 : Z;
  tierBreakdown : Z * Z * Z;   (* tier1, tier2, tier3 *)
  stats_sessionStart : string
}.

(** [session_id = ?] with the session start bound to it. *)
Definition this_session (s : t) (r : Action) : bool :=
  String.eqb (session_id r) (sessionStart s).

Definition getSessionStats (fs : FileSystem) (s : t) : result SessionStats :=
  if negb (db s) then Ok (mkSessionStats 0 0 0 0 (0, 0, 0) (sessionStart s))
  else
    rows <- from_table "actions" (actions_of fs) ;;
    let total := Sql.count (this_session s) rows in
    let verified := Sql.count (fun r => this_session s r && key_was_valid r) rows in
    let blocked :=
      Sql.count (fun r => this_session s r && String.eqb (verdict r) "block") rows in
    let unverifiedT1 :=
      Sql.count (fun r => this_session s r && (tier r =? 1) && negb (key_was_valid r)) rows in
    let tier1 := Sql.count (fun r => this_session s r && (tier r =? 1)) rows in
    let tier2 := Sql.count (fun r => this_session s r && (tier r =? 2)) rows in
    let tier3 := Sql.count (fun r => this_session s r && (tier r =? 3)) rows in
    Ok (mkSessionStats total verified blocked unverifiedT1 (tier1, tier2, tier3)
          (sessionStart s)).


Definition getActionsByTimeRange (P : Platform) (fs : FileSystem) (s : t)
    (start end_ : string) : result (list Action) :=
  if negb (db s) then Ok []
  else
    rows <- from_table "actions" (actions_of fs) ;;
    Ok (orderBy P Action timestamp true
          (filter (fun r => String.leb start (timestamp r) &&
                            String.leb (timestamp r) end_) rows)).

(** A method call on a store, and the state it leaves behind; a call that
    throws leaves the state as it was. *)
Inductive call :=
| Initialize
| LogAction (now : Z) (entry : LogEntry)
| CleanupOldLogs (now : Z) (retentionDays : Z).

Definition step (P : Platform) (st : FileSystem * t) (c : call) : FileSystem * t :=
  match c with
  | Initialize => initialize (fst st) (snd st)
  | LogAction now entry =>
      match logAction P (fst st) (snd st) now entry with
      | Ok (fs', _) => (fs', snd st)
      | Throw _ => st
      end
  | CleanupOldLogs now retentionDays =>
      match cleanupOldLogs P (fst st) (snd st) now retentionDays with
      | Ok (fs', _) => (fs', snd st)
      | Throw _ => st
      end
  end.

Definition run (P : Platform) (st : FileSystem * t) (calls : list call) : FileSystem * t :=
  fold_left (step P) calls st.

End LogStore.

(* ================================================================= *)
(** ** A reference platform *)

(** An executable platform on which the handlers can be run: a storage
    engine that answers [ORDER BY] either from a sort that keeps tied rows
    in table order or from a walk along the timestamp index (which meets
    tied rows in reverse table order when walked downwards), and the
    proleptic Gregorian calendar in UTC for timestamps written as
    [YYYY-MM-DDTHH:MM:SS.sssZ]. *)

Module Reference.

Fixpoint insert_row {A : Type} (before : A -> A -> bool) (x : A) (l : list A) : list A :=
  match l with
  | [] => [x]
  | y :: l' => if before x y then x :: l else y :: insert_row before x l'
  end.

Definition goes_before {A : Type} (index_walk : bool) (key : A -> string) (desc : bool)
    (x y : A) : bool :=
  if desc then
    if index_walk then String.ltb (key y) (key x) else String.leb (key y) (key x)
  else String.leb (key x) (key y).

Definition sort_by (index_walk : bool) (A : Type) (key : A -> string) (desc : bool)
    (l : list A) : list A :=
  fold_right (insert_row (goes_before index_walk key desc)) [] l.

(** Days since 1970-01-01 of a civil date, and back. *)
Definition days_from_civil (y m d : Z) : Z :=
  let y' := if m <=? 2 then y - 1 else y in
  let era := y' / 400 in
  let yoe := y' - era * 400 in
  let mp := (m + 9) mod 12 in
  let doy := (153 * mp + 2) / 5 + d - 1 in
  let doe := yoe * 365 + yoe / 4 - yoe / 100 + doy in
  era * 146097 + doe - 719468.

Definition civil_from_days (z : Z) : Z * Z * Z :=
  let z := z + 719468 in
  let era := z / 146097 in
  let doe := z - era * 146097 in
  let yoe := (doe - doe / 1460 + doe / 36524 - doe / 146096) / 365 in
  let doy := doe - (365 * yoe + yoe / 4 - yoe / 100) in
  let mp := (5 * doy + 2) / 153 in
  let d := doy - (153 * mp + 2) / 5 + 1 in
  let m := if mp <? 10 then mp + 3 else mp - 9 in
  let y := yoe + era * 400 in
  (if m <=? 2 then y + 1 else y, m, d).

Definition digit (n : Z) : ascii := ascii_of_N (Z.to_N (48 + n mod 10)).

(** [n] in decimal on [width] digits. *)
Fixpoint pad (width : nat) (n : Z) : string :=
  match width with
  | O => EmptyString
  | S w => (pad w (n / 10) ++ String (digit n) EmptyString)%string
  end.

Definition msPerDay : Z := 86400000.

Definition date_string (t : Z) : string :=
  let '(y, m, d) := civil_from_days (t / msPerDay) in
  let year :=
    if (0 <=? y) && (y <=? 9999) then pad 4 y
    else ((if (y <? 0)%Z then "-" else "+") ++ pad 6 (Z.abs y))%string in
  (year ++ "-" ++ pad 2 m ++ "-" ++ pad 2 d)%string.

Definition time_string (t : Z) : string :=
  let ms := t mod msPerDay in
  (pad 2 (ms / 3600000) ++ ":" ++ pad 2 (ms / 60000 mod 60) ++ ":" ++
   pad 2 (ms / 1000 mod 60))%string.

Definition toISOString (t : Z) : string :=
  (date_string t ++ "T" ++ time_string t ++ "." ++ pad 3 (t mod 1000) ++ "Z")%string.

(** Reads [n] decimal digits off the front of [s]. *)
Fixpoint digits (n : nat) (s : string) (acc : Z) : option (Z * string) :=
  match n with
  | O => Some (acc, s)
  | S n' =>
      match s with
      | String c s' =>
          match JS.digitValue 10 c with
          | Some d => digits n' s' (acc * 10 + d)
          | None => None
          end
      | EmptyString => None
      end
  end.

Definition expect (c : ascii) (s : string) : option string :=
  match s with
  | String c' s' => if Ascii.eqb c c' then Some s' else None
  | EmptyString => None
  end.

Definition days_in_month (y m : Z) : Z :=
  days_from_civil (if m =? 12 then y + 1 else y) (if m =? 12 then 1 else m + 1) 1
  - days_from_civil y m 1.

Definition parse (s : string) : option Z :=
  match digits 4 s 0 with Some (y, s) =>
  match expect "-" s with Some s =>
  match digits 2 s 0 with Some (m, s) =>
  match expect "-" s with Some s =>
  match digits 2 s 0 with Some (d, s) =>
  match expect "T" s with Some s =>
  match digits 2 s 0 with Some (h, s) =>
  match expect ":" s with Some s =>
  match digits 2 s 0 with Some (mi, s) =>
  match expect ":" s with Some s =>
  match digits 2 s 0 with Some (sec, s) =>
  match expect "." s with Some s =>
  match digits 3 s 0 with Some (ms, s) =>
    if String.eqb s "Z" && (1 <=? m) && (m <=? 12) && (1 <=? d) &&
       (d <=? days_in_month y m) && (h <=? 23) && (mi <=? 59) && (sec <=? 59)
    then Some (days_from_civil y m d * msPerDay
               + h * 3600000 + mi * 60000 + sec * 1000 + ms)
    else None
  | None => None end | None => None end | None => None end | None => None end
  | None => None end | None => None end | None => None end | None => None end
  | None => None end | None => None end | None => None end | None => None end
  | None => None end.

Definition sql_date (s : string) : option string :=
  match parse s with
  | Some t => Some (date_string t)
  | None => None
  end.

Definition platform (index_walk : bool) : Platform :=
  mkPlatform (sort_by index_walk) toISOString parse
    (fun t n => t + n * msPerDay)
    sql_date date_string
    (fun t => (date_string t ++ " " ++ time_string t)%string).

End Reference.

(* ================================================================= *)
(** ** The dashboard client *)

(** [lib/api.ts] and the state of the Activity Log page, as far as they
    decide which request reaches GET /api/logs.  The query string written
    by [URLSearchParams] is read back by the server's query parser; the
    pair is taken to hand each value over unchanged. *)

Module Client.

Record LogsQuery := mkLogsQuery {
  limit : option Z;
  offset : option Z;
  verdict : option string;
  tier : option Z;
  search : option string;
  since : option string
}.

(** The parameters [getLogs] sets: a number when it is not [undefined], a
    string when it is truthy. *)
Definition params (query : LogsQuery) : Server.LogsQuery :=
  Server.mkLogsQuery
    (option_map JS.numberToString (limit query))
    (option_map JS.numberToString (offset query))
    (if JS.truthy (verdict query) then verdict query else None)
    (option_map JS.numberToString (tier query))
    (if JS.truthy (search query) then search query else None)
    (if JS.truthy (since query) then since query else None).

Definition getLogs (P : Platform) (fs : FileSystem) (query : LogsQuery) : Server.Response :=
  Server.get_api_logs P fs (params query).

Inductive VerdictFilter := VerdictAll | VerdictPass | VerdictBlock | VerdictWarn.

Definition verdict_name (v : VerdictFilter) : string :=
  match v with
  | VerdictAll => "all"
  | VerdictPass => "pass"
  | VerdictBlock => "block"
  | VerdictWarn => "warn"
  end.

(** [type TierFilter = 0 | 1 | 2 | 3]. *)
Inductive TierFilter := Tier0 | Tier1 | Tier2 | Tier3.

Definition tier_number (t : TierFilter) : Z :=
  match t with
  | Tier0 => 0
  | Tier1 => 1
  | Tier2 => 2
  | Tier3 => 3
  end.

Inductive TimeFilter := Hour | Day | Week | AllTime.

Definition PAGE_SIZE : Z := 50.

(** [now] is the reading of [Date.now()]. *)
Definition getTimeSince (P : Platform) (filter : TimeFilter) (now : Z) : option string :=
  match filter with
  | AllTime => None
  | Hour => Some (toISOString P (now - 60 * 60 * 1000))
  | Day => Some (toISOString P (now - 24 * 60 * 60 * 1000))
  | Week => Some (toISOString P (now - 7 * 24 * 60 * 60 * 1000))
  end.

(** The state of the Activity Log page that [loadData] reads. *)
Record ActivityLog := mkActivityLog {
  page : Z;
  search_box : string;
  verdictFilter : VerdictFilter;
  tierFilter : TierFilter;
  timeFilter : TimeFilter
}.

(** The argument [loadData] passes to [getLogs]. *)
Definition loadData_query (P : Platform) (st : ActivityLog) (now : Z) : LogsQuery :=
  mkLogsQuery
    (Some PAGE_SIZE)
    (Some ((page st - 1) * PAGE_SIZE))
    (match verdictFilter st with
     | VerdictAll => None
     | v => Some (verdict_name v)
     end)
    (match tierFilter st with
     | Tier0 => None
     | t => Some (tier_number t)
     end)
    (match search_box st with
     | EmptyString => None
     | text => Some text
     end)
    (getTimeSince P (timeFilter st) now).

Definition loadData (P : Platform) (fs : FileSystem) (st : ActivityLog) (now : Z)
    : Server.Response :=
  getLogs P fs (loadData_query P st now).

(** [Math.max(1, Math.ceil(total / PAGE_SIZE))]. *)
Definition totalPages (total : Z) : Z := Z.max 1 (- ((- total) / PAGE_SIZE)).

(** The two paging buttons. *)
Definition previous_page (st : ActivityLog) : Z := Z.max 1 (page st - 1).
Definition next_page (total : Z) (st : ActivityLog) : Z :=
  Z.min (totalPages total) (page st + 1).

End Client.

(* ================================================================= *)
(** ** The Overview page: session health *)

Module Overview.

Inductive HealthStatus := HEALTHY | WARNING | ALERT.

Definition computeHealth (stats : Server.LogStats) : HealthStatus * string :=
  if (3 <? Server.blockedCount stats) || (1 <? Server.unverifiedTier1Count stats) then
    (ALERT,
     (JS.numberToString (Server.blockedCount stats) ++ " blocked actions, " ++
      JS.numberToString (Server.unverifiedTier1Count stats) ++ " unverified Tier 1")%string)
  else if 0 <? Server.unverifiedTier1Count stats then
    (WARNING, "Unverified Tier 1 actions detected")
  else (HEALTHY, "All systems operating normally").

End Overview.

(* ================================================================= *)
(** ** [lib/utils.ts] *)

Module Utils.

Definition truncate (str : string) (maxLen : Z) : string :=
  if Z.of_nat (String.length str) <=? maxLen then str
  else (JS.slice0 str maxLen ++ "...")%string.




(** [now] is the reading of [Date.now()]; [toLocaleDateString] stands for
    [new Date(isoString).toLocaleDateString()].  A timestamp that does not
    parse gives NaN, of which every comparison is false. *)
Definition formatRelativeTime (P : Platform) (toLocaleDateString : string -> string)
    (now : Z) (isoString : string) : string :=
  match Date_parse P isoString with
  | None => toLocaleDateString isoString
  | Some then_ =>
      let diff := now - then_ in
      let seconds := diff / 1000 in
      let minutes := seconds / 60 in
      let hours := minutes / 60 in
      let days := hours / 24 in
      if seconds <? 60 then "Just now"
      else if minutes <? 60 then (JS.numberToString minutes ++ " min ago")%string
      else if hours <? 24 then (JS.numberToString hours ++ "h ago")%string
      else if days <? 7 then (JS.numberToString days ++ "d ago")%string
      else toLocaleDateString isoString
  end.

End Utils.

(* ================================================================= *)
(** ** The Goals and Security Rules pages: edits of the draft *)

Module Goals.

(** [arr.splice(i, 1)]: the array without the element at [i]. *)
Definition remove_at {A : Type} (i : nat) (arr : list A) : list A :=
  firstn i arr ++ skipn (S i) arr.

(** [arr.splice(i, 0, item)]. *)
Definition insert_at {A : Type} (i : nat) (item : A) (arr : list A) : list A :=
  firstn i arr ++ item :: skipn i arr.

(** [reorder(arr, from, to)]; [undefined] is what [splice] yields when
    there is nothing at [from]. *)
Definition reorder {A : Type} (undefined : A) (arr : list A) (from to : nat) : list A :=
  let item := nth from arr undefined in
  insert_at to item (remove_at from arr).

Record Priority := mkPriority { rank : Z; text : string }.

(** The renumbering [handleSave] applies to the priorities. *)
Fixpoint rerank_from (i : Z) (priorities : list Priority) : list Priority :=
  match priorities with
  | [] => []
  | p :: rest => mkPriority (i + 1) (text p) :: rerank_from (i + 1) rest
  end.

Definition rerank (priorities : list Priority) : list Priority :=
  rerank_from 0 priorities.

(** The click on an action type of the Security Rules page. *)
Definition toggle_blocked (type : string) (blockedActions : list string) : list string :=
  if existsb (String.eqb type) blockedActions
  then filter (fun a => negb (String.eqb a type)) blockedActions
  else blockedActions ++ [type].

End Goals.

(* ================================================================= *)
(** ** Vocabulary of the specification *)

Module Spec.

(** Most recent first. *)
Definition newest_first : list Action -> Prop :=
  StronglySorted (fun a b => String.leb (timestamp b) (timestamp a) = true).


(** The elements of [l] at the positions [offset, offset + limit). *)
Definition slice {A : Type} (offset limit : Z) (l : list A) : list A :=
  firstn (Z.to_nat limit) (skipn (Z.to_nat offset) l).

(** The value supplied for a query parameter: none when the parameter is
    omitted or empty. *)
Definition supplied (p : option string) : option string :=
  match p with
  | Some (String c s) => Some (String c s)
  | _ => None
  end.

(** What each of the four filters asks of a row. *)
Definition verdict_filter (q : Server.LogsQuery) (r : Action) : bool :=
  match supplied (Server.q_verdict q) with
  | Some v => if String.eqb v "all" then true else String.eqb (verdict r) v
  | None => true
  end.

Definition tier_filter (q : Server.LogsQuery) (r : Action) : bool :=
  match supplied (Server.q_tier q) with
  | Some s =>
      match JS.parseInt (Some s) with
      | Some t => tier r =? t
      | None => false
      end
  | None => true
  end.

Definition search_filter (q : Server.LogsQuery) (r : Action) : bool :=
  match supplied (Server.q_search q) with
  | Some s =>
      let like := ("%" ++ s ++ "%")%string in
      Sql.like like (action_type r) || Sql.like like (target r) ||
      Sql.like like (description r)
  | None => true
  end.

Definition since_filter (q : Server.LogsQuery) (r : Action) : bool :=
  match supplied (Server.q_since q) with
  | Some s => String.leb s (timestamp r)
  | None => true
  end.

(** A row matches a query when it passes every filter. *)
Definition matches (q : Server.LogsQuery) (r : Action) : bool :=
  verdict_filter q r && tier_filter q r && search_filter q r && since_filter q r.


(** The number of rows with the property [p]. *)
Fixpoint number_of (p : Action -> bool) (rows : list Action) : Z :=
  match rows with
  | [] => 0
  | r :: rows' => (if p r then 1 else 0) + number_of p rows'
  end.




(** An event strictly older than the cut-off, timestamps being compared as
    ISO-8601 strings. *)
Definition older_than (cutoff : string) (r : Action) : bool :=
  String.ltb (timestamp r) cutoff.

(** What is reported of a day as best or worst day. *)
Definition day_of (e : Server.DailyScore) : Server.DayScore :=
  Server.mkDayScore (Server.date e) (Server.overall e).



(** [p] starts [s], letters compared without regard to (ASCII) case. *)
Fixpoint prefix_nocase (p s : string) : bool :=
  match p, s with
  | EmptyString, _ => true
  | String c p', String d s' => Sql.eq_nocase c d && prefix_nocase p' s'
  | String _ _, EmptyString => false
  end.

(** [needle] occurs in [hay] as a substring, in the same sense. *)
Fixpoint contains_nocase (needle hay : string) : bool :=
  prefix_nocase needle hay ||
  match hay with
  | EmptyString => false
  | String _ hay' => contains_nocase needle hay'
  end.

(** The search filter of the specification: the string occurs in one of
    the three text fields. *)
Definition search_hits (search : string) (r : Action) : bool :=
  contains_nocase search (action_type r) || contains_nocase search (target r) ||
  contains_nocase search (description r).

(** A search string free of the two characters that [LIKE] reads as
    wildcards. *)
Fixpoint plain (s : string) : bool :=
  match s with
  | EmptyString => true
  | String c s' => negb (Ascii.eqb c "%") && negb (Ascii.eqb c "_") && plain s'
  end.

(** The rows of the [actions] table of a file, none when there is no
    file or no table. *)
Definition stored (fs : FileSystem) : list Action :=
  match LogStore.actions_of fs with
  | Some rows => rows
  | None => []
  end.

(** Comparison by a first key, then by a second. *)
Definition lex (c1 c2 : comparison) : comparison :=
  match c1 with
  | Eq => c2
  | _ => c1
  end.

(** A date of the calendar. *)
Definition valid_date (y m d : Z) : Prop :=
  1 <= m <= 12 /\ 1 <= d <= Reference.days_in_month y m.

(** A table whose ids are all different and none above the high-water
    mark. *)
Definition ids_in_order (fs : FileSystem) : Prop :=
  NoDup (map id (stored fs)) /\
  Forall (fun r => id r <= LogStore.seq_of fs) (stored fs).

(** A timestamp within the closed range from [start] to [end_]. *)
Definition in_range (start end_ : string) (r : Action) : bool :=
  String.leb start (timestamp r) && String.leb (timestamp r) end_.

(** An integer that a JavaScript number holds exactly and that [String]
    writes with all its digits. *)
Definition safe_integer (n : Z) : Prop := Z.abs n <= 9007199254740991.

Definition safe (n : option Z) : Prop :=
  match n with
  | Some n => safe_integer n
  | None => True
  end.

(** What a query of the client asks of a row, read off its typed fields. *)
Definition asked (query : Client.LogsQuery) (r : Action) : bool :=
  (match Client.verdict query with
   | Some v => String.eqb v "" || String.eqb v "all" || String.eqb (verdict r) v
   | None => true
   end) &&
  (match Client.tier query with
   | Some t => tier r =? t
   | None => true
   end) &&
  (match Client.search query with
   | Some s =>
       String.eqb s "" ||
       (let like := ("%" ++ s ++ "%")%string in
        Sql.like like (action_type r) || Sql.like like (target r) ||
        Sql.like like (description r))
   | None => true
   end) &&
  (match Client.since query with
   | Some s => String.leb s (timestamp r)
   | None => true
   end).

(** The limit and the offset a query of the client ends up with. *)
Definition asked_limit (query : Client.LogsQuery) : Z :=
  match Client.limit query with
  | Some n => if n =? 0 then 50 else n
  | None => 50
  end.

Definition asked_offset (query : Client.LogsQuery) : Z :=
  match Client.offset query with
  | Some n => n
  | None => 0
  end.

(** What the Activity Log page shows of the log, read off its controls. *)
Definition shown (P : Platform) (st : Client.ActivityLog) (now : Z) (r : Action) : bool :=
  (match Client.verdictFilter st with
   | Client.VerdictAll => true
   | v => String.eqb (verdict r) (Client.verdict_name v)
   end) &&
  (match Client.tierFilter st with
   | Client.Tier0 => true
   | t => tier r =? Client.tier_number t
   end) &&
  (match Client.search_box st with
   | EmptyString => true
   | s =>
       let like := ("%" ++ s ++ "%")%string in
       Sql.like like (action_type r) || Sql.like like (target r) ||
       Sql.like like (description r)
   end) &&
  (match Client.getTimeSince P (Client.timeFilter st) now with
   | Some since => String.leb since (timestamp r)
   | None => true
   end).

(** The page with another page number and the same controls. *)
Definition with_page (st : Client.ActivityLog) (k : Z) : Client.ActivityLog :=
  Client.mkActivityLog k (Client.search_box st) (Client.verdictFilter st)
    (Client.tierFilter st) (Client.timeFilter st).

(** The length in milliseconds of the window a time filter opens. *)
Definition window (f : Client.TimeFilter) : option Z :=
  match f with
  | Client.Hour => Some 3600000
  | Client.Day => Some 86400000
  | Client.Week => Some 604800000
  | Client.AllTime => None
  end.

(** The page with another time filter and the same other controls. *)
Definition with_time (st : Client.ActivityLog) (f : Client.TimeFilter) : Client.ActivityLog :=
  Client.mkActivityLog (Client.page st) (Client.search_box st) (Client.verdictFilter st)
    (Client.tierFilter st) f.

(** How bad a health status is. *)
Definition severity (h : Overview.HealthStatus) : Z :=
  match h with
  | Overview.HEALTHY => 0
  | Overview.WARNING => 1
  | Overview.ALERT => 2
  end.

Definition blocked (r : Action) : bool := String.eqb (verdict r) "block".

Definition unverified_tier1 (r : Action) : bool := negb (key_was_valid r) && (tier r =? 1).

(** The day a review is counted under, and the reviews of a day. *)
Definition day (r : Review) : string := JS.splitT0 (review_timestamp r).

Definition reviews_of_day (d : string) (rows : list Review) : list Review :=
  filter (fun r => String.eqb (day r) d) rows.

Definition scores_of (rows : list Review) : Server.Scores :=
  Server.mkScores (map overall_score rows) (map goal_alignment_score rows)
    (map security_compliance_score rows).

(** The arrays kept under each date are those of the reviews of that day
    among [done], and no date is kept without a review. *)
Definition grouped (done : list Review) (byDate : list (string * Server.Scores)) : Prop :=
  NoDup (map fst byDate) /\
  (forall r, In r done -> In (day r) (map fst byDate)) /\
  Forall (fun p => snd p = scores_of (reviews_of_day (fst p) done) /\
                   reviews_of_day (fst p) done <> []) byDate.






(** An instant of the years 0000 to 9999, which ISO-8601 writes with a
    four-digit year. *)
Definition four_digit_year (t : Z) : bool :=
  (-62167219200000 <=? t) && (t <? 253402300800000).

(** An event whose timestamp is an ISO-8601 instant. *)
Definition iso_timestamp (r : Action) : bool :=
  match Reference.parse (timestamp r) with
  | Some t => four_digit_year t
  | None => false
  end.

(** An event of the UTC day that holds the instant [now]. *)
Definition on_utc_day (now : Z) (r : Action) : bool :=
  match Reference.parse (timestamp r) with
  | Some t => t / Reference.msPerDay =? now / Reference.msPerDay
  | None => false
  end.

End Spec.

(* ================================================================= *)
(** ** Data of the examples *)

Module Demo.

(** An action event with the fields the examples look at. *)
Definition ev (i : Z) (ts : string) (valid : bool) (t : Z) (v : string) : Action :=
  mkAction i ts "2024-05-01T08:00:00.000Z" "send_email" "ops@example.org" 0
    "weekly report" v "" valid t "2024-05-01 08:00:00".

Definition db_of (rows : list Action) : Database :=
  mkDatabase (Some rows) (Z.of_nat (List.length rows)) None.

Definition no_query : Server.LogsQuery :=
  Server.mkLogsQuery None None None None None None.

Definition paged (limit offset : string) : Server.LogsQuery :=
  Server.mkLogsQuery (Some limit) (Some offset) None None None None.

(** The engine that sorts, and the engine that walks the timestamp index. *)
Definition sorting : Platform := Reference.platform false.
Definition walking : Platform := Reference.platform true.

(** Two events logged within the same millisecond. *)
Definition tied : list Action :=
  [ ev 1 "2024-05-01T09:00:00.000Z" true 1 "pass";
    ev 2 "2024-05-01T09:00:00.000Z" true 1 "pass" ].



(** Five events with tiers 1, 1, 2, 3, 1, the first and the last without
    a valid key. *)
Definition five : list Action :=
  [ ev 1 "2024-05-01T09:00:00.000Z" false 1 "pass";
    ev 2 "2024-05-01T09:01:00.000Z" true 1 "pass";
    ev 3 "2024-05-01T09:02:00.000Z" true 2 "pass";
    ev 4 "2024-05-01T09:03:00.000Z" true 3 "pass";
    ev 5 "2024-05-01T09:04:00.000Z" false 1 "pass" ].

(** A review with the fields the examples look at. *)
Definition rv (i : Z) (ts : string) (overall : Q) : Review :=
  mkReview i ts ts "B" overall overall overall overall 10 8 1 "{}" "[]".

Definition reviews_db (revs : list Review) : Database :=
  mkDatabase (Some []) 0 (Some revs).

(** 2024-05-15T12:00:00.000Z. *)
Definition noon_may_15 : Z := 1715774400000.

(** Reviews scoring [before] on the days 8 to 13 before May 15 and [after]
    on the days 1 to 6 before it. *)
Definition fortnight (before after : Q) : list Review :=
  [ rv 1 "2024-05-02T10:00:00.000Z" before;
    rv 2 "2024-05-04T10:00:00.000Z" before;
    rv 3 "2024-05-07T10:00:00.000Z" before;
    rv 4 "2024-05-09T10:00:00.000Z" after;
    rv 5 "2024-05-12T10:00:00.000Z" after;
    rv 6 "2024-05-14T10:00:00.000Z" after ].

(** A store constructed at noon on May 15 and initialized. *)
Definition store : LogStore.t :=
  snd (LogStore.initialize None (LogStore.constructor sorting "/home/op" noon_may_15)).

(** Three events: one a millisecond more than 14 days before that noon, one
    exactly 14 days before it, and a younger one. *)
Definition just_older : Action := ev 1 "2024-05-01T11:59:59.999Z" true 1 "pass".
Definition at_cutoff : Action := ev 2 "2024-05-01T12:00:00.000Z" true 1 "pass".
Definition younger : Action := ev 3 "2024-05-09T12:00:00.000Z" true 1 "pass".

Definition three : list Action := [just_older; at_cutoff; younger].

Definition day (d : string) (overall : Q) : Server.DailyScore :=
  Server.mkDailyScore d overall overall overall.

(** Four days, the first two both scoring 90, the last two both 40. *)
Definition four_days : list Server.DailyScore :=
  [ day "2024-05-01" 90; day "2024-05-02" 90; day "2024-05-03" 40;
    day "2024-05-04" 40 ].

Definition tier_query (t : string) : Server.LogsQuery :=
  Server.mkLogsQuery None None None (Some t) None None.


Definition search_query (s : string) : Server.LogsQuery :=
  Server.mkLogsQuery None None None None (Some s) None.

(** An event none of whose text fields holds an underscore or a percent
    sign. *)
Definition login : Action :=
  mkAction 1 "2024-05-01T09:00:00.000Z" "2024-05-01T08:00:00.000Z" "login"
    "console" 0 "operator signed in" "pass" "" true 2 "2024-05-01 09:00:00".

(** Two entries with timestamps of their own, logged an hour and two
    hours after the store was constructed. *)
Definition entry (ts : string) (v : string) : LogStore.LogEntry :=
  LogStore.mkLogEntry ts "delete_file" "/tmp/report.txt" 0 "remove a draft" v ""
    false None.

Definition session : list LogStore.call :=
  [ LogStore.Initialize;
    LogStore.LogAction (noon_may_15 + 3600000) (entry "2024-05-15T12:59:58.120Z" "warn");
    LogStore.LogAction (noon_may_15 + 7200000) (entry "2031-01-01T00:00:00.000Z" "block") ].

(** Calls on a store that has not been initialized. *)
Definition early_calls : list LogStore.call :=
  [ LogStore.LogAction (noon_may_15 + 3600000) (entry "2024-05-15T12:59:58.120Z" "warn");
    LogStore.CleanupOldLogs noon_may_15 14 ].

(** The file that holds the three events, and what is left of it once the
    events older than 14 days are cleaned up. *)
Definition three_file : FileSystem := Some (db_of three).

Definition cleaned : FileSystem * LogStore.t :=
  LogStore.run sorting (three_file, store) [LogStore.CleanupOldLogs noon_may_15 14].

Definition warned : LogStore.LogEntry := entry "2024-05-15T12:59:58.120Z" "warn".

(** The file after [warned] has been logged to the cleaned file. *)
Definition logged : FileSystem :=
  match LogStore.logAction sorting (fst cleaned) (snd cleaned) (noon_may_15 + 3600000) warned with
  | Ok (fs', _) => fs'
  | Throw _ => None
  end.

(** A typed query of the client: page size 0, verdict pass, tier 1. *)
Definition typed_query : Client.LogsQuery :=
  Client.mkLogsQuery (Some 0) None (Some "pass") (Some 1) None None.

(** The Activity Log page as it opens, and with the filter of the last
    hour. *)
Definition opening : Client.ActivityLog :=
  Client.mkActivityLog 1 "" Client.VerdictAll Client.Tier0 Client.AllTime.

Definition last_hour : Client.ActivityLog :=
  Client.mkActivityLog 1 "" Client.VerdictAll Client.Tier0 Client.Hour.

Definition second_page : Client.ActivityLog :=
  Client.mkActivityLog 2 "" Client.VerdictAll Client.Tier0 Client.AllTime.

(** A parser that reads the two documents of the reviews of [rv]. *)
Definition JSON_parse (s : string) : option json :=
  if String.eqb s "{}" then Some (JObj [])
  else if String.eqb s "[]" then Some (JArr [])
  else None.

End Demo.

(* ================================================================= *)
(** * Properties *)

(** ** The order on timestamps *)

(** Timestamps are compared as SQLite compares TEXT: byte by byte, a
    proper prefix coming first.  [String.leb] is that order. *)

Lemma string_compare_refl (a : string) : String.compare a a = Eq.
Proof.
  induction a as [|c a IH]; simpl; [reflexivity|].
  unfold Ascii.compare. now rewrite N.compare_refl.
Qed.

Lemma string_compare_not_gt_trans (a b c : string) :
  String.compare a b <> Gt -> String.compare b c <> Gt -> String.compare a c <> Gt.
Proof.
  revert b c.
  induction a as [|x a IH]; intros [|y b] [|z c]; simpl; try congruence.
  unfold Ascii.compare.
  destruct (N.compare_spec (N_of_ascii x) (N_of_ascii y)) as [Hxy|Hxy|Hxy];
  destruct (N.compare_spec (N_of_ascii y) (N_of_ascii z)) as [Hyz|Hyz|Hyz];
  destruct (N.compare_spec (N_of_ascii x) (N_of_ascii z)) as [Hxz|Hxz|Hxz];
  try congruence; try lia; intros; eauto.
Qed.

Lemma string_leb_trans (a b c : string) :
  String.leb a b = true -> String.leb b c = true -> String.leb a c = true.
Proof.
  unfold String.leb. intros Hab Hbc.
  assert (H : String.compare a c <> Gt).
  { apply (string_compare_not_gt_trans a b c).
    - destruct (String.compare a b); congruence.
    - destruct (String.compare b c); congruence. }
  destruct (String.compare a c); congruence.
Qed.

Lemma string_ltb_leb_false (a b : string) :
  String.ltb a b = negb (String.leb b a).
Proof.
  unfold String.ltb, String.leb. rewrite (String.compare_antisym a b).
  now destruct (String.compare b a).
Qed.

Lemma string_ltb_leb (a b : string) : String.ltb a b = true -> String.leb a b = true.
Proof.
  unfold String.ltb, String.leb. now destruct (String.compare a b).
Qed.

Lemma string_ltb_irrefl (a : string) : String.ltb a a = false.
Proof. unfold String.ltb. now rewrite string_compare_refl. Qed.

#[local] Instance key_ordered_trans (desc : bool) : Transitive (key_ordered desc).
Proof.
  intros a b c. unfold key_ordered. destruct desc; intros H1 H2.
  - exact (string_leb_trans _ _ _ H2 H1).
  - exact (string_leb_trans _ _ _ H1 H2).
Qed.

(** ** The reference platform meets the contract of [ORDER BY] *)

Section InsertRow.
Context {A : Type} (R : A -> A -> Prop) (before : A -> A -> bool).
Hypothesis R_trans : forall x y z, R x y -> R y z -> R x z.
Hypothesis before_true : forall x y, before x y = true -> R x y.
Hypothesis before_false : forall x y, before x y = false -> R y x.

Lemma insert_row_perm (x : A) (l : list A) :
  Permutation (x :: l) (Reference.insert_row before x l).
Proof.
  induction l as [|y l IH]; simpl; [reflexivity|].
  destruct (before x y); [reflexivity|].
  rewrite perm_swap. now apply perm_skip.
Qed.

Lemma insert_row_sorted (x : A) (l : list A) :
  StronglySorted R l -> StronglySorted R (Reference.insert_row before x l).
Proof.
  induction 1 as [|y l Hs IH Hy]; simpl.
  - constructor; constructor.
  - destruct (before x y) eqn:E.
    + constructor; [now constructor|].
      constructor; [now apply before_true|].
      eapply Forall_impl; [|exact Hy].
      intros z Hz. eapply R_trans; [apply before_true; exact E|exact Hz].
    + constructor; [exact IH|].
      eapply Permutation_Forall; [apply insert_row_perm|].
      constructor; [now apply before_false|exact Hy].
Qed.
End InsertRow.

Lemma goes_before_true {A : Type} (iw : bool) (key : A -> string) (desc : bool) (x y : A) :
  Reference.goes_before iw key desc x y = true -> key_ordered desc (key x) (key y).
Proof.
  unfold Reference.goes_before, key_ordered.
  destruct desc; [destruct iw|]; auto using string_ltb_leb.
Qed.

Lemma goes_before_false {A : Type} (iw : bool) (key : A -> string) (desc : bool) (x y : A) :
  Reference.goes_before iw key desc x y = false -> key_ordered desc (key y) (key x).
Proof.
  unfold Reference.goes_before, key_ordered.
  destruct desc; [destruct iw|]; intros H.
  - rewrite string_ltb_leb_false in H. now destruct (String.leb (key x) (key y)).
  - destruct (String.leb_total (key y) (key x)); congruence.
  - destruct (String.leb_total (key x) (key y)); congruence.
Qed.

Lemma sort_by_perm (iw : bool) (A : Type) (key : A -> string) (desc : bool) (l : list A) :
  Permutation l (Reference.sort_by iw A key desc l).
Proof.
  induction l as [|x l IH]; simpl; [constructor|].
  etransitivity; [apply perm_skip, IH|apply insert_row_perm].
Qed.

Lemma sort_by_sorted (iw : bool) (A : Type) (key : A -> string) (desc : bool) (l : list A) :
  StronglySorted (fun a b => key_ordered desc (key a) (key b))
                 (Reference.sort_by iw A key desc l).
Proof.
  induction l as [|x l IH]; simpl; [constructor|].
  apply insert_row_sorted with (R := fun a b => key_ordered desc (key a) (key b)).
  - intros a b c. apply key_ordered_trans.
  - apply goes_before_true.
  - apply goes_before_false.
  - exact IH.
Qed.

Lemma reference_platform_ok (iw : bool) : platform_ok (Reference.platform iw).
Proof.
  intros A key desc l. split; [apply sort_by_perm|apply sort_by_sorted].
Qed.

(** ** GET /api/logs: order and pagination *)

Lemma StronglySorted_skipn {A : Type} (R : A -> A -> Prop) (n : nat) (l : list A) :
  StronglySorted R l -> StronglySorted R (skipn n l).
Proof.
  revert l. induction n as [|n IH]; intros l H; [exact H|].
  destruct l as [|x l]; simpl; [constructor|].
  apply IH. now inversion H.
Qed.

Lemma StronglySorted_firstn {A : Type} (R : A -> A -> Prop) (n : nat) (l : list A) :
  StronglySorted R l -> StronglySorted R (firstn n l).
Proof.
  revert l. induction n as [|n IH]; intros l H; simpl; [constructor|].
  destruct l as [|x l]; [constructor|].
  inversion H as [|? ? Hl Hx]; subst. constructor; [now apply IH|].
  rewrite Forall_forall in *. intros y Hy. apply Hx.
  rewrite <- (firstn_skipn n l). apply in_or_app. now left.
Qed.

Lemma limit_offset_sorted {A : Type} (R : A -> A -> Prop) (lim off : Z) (l : list A) :
  StronglySorted R l -> StronglySorted R (Sql.limit_offset lim off l).
Proof.
  intros H. unfold Sql.limit_offset.
  destruct (lim <? 0); [|apply StronglySorted_firstn]; now apply StronglySorted_skipn.
Qed.

(** The full ordering a platform gives to the rows matching [q]. *)
Lemma logs_full_ordering (P : Platform) (rows : list Action) (q : Server.LogsQuery) :
  platform_ok P ->
  let full := orderBy P Action timestamp true
                (filter (Server.where_ (Server.conditions q)) rows) in
  Permutation (filter (Server.where_ (Server.conditions q)) rows) full /\
  Spec.newest_first full.
Proof.
  intros HP full.
  destruct (HP Action timestamp true (filter (Server.where_ (Server.conditions q)) rows))
    as [Hperm Hsort].
  split; [exact Hperm|exact Hsort].
Qed.






(** ** GET /api/logs: the filters *)

Lemma where_app (c1 c2 : list Server.condition) (r : Action) :
  Server.where_ (c1 ++ c2) r = Server.where_ c1 r && Server.where_ c2 r.
Proof. unfold Server.where_. apply forallb_app. Qed.


(** The conjunction of the pushed conditions is the conjunction of the four
    filters. *)
Lemma where_matches (q : Server.LogsQuery) (r : Action) :
  Server.where_ (Server.conditions q) r = Spec.matches q r.
Proof.
  destruct q as [l o v t s si].
  unfold Server.conditions, Spec.matches, Server.tier_param,
    Spec.verdict_filter, Spec.tier_filter, Spec.search_filter, Spec.since_filter.
  cbn [Server.q_verdict Server.q_tier Server.q_search Server.q_since].
  rewrite !where_app, !andb_assoc.
  f_equal; [f_equal; [f_equal|]|].
  - destruct v as [[|c v]|]; try reflexivity.
    cbn [JS.truthy Spec.supplied andb].
    destruct (String.eqb (String c v) "all"); cbn [negb]; [reflexivity|].
    unfold Server.where_. cbn [forallb Server.eval_condition]. apply andb_true_r.
  - destruct t as [[|c t]|]; try reflexivity.
    cbn [JS.truthy Spec.supplied].
    unfold Server.where_. cbn [forallb Server.eval_condition].
    destruct (JS.parseInt (Some (String c t))); now rewrite ?andb_true_r.
  - destruct s as [[|c s]|]; try reflexivity.
    cbn [JS.truthy Spec.supplied].
    unfold Server.where_. cbn [forallb Server.eval_condition]. apply andb_true_r.
  - destruct si as [[|c si]|]; try reflexivity.
    cbn [JS.truthy Spec.supplied].
    unfold Server.where_. cbn [forallb Server.eval_condition]. apply andb_true_r.
Qed.

Lemma filter_where_matches (q : Server.LogsQuery) (rows : list Action) :
  filter (Server.where_ (Server.conditions q)) rows = filter (Spec.matches q) rows.
Proof. apply filter_ext. intros r. apply where_matches. Qed.



Lemma limit_offset_incl {A : Type} (lim off : Z) (l : list A) (x : A) :
  In x (Sql.limit_offset lim off l) -> In x l.
Proof.
  unfold Sql.limit_offset. intros H.
  assert (Hs : In x (skipn (Z.to_nat off) l)).
  { destruct (lim <? 0); [exact H|].
    rewrite <- (firstn_skipn (Z.to_nat lim) (skipn (Z.to_nat off) l)).
    apply in_or_app. now left. }
  rewrite <- (firstn_skipn (Z.to_nat off) l). apply in_or_app. now right.
Qed.




(** ** GET /api/logs/stats *)

Lemma count_number_of (p : Action -> bool) (rows : list Action) :
  Sql.count p rows = Spec.number_of p rows.
Proof.
  unfold Sql.count.
  induction rows as [|r rows IH]; [reflexivity|].
  cbn [filter Spec.number_of]. rewrite <- IH.
  destruct (p r); cbn [List.length]; lia.
Qed.

Lemma number_of_true (rows : list Action) :
  Spec.number_of (fun _ => true) rows = Z.of_nat (List.length rows).
Proof. induction rows as [|r rows IH]; cbn [Spec.number_of List.length]; lia. Qed.

Lemma number_of_split (p : Action -> bool) (rows : list Action) :
  Spec.number_of p rows + Spec.number_of (fun r => negb (p r)) rows
  = Z.of_nat (List.length rows).
Proof.
  induction rows as [|r rows IH]; cbn [Spec.number_of List.length]; [reflexivity|].
  destruct (p r); cbn [negb]; lia.
Qed.

Lemma number_of_tiers (rows : list Action) :
  Spec.number_of (fun r => tier r =? 1) rows
  + Spec.number_of (fun r => tier r =? 2) rows
  + Spec.number_of (fun r => tier r =? 3) rows
  = Spec.number_of (fun r => (1 <=? tier r) && (tier r <=? 3)) rows.
Proof.
  induction rows as [|r rows IH]; cbn [Spec.number_of]; [reflexivity|].
  destruct (tier r =? 1) eqn:E1, (tier r =? 2) eqn:E2, (tier r =? 3) eqn:E3,
           (1 <=? tier r) eqn:L1, (tier r <=? 3) eqn:L3; cbn [andb]; lia.
Qed.

(** C3: over every stored event set, GET /api/logs/stats reports the total
    row count, the rows with a valid key, the remainder as unverified, the
    rows with verdict "block", the rows without a valid key in tier 1, and
    the rows of tiers 1, 2 and 3 each on their own, rows of any other tier
    (tier 0) being in none of the three. *)
Theorem stats_are_counts
    (P : Platform) (db : Database) (rows : list Action) (now : Z) :
  actions db = Some rows ->
  exists s,
    Server.get_api_logs_stats P (Some db) now = Server.json_ok (Server.StatsBody s) /\
    Server.totalActions s = Z.of_nat (List.length rows) /\
    Server.sessionActions s = Server.totalActions s /\
    Server.verifiedCount s = Spec.number_of key_was_valid rows /\
    Server.unverifiedCount s = Server.totalActions s - Server.verifiedCount s /\
    Server.unverifiedCount s = Spec.number_of (fun r => negb (key_was_valid r)) rows /\
    Server.blockedCount s = Spec.number_of (fun r => String.eqb (verdict r) "block") rows /\
    Server.unverifiedTier1Count s =
      Spec.number_of (fun r => negb (key_was_valid r) && (tier r =? 1)) rows /\
    Server.t1 (Server.tierBreakdown s) = Spec.number_of (fun r => tier r =? 1) rows /\
    Server.t2 (Server.tierBreakdown s) = Spec.number_of (fun r => tier r =? 2) rows /\
    Server.t3 (Server.tierBreakdown s) = Spec.number_of (fun r => tier r =? 3) rows /\
    Server.t1 (Server.tierBreakdown s) + Server.t2 (Server.tierBreakdown s)
      + Server.t3 (Server.tierBreakdown s)
      = Server.totalActions s
        - Spec.number_of (fun r => negb ((1 <=? tier r) && (tier r <=? 3))) rows.
Proof.
  intros Hrows. eexists. split.
  - unfold Server.get_api_logs_stats. rewrite Hrows. reflexivity.
  - cbn [Server.totalActions Server.sessionActions Server.verifiedCount
         Server.unverifiedCount Server.blockedCount Server.unverifiedTier1Count
         Server.tierBreakdown Server.t1 Server.t2 Server.t3].
    rewrite !count_number_of, number_of_true.
    pose proof (number_of_split key_was_valid rows) as Hk.
    pose proof (number_of_split (fun r => (1 <=? tier r) && (tier r <=? 3)) rows) as Ht.
    pose proof (number_of_tiers rows) as H3.
    change (fun r : Action => key_was_valid r) with key_was_valid.
    repeat split; try reflexivity; lia.
Qed.

Lemma stats_are_counts_witness :
  actions (Demo.db_of Demo.five) = Some Demo.five /\
  exists s,
    Server.get_api_logs_stats Demo.sorting (Some (Demo.db_of Demo.five)) 1714557600000
      = Server.json_ok (Server.StatsBody s) /\
    Server.unverifiedTier1Count s = 2 /\
    Server.tierBreakdown s = Server.mkTierBreakdown 3 1 1 /\
    Server.verifiedCount s = 3 /\
    Server.unverifiedCount s = 2 /\
    Server.totalActions s = 5.
Proof.
  split; [reflexivity|].
  destruct (stats_are_counts Demo.sorting (Demo.db_of Demo.five) Demo.five
              1714557600000 eq_refl)
    as (s & Hresp & Htot & _ & Hver & Hunv & _ & _ & Hu1 & H1 & H2 & H3 & _).
  exists s. split; [exact Hresp|].
  split; [rewrite Hu1; reflexivity|].
  split.
  { destruct (Server.tierBreakdown s) as [b1 b2 b3].
    cbn [Server.t1 Server.t2 Server.t3] in H1, H2, H3.
    rewrite H1, H2, H3. reflexivity. }
  split; [rewrite Hver; reflexivity|].
  split; [rewrite Hunv, Htot, Hver; reflexivity|].
  rewrite Htot. reflexivity.
Defined.

(** ** GET /api/reviews/trends: the direction of the trend *)



Lemma Qltb_lt (x y : Q) : Server.Qltb x y = true <-> (x < y)%Q.
Proof.
  unfold Server.Qltb. rewrite negb_true_iff.
  split; intros H.
  - apply Qnot_le_lt. intros Hle. apply Qle_bool_iff in Hle. congruence.
  - destruct (Qle_bool y x) eqn:E; [|reflexivity].
    apply Qle_bool_iff in E. exfalso. exact (Qlt_not_le _ _ H E).
Qed.

Lemma Qltb_ge (x y : Q) : Server.Qltb x y = false <-> (y <= x)%Q.
Proof.
  unfold Server.Qltb. rewrite negb_false_iff. apply Qle_bool_iff.
Qed.






(** ** LogStore.cleanupOldLogs *)

Lemma actions_of_set_actions (fs : FileSystem) (seq : Z) (rows rows' : list Action) :
  LogStore.actions_of fs = Some rows ->
  LogStore.actions_of (LogStore.set_actions fs seq rows') = Some rows'.
Proof. destruct fs as [d|]; [reflexivity|discriminate]. Qed.

Lemma reviews_set_actions (fs : FileSystem) (seq : Z) (rows' : list Action) :
  option_map reviews (LogStore.set_actions fs seq rows') = option_map reviews fs.
Proof. now destruct fs. Qed.

Lemma cleanupOldLogs_initialized (P : Platform) (fs : FileSystem) (s : LogStore.t)
    (now retentionDays : Z) (rows : list Action) (cutoffStr : string) :
  LogStore.db s = true ->
  LogStore.actions_of fs = Some rows ->
  Date_toISOString P (addDays P now (- retentionDays)) = Ok cutoffStr ->
  LogStore.cleanupOldLogs P fs s now retentionDays
  = Ok (LogStore.set_actions fs (LogStore.seq_of fs)
          (filter (fun r => negb (Spec.older_than cutoffStr r)) rows),
        Spec.number_of (Spec.older_than cutoffStr) rows).
Proof.
  intros Hdb Hrows Hcut.
  unfold LogStore.cleanupOldLogs. rewrite Hdb, Hcut, Hrows. cbn [negb bind from_table].
  now rewrite count_number_of.
Qed.

(** C5: for every retention window N whose cut-off (now minus N days) is a
    valid date, [cleanupOldLogs(N)] on an initialized store deletes all and
    only the events whose timestamp is strictly older than the cut-off, an
    event dated exactly at the cut-off being retained; it returns the
    number of rows removed; the rows that stay are unaltered and keep their
    order, and the reviews are not touched. *)
Theorem cleanup_removes_strictly_older
    (P : Platform) (fs : FileSystem) (s : LogStore.t) (now retentionDays : Z)
    (rows : list Action) (cutoffStr : string) :
  LogStore.db s = true ->
  LogStore.actions_of fs = Some rows ->
  Date_toISOString P (addDays P now (- retentionDays)) = Ok cutoffStr ->
  exists fs' kept,
    LogStore.cleanupOldLogs P fs s now retentionDays
      = Ok (fs', Spec.number_of (Spec.older_than cutoffStr) rows) /\
    LogStore.actions_of fs' = Some kept /\
    kept = filter (fun r => negb (Spec.older_than cutoffStr r)) rows /\
    (forall r, In r kept <-> In r rows /\ Spec.older_than cutoffStr r = false) /\
    (forall r, In r rows -> timestamp r = cutoffStr -> In r kept) /\
    Spec.number_of (Spec.older_than cutoffStr) rows
      = Z.of_nat (List.length rows) - Z.of_nat (List.length kept) /\
    option_map reviews fs' = option_map reviews fs.
Proof.
  intros Hdb Hrows Hcut.
  exists (LogStore.set_actions fs (LogStore.seq_of fs)
            (filter (fun r => negb (Spec.older_than cutoffStr r)) rows)),
         (filter (fun r => negb (Spec.older_than cutoffStr r)) rows).
  assert (Hin : forall r,
    In r (filter (fun r => negb (Spec.older_than cutoffStr r)) rows) <->
    In r rows /\ Spec.older_than cutoffStr r = false).
  { intros r. rewrite filter_In, negb_true_iff. reflexivity. }
  split; [|split; [|split; [|split; [|split; [|split]]]]].
  - now apply cleanupOldLogs_initialized.
  - eapply actions_of_set_actions; eassumption.
  - reflexivity.
  - exact Hin.
  - intros r Hr Hts. apply Hin. split; [exact Hr|].
    unfold Spec.older_than. rewrite Hts. apply string_ltb_irrefl.
  - rewrite <- (number_of_split (Spec.older_than cutoffStr) rows).
    rewrite <- (count_number_of (fun r => negb (Spec.older_than cutoffStr r)) rows).
    unfold Sql.count. lia.
  - apply reviews_set_actions.
Qed.

Lemma cleanup_removes_strictly_older_witness :
  LogStore.db Demo.store = true /\
  LogStore.actions_of (Some (Demo.db_of Demo.three)) = Some Demo.three /\
  Date_toISOString Demo.sorting (addDays Demo.sorting Demo.noon_may_15 (- 14))
    = Ok (timestamp Demo.at_cutoff) /\
  exists fs',
    LogStore.cleanupOldLogs Demo.sorting (Some (Demo.db_of Demo.three)) Demo.store
      Demo.noon_may_15 14 = Ok (fs', 1) /\
    LogStore.actions_of fs' = Some [Demo.at_cutoff; Demo.younger].
Proof.
  split; [reflexivity|]. split; [reflexivity|]. split; [reflexivity|].
  destruct (cleanup_removes_strictly_older Demo.sorting (Some (Demo.db_of Demo.three))
              Demo.store Demo.noon_may_15 14 Demo.three (timestamp Demo.at_cutoff)
              eq_refl eq_refl eq_refl)
    as (fs' & kept & Hrun & Hact & Hkept & _).
  exists fs'. split; [exact Hrun|]. rewrite Hact, Hkept. reflexivity.
Defined.

(** ** GET /api/reviews/trends: the best and the worst day *)

Lemma best_worst_snoc (l : list Server.DailyScore) (e : Server.DailyScore) :
  Server.best_worst (l ++ [e]) = Server.best_worst_step (Server.best_worst l) e.
Proof. unfold Server.best_worst. now rewrite fold_left_app. Qed.

Lemma best_day_first_maximum (l : list Server.DailyScore) :
  l <> [] ->
  exists pre b post,
    l = pre ++ b :: post /\
    fst (Server.best_worst l) = Some (Spec.day_of b) /\
    Forall (fun e => (Server.overall e < Server.overall b)%Q) pre /\
    Forall (fun e => (Server.overall e <= Server.overall b)%Q) post.
Proof.
  induction l as [|e l IH] using rev_ind; [congruence|]. intros _.
  rewrite best_worst_snoc.
  destruct l as [|e0 l0].
  - exists [], e, []. repeat split; constructor.
  - destruct IH as (pre & b & post & Hl & Hb & Hpre & Hpost); [discriminate|].
    destruct (Server.best_worst (e0 :: l0)) as [best worst].
    cbn [fst] in Hb. subst best. cbn [Server.best_worst_step fst Spec.day_of Server.score].
    destruct (Server.Qltb (Server.overall b) (Server.overall e)) eqn:E.
    + apply Qltb_lt in E.
      exists (e0 :: l0), e, []. split; [reflexivity|]. split; [reflexivity|].
      split; [|constructor].
      rewrite Hl. apply Forall_app. split; [|constructor].
      * eapply Forall_impl; [|exact Hpre]. intros x Hx. cbv beta in *. eapply Qlt_trans; eassumption.
      * exact E.
      * eapply Forall_impl; [|exact Hpost]. intros x Hx. cbv beta in *. eapply Qle_lt_trans; eassumption.
    + apply Qltb_ge in E.
      exists pre, b, (post ++ [e]). split; [|split; [reflexivity|split; [exact Hpre|]]].
      * rewrite Hl, <- app_assoc. reflexivity.
      * apply Forall_app. split; [exact Hpost|]. constructor; [exact E|constructor].
Qed.

Lemma worst_day_first_minimum (l : list Server.DailyScore) :
  l <> [] ->
  exists pre w post,
    l = pre ++ w :: post /\
    snd (Server.best_worst l) = Some (Spec.day_of w) /\
    Forall (fun e => (Server.overall w < Server.overall e)%Q) pre /\
    Forall (fun e => (Server.overall w <= Server.overall e)%Q) post.
Proof.
  induction l as [|e l IH] using rev_ind; [congruence|]. intros _.
  rewrite best_worst_snoc.
  destruct l as [|e0 l0].
  - exists [], e, []. repeat split; constructor.
  - destruct IH as (pre & w & post & Hl & Hw & Hpre & Hpost); [discriminate|].
    destruct (Server.best_worst (e0 :: l0)) as [best worst].
    cbn [snd] in Hw. subst worst. cbn [Server.best_worst_step snd Spec.day_of Server.score].
    destruct (Server.Qltb (Server.overall e) (Server.overall w)) eqn:E.
    + apply Qltb_lt in E.
      exists (e0 :: l0), e, []. split; [reflexivity|]. split; [reflexivity|].
      split; [|constructor].
      rewrite Hl. apply Forall_app. split; [|constructor].
      * eapply Forall_impl; [|exact Hpre]. intros x Hx. cbv beta in *. eapply Qlt_trans; eassumption.
      * exact E.
      * eapply Forall_impl; [|exact Hpost]. intros x Hx. cbv beta in *. eapply Qlt_le_trans; eassumption.
    + apply Qltb_ge in E.
      exists pre, w, (post ++ [e]). split; [|split; [reflexivity|split; [exact Hpre|]]].
      * rewrite Hl, <- app_assoc. reflexivity.
      * apply Forall_app. split; [exact Hpost|]. constructor; [exact E|constructor].
Qed.

(** C6: for every non-empty list of per-day records, [best_day] is a day of
    maximal [overall] and [worst_day] a day of minimal [overall], and among
    days of equal value the first in the order of the list wins: every day
    before the reported one is strictly worse (strictly better, for the
    worst day), every day after it is no better (no worse). *)
Theorem best_worst_day_first_extreme (daily_scores : list Server.DailyScore) :
  daily_scores <> [] ->
  exists pre_b b post_b pre_w w post_w,
    daily_scores = pre_b ++ b :: post_b /\
    daily_scores = pre_w ++ w :: post_w /\
    Server.best_worst daily_scores = (Some (Spec.day_of b), Some (Spec.day_of w)) /\
    Forall (fun e => (Server.overall e < Server.overall b)%Q) pre_b /\
    Forall (fun e => (Server.overall e <= Server.overall b)%Q) post_b /\
    Forall (fun e => (Server.overall w < Server.overall e)%Q) pre_w /\
    Forall (fun e => (Server.overall w <= Server.overall e)%Q) post_w.
Proof.
  intros Hne.
  destruct (best_day_first_maximum daily_scores Hne) as (pb & b & qb & Hb & Hbest & Hb1 & Hb2).
  destruct (worst_day_first_minimum daily_scores Hne) as (pw & w & qw & Hw & Hworst & Hw1 & Hw2).
  exists pb, b, qb, pw, w, qw.
  destruct (Server.best_worst daily_scores) as [best worst].
  cbn [fst snd] in Hbest, Hworst. subst best worst.
  repeat split; assumption.
Qed.

Lemma best_worst_day_first_extreme_witness :
  Demo.four_days <> [] /\
  exists pre_b b post_b pre_w w post_w,
    Demo.four_days = pre_b ++ b :: post_b /\
    Demo.four_days = pre_w ++ w :: post_w /\
    Server.best_worst Demo.four_days = (Some (Spec.day_of b), Some (Spec.day_of w)) /\
    Forall (fun e => (Server.overall e < Server.overall b)%Q) pre_b /\
    Forall (fun e => (Server.overall e <= Server.overall b)%Q) post_b /\
    Forall (fun e => (Server.overall w < Server.overall e)%Q) pre_w /\
    Forall (fun e => (Server.overall w <= Server.overall e)%Q) post_w.
Proof.
  split; [discriminate|].
  apply (best_worst_day_first_extreme Demo.four_days). discriminate.
Defined.

(** Two days both scoring 90: the earlier one is the best day; two days
    both scoring 40: the earlier one is the worst day. *)
Example best_day_of_a_tie :
  Server.best_worst Demo.four_days
    = (Some (Server.mkDayScore "2024-05-01" 90), Some (Server.mkDayScore "2024-05-03" 40)).
Proof. reflexivity. Qed.

(** ** The read endpoints without a store *)

(** C7: when the file at [DB_PATH] does not exist, each of the four read
    endpoints answers with status 200 and its empty state: no actions and a
    total of 0, zeroed statistics, no reviews and a total of 0, and the
    zeroed trend summary without a best or a worst day. *)
Theorem read_endpoints_degrade_without_store
    (P : Platform) (JSON_parse : string -> option json) (q : Server.LogsQuery)
    (q_limit q_offset q_days : option string) (now t_cutoff t_now : Z) :
  Server.get_api_logs P None q
    = Server.mkResponse 200 (Server.LogsBody [] 0) /\
  Server.get_api_logs_stats P None now
    = Server.mkResponse 200
        (Server.StatsBody
           (Server.mkLogStats 0 0 0 0 0 0 (Server.mkTierBreakdown 0 0 0) 0%Q)) /\
  Server.get_api_reviews P JSON_parse None q_limit q_offset
    = Server.mkResponse 200 (Server.ReviewsBody [] 0) /\
  Server.get_api_reviews_trends P None q_days t_cutoff t_now
    = Server.mkResponse 200
        (Server.TrendsBody
           (Server.mkTrendsData [] (0%Q, 0%Q, 0%Q) "stable" None None)).
Proof. repeat split. Qed.

(** With the file in place but the [reviews] table never created, the two
    review endpoints still answer with their empty state. *)
Lemma review_endpoints_degrade_without_table
    (P : Platform) (JSON_parse : string -> option json) (db : Database)
    (q_limit q_offset q_days : option string) (t_cutoff t_now : Z) (cutoffStr : string) :
  reviews db = None ->
  Date_toISOString P (addDays P t_cutoff (- JS.orDefault (JS.parseInt q_days) 30))
    = Ok cutoffStr ->
  Server.get_api_reviews P JSON_parse (Some db) q_limit q_offset
    = Server.json_ok (Server.ReviewsBody [] 0) /\
  Server.get_api_reviews_trends P (Some db) q_days t_cutoff t_now
    = Server.json_ok (Server.TrendsBody Server.empty_trends).
Proof.
  intros Hnone Hcut. unfold Server.get_api_reviews, Server.get_api_reviews_trends.
  rewrite Hnone, Hcut. split; reflexivity.
Qed.

(** The same situation for the [actions] table is a failure of the two log
    endpoints. *)
Lemma log_endpoints_fail_without_table (P : Platform) (db : Database)
    (q : Server.LogsQuery) (now : Z) :
  actions db = None ->
  Server.status (Server.get_api_logs P (Some db) q) = 500 /\
  Server.status (Server.get_api_logs_stats P (Some db) now) = 500.
Proof.
  intros Hnone. unfold Server.get_api_logs, Server.get_api_logs_stats.
  rewrite Hnone. split; reflexivity.
Qed.

(** ** GET /api/logs: malformed parameters *)










(** ** GET /api/logs: the search filter *)

Lemma like_percent (p s : string) :
  Sql.like (String "%" p) s =
  Sql.like p s || match s with
                  | EmptyString => false
                  | String _ s' => Sql.like (String "%" p) s'
                  end.
Proof. destruct s; reflexivity. Qed.

Lemma like_plain_char (c : ascii) (p s : string) :
  Ascii.eqb c "%" = false -> Ascii.eqb c "_" = false ->
  Sql.like (String c p) s =
  match s with
  | EmptyString => false
  | String d s' => Sql.eq_nocase c d && Sql.like p s'
  end.
Proof. intros H1 H2. cbn [Sql.like]. now rewrite H1, H2. Qed.

Lemma like_only_percent (s : string) : Sql.like "%" s = true.
Proof.
  induction s as [|c s IH]; [reflexivity|].
  rewrite like_percent, IH. apply orb_true_r.
Qed.

Lemma like_plain_prefix (w s : string) :
  Spec.plain w = true -> Sql.like (w ++ "%") s = Spec.prefix_nocase w s.
Proof.
  revert s. induction w as [|c w IH]; intros s H.
  - apply like_only_percent.
  - cbn [Spec.plain] in H. apply andb_true_iff in H. destruct H as [H Hw].
    apply andb_true_iff in H. destruct H as [H1 H2].
    apply negb_true_iff in H1, H2.
    cbn [String.append]. rewrite (like_plain_char c _ s H1 H2).
    destruct s as [|d s]; [reflexivity|].
    cbn [Spec.prefix_nocase]. now rewrite IH.
Qed.

(** On a search string without wildcard characters, the [LIKE] pattern
    built by the handler is the substring test. *)
Lemma like_plain_contains (w s : string) :
  Spec.plain w = true -> Sql.like ("%" ++ w ++ "%") s = Spec.contains_nocase w s.
Proof.
  intros H. change ("%" ++ w ++ "%")%string with (String "%" (w ++ "%")).
  induction s as [|c s IH].
  - rewrite like_percent, (like_plain_prefix w _ H). reflexivity.
  - rewrite like_percent, (like_plain_prefix w _ H), IH. reflexivity.
Qed.

Lemma search_plain_is_substring (q : Server.LogsQuery) (w : string) (r : Action) :
  Spec.supplied (Server.q_search q) = Some w ->
  Spec.plain w = true ->
  Spec.search_filter q r = Spec.search_hits w r.
Proof.
  intros Hq Hw. unfold Spec.search_filter, Spec.search_hits. rewrite Hq.
  cbv zeta. now rewrite !(like_plain_contains w _ Hw).
Qed.

(** C9, at the input where the code departs from it: the search string
    ["_"] occurs in none of the three text fields of the event, and the
    event is returned and counted all the same, because [LIKE] reads the
    underscore as "any one character"; likewise for ["%"]. *)
Theorem search_wildcard_returns_rows_without_the_substring :
  Spec.search_hits "_" Demo.login = false /\
  Server.get_api_logs Demo.sorting (Some (Demo.db_of [Demo.login])) (Demo.search_query "_")
    = Server.json_ok (Server.LogsBody [Demo.login] 1) /\
  Server.get_api_logs Demo.sorting (Some (Demo.db_of [Demo.login])) (Demo.search_query "o%n")
    = Server.json_ok (Server.LogsBody [Demo.login] 1) /\
  Spec.search_hits "o%n" Demo.login = false.
Proof. repeat split. Qed.

(** ** LogStore: the session id *)

Lemma logAction_appends (P : Platform) (fs fs' : FileSystem) (s : LogStore.t)
    (now i : Z) (entry : LogStore.LogEntry) :
  LogStore.logAction P fs s now entry = Ok (fs', i) ->
  exists rows,
    LogStore.db s = true /\
    LogStore.actions_of fs = Some rows /\
    LogStore.actions_of fs' = Some (rows ++ [LogStore.new_row P s now i entry]) /\
    i = LogStore.next_id (LogStore.seq_of fs) rows.
Proof.
  unfold LogStore.logAction.
  destruct (LogStore.db s); cbn [negb]; [|discriminate].
  destruct (LogStore.actions_of fs) as [rows|] eqn:E; cbn [from_table bind]; [|discriminate].
  intros H. injection H as Hfs Hi. subst fs'. exists rows.
  rewrite <- Hi at 1.
  split; [reflexivity|]. split; [reflexivity|]. split; [|now rewrite Hi].
  rewrite Hi. eapply actions_of_set_actions. eassumption.
Qed.

Lemma step_sessionStart (P : Platform) (st : FileSystem * LogStore.t) (c : LogStore.call) :
  LogStore.sessionStart (snd (LogStore.step P st c)) = LogStore.sessionStart (snd st).
Proof.
  destruct c as [|now entry|now days]; cbn [LogStore.step].
  - reflexivity.
  - destruct (LogStore.logAction P (fst st) (snd st) now entry) as [[fs' i]|]; reflexivity.
  - destruct (LogStore.cleanupOldLogs P (fst st) (snd st) now days) as [[fs' n]|]; reflexivity.
Qed.

Lemma Forall_or_left {A : Type} (Q : A -> Prop) (l : list A) :
  Forall (fun r => In r l \/ Q r) l.
Proof. apply Forall_forall. intros r Hr. now left. Qed.

Lemma step_stored (P : Platform) (st : FileSystem * LogStore.t) (c : LogStore.call) :
  Forall (fun r => In r (Spec.stored (fst st)) \/
                   session_id r = LogStore.sessionStart (snd st))
         (Spec.stored (fst (LogStore.step P st c))).
Proof.
  destruct st as [fs s]. cbn [fst snd].
  destruct c as [|now entry|now days]; cbn [LogStore.step fst snd].
  - unfold LogStore.initialize, Spec.stored, LogStore.actions_of. cbn [fst].
    destruct fs as [d|]; cbn [actions]; [|constructor].
    destruct (actions d) as [rows|] eqn:E; cbn [actions]; [|constructor].
    rewrite E. apply Forall_or_left.
  - destruct (LogStore.logAction P fs s now entry) as [[fs' i]|] eqn:E; cbn [fst];
      [|apply Forall_or_left].
    apply logAction_appends in E. destruct E as (rows & _ & Hrows & Hrows' & _).
    unfold Spec.stored. rewrite Hrows, Hrows'.
    apply Forall_app. split.
    + apply Forall_forall. intros r Hr. now left.
    + constructor; [|constructor]. now right.
  - unfold LogStore.cleanupOldLogs.
    destruct (LogStore.db s); cbn [negb fst]; [|apply Forall_or_left].
    destruct (Date_toISOString P (addDays P now (- days))) as [cutoffStr|];
      cbn [bind fst]; [|apply Forall_or_left].
    destruct (LogStore.actions_of fs) as [rows|] eqn:E; cbn [from_table bind fst];
      [|apply Forall_or_left].
    unfold Spec.stored. rewrite (actions_of_set_actions fs _ rows _ E), E.
    apply Forall_forall. intros r Hr. left. now apply filter_In in Hr.
Qed.

Lemma run_stored (P : Platform) (calls : list LogStore.call) (st : FileSystem * LogStore.t) :
  LogStore.sessionStart (snd (LogStore.run P st calls)) = LogStore.sessionStart (snd st) /\
  Forall (fun r => In r (Spec.stored (fst st)) \/
                   session_id r = LogStore.sessionStart (snd st))
         (Spec.stored (fst (LogStore.run P st calls))).
Proof.
  revert st. induction calls as [|c calls IH]; intros st.
  - split; [reflexivity|apply Forall_or_left].
  - cbn [LogStore.run fold_left]. fold (LogStore.run P (LogStore.step P st c) calls).
    destruct (IH (LogStore.step P st c)) as [Hs Hrows].
    rewrite step_sessionStart in Hs, Hrows. split; [exact Hs|].
    pose proof (step_stored P st c) as Hstep.
    rewrite Forall_forall in *. intros r Hr.
    destruct (Hrows r Hr) as [Hin|Hsid]; [|now right].
    exact (Hstep r Hin).
Qed.

(** C10: every event appended through one [LogStore] object is stored with
    the same [session_id], the ISO-8601 form of the time at which the
    object was constructed, whatever the entry's own timestamp; an entry
    has no field for a session id.  After any sequence of calls on the
    object, each stored row either was in the file before or carries that
    session id. *)
Theorem events_carry_the_construction_time
    (P : Platform) (homedir : string) (t0 : Z) (fs0 : FileSystem)
    (calls : list LogStore.call) :
  let st := LogStore.run P (fs0, LogStore.constructor P homedir t0) calls in
  LogStore.sessionStart (snd st) = toISOString P t0 /\
  Forall (fun r => In r (Spec.stored fs0) \/ session_id r = toISOString P t0)
         (Spec.stored (fst st)) /\
  (forall now entry fs' i,
     LogStore.logAction P (fst st) (snd st) now entry = Ok (fs', i) ->
     exists r,
       Spec.stored fs' = Spec.stored (fst st) ++ [r] /\
       id r = i /\
       timestamp r = LogStore.e_timestamp entry /\
       session_id r = toISOString P t0).
Proof.
  intros st.
  destruct (run_stored P calls (fs0, LogStore.constructor P homedir t0)) as [Hs Hrows].
  fold st in Hs, Hrows. cbn [fst snd LogStore.constructor LogStore.sessionStart] in Hs, Hrows.
  split; [exact Hs|]. split; [exact Hrows|].
  intros now entry fs' i Hlog.
  apply logAction_appends in Hlog. destruct Hlog as (rows & _ & Hrows0 & Hrows1 & _).
  exists (LogStore.new_row P (snd st) now i entry).
  unfold Spec.stored. rewrite Hrows0, Hrows1.
  repeat split. cbn [LogStore.new_row session_id]. exact Hs.
Qed.

Lemma events_carry_the_construction_time_witness :
  toISOString Demo.sorting Demo.noon_may_15 = "2024-05-15T12:00:00.000Z" /\
  map (fun r => (id r, timestamp r, session_id r))
      (Spec.stored (fst (LogStore.run Demo.sorting
                           (None, LogStore.constructor Demo.sorting "/home/op" Demo.noon_may_15)
                           Demo.session)))
  = [ (1, "2024-05-15T12:59:58.120Z", "2024-05-15T12:00:00.000Z");
      (2, "2031-01-01T00:00:00.000Z", "2024-05-15T12:00:00.000Z") ] /\
  Forall (fun r => In r (Spec.stored None) \/
                   session_id r = toISOString Demo.sorting Demo.noon_may_15)
    (Spec.stored (fst (LogStore.run Demo.sorting
                         (None, LogStore.constructor Demo.sorting "/home/op" Demo.noon_may_15)
                         Demo.session))).
Proof.
  split; [reflexivity|]. split; [reflexivity|].
  apply (events_carry_the_construction_time Demo.sorting "/home/op" Demo.noon_may_15
           None Demo.session).
Defined.

(** ** GET /api/reviews/trends: the order of the per-day records *)

Lemma string_leb_neq_ltb (a b : string) :
  String.leb a b = true -> a <> b -> String.ltb a b = true.
Proof.
  unfold String.leb, String.ltb. intros H Hne.
  destruct (String.compare a b) eqn:E; try easy.
  apply String.compare_eq_iff in E. contradiction.
Qed.

(** The keys of [byDate] after one more row: unchanged when the date is
    already a key, the date added at the end otherwise. *)
Lemma byDate_add_keys (d : string) (r : Review) (acc : list (string * Server.Scores)) :
  map fst (Server.byDate_add d r acc) =
  if existsb (fun k => String.eqb k d) (map fst acc) then map fst acc
  else map fst acc ++ [d].
Proof.
  induction acc as [|[k sc] acc IH]; [reflexivity|].
  cbn [Server.byDate_add map fst existsb].
  destruct (String.eqb k d); cbn [orb map fst]; [reflexivity|].
  rewrite IH. now destruct (existsb (fun k0 => String.eqb k0 d) (map fst acc)).
Qed.

Lemma byDate_add_ascending (d : string) (r : Review) (acc : list (string * Server.Scores)) :
  StronglySorted (fun a b => String.ltb a b = true) (map fst acc) ->
  Forall (fun k => String.leb k d = true) (map fst acc) ->
  StronglySorted (fun a b => String.ltb a b = true) (map fst (Server.byDate_add d r acc)).
Proof.
  intros Hs Hle. rewrite byDate_add_keys.
  destruct (existsb (fun k => String.eqb k d) (map fst acc)) eqn:E; [exact Hs|].
  assert (Hlt : Forall (fun k => String.ltb k d = true) (map fst acc)).
  { rewrite Forall_forall in *. intros k Hk. apply string_leb_neq_ltb; [now apply Hle|].
    intros ->. rewrite <- not_true_iff_false in E. apply E.
    apply existsb_exists. exists d. split; [exact Hk|apply String.eqb_refl]. }
  clear E Hle. induction Hs as [|k ks Hks IH Hk]; cbn [app].
  - constructor; constructor.
  - inversion Hlt as [|? ? Hkd Hlt']; subst.
    constructor; [now apply IH|].
    apply Forall_app. split; [exact Hk|]. constructor; [exact Hkd|constructor].
Qed.

Lemma byDate_fold_ascending (rows : list Review) (acc : list (string * Server.Scores)) :
  StronglySorted (fun a b => String.leb (JS.splitT0 (review_timestamp a))
                                        (JS.splitT0 (review_timestamp b)) = true) rows ->
  StronglySorted (fun a b => String.ltb a b = true) (map fst acc) ->
  Forall (fun k => Forall (fun r => String.leb k (JS.splitT0 (review_timestamp r)) = true) rows)
         (map fst acc) ->
  StronglySorted (fun a b => String.ltb a b = true)
    (map fst (fold_left
                (fun acc r => Server.byDate_add (JS.splitT0 (review_timestamp r)) r acc)
                rows acc)).
Proof.
  revert acc. induction rows as [|r rows IH]; intros acc Hrows Hacc Hle; [exact Hacc|].
  cbn [fold_left]. inversion Hrows as [|? ? Hrows' Hr]; subst.
  assert (Hle1 : Forall (fun k => String.leb k (JS.splitT0 (review_timestamp r)) = true)
                        (map fst acc)).
  { eapply Forall_impl; [|exact Hle]. intros k Hk. now inversion Hk. }
  apply IH; [exact Hrows'|now apply byDate_add_ascending|].
  rewrite byDate_add_keys.
  assert (Hle2 : Forall (fun k => Forall (fun r0 =>
                    String.leb k (JS.splitT0 (review_timestamp r0)) = true) rows)
                  (map fst acc)).
  { eapply Forall_impl; [|exact Hle]. intros k Hk. now inversion Hk. }
  destruct (existsb _ (map fst acc)); [exact Hle2|].
  apply Forall_app. split; [exact Hle2|]. constructor; [exact Hr|constructor].
Qed.

(** The date part of a timestamp orders as the timestamp does when the
    date parts have the same length, as those of ISO-8601 timestamps do. *)
Lemma splitT0_monotone (a b : string) :
  String.length (JS.splitT0 a) = String.length (JS.splitT0 b) ->
  String.leb a b = true ->
  String.leb (JS.splitT0 a) (JS.splitT0 b) = true.
Proof.
  assert (Hnil : forall s, String.leb "" s = true) by (now intros [|c s]).
  revert b. induction a as [|x a IH]; intros b Hlen Hle; [apply Hnil|].
  destruct b as [|y b]; [discriminate Hle|].
  cbn [JS.splitT0] in *.
  destruct (Ascii.eqb x "T") eqn:Ex; [apply Hnil|].
  destruct (Ascii.eqb y "T") eqn:Ey; [discriminate Hlen|].
  cbn [String.length] in Hlen. injection Hlen as Hlen.
  unfold String.leb in *. cbn [String.compare] in *.
  destruct (Ascii.compare x y); try assumption.
  apply IH; assumption.
Qed.

(** The per-day records come out in strictly ascending date order: the rows
    are selected in ascending timestamp order, and the dates are those of
    ISO-8601 timestamps. *)
Lemma daily_scores_ascending (P : Platform) (all : list Review) (cutoffStr : string) :
  platform_ok P ->
  Forall (fun r => String.length (JS.splitT0 (review_timestamp r)) = 10%nat) all ->
  StronglySorted (fun a b => String.ltb (Server.date a) (Server.date b) = true)
    (Server.daily_scores_of
       (orderBy P Review review_timestamp false
          (filter (fun r => String.leb cutoffStr (review_timestamp r)) all))).
Proof.
  intros HP Hiso.
  destruct (HP Review review_timestamp false
              (filter (fun r => String.leb cutoffStr (review_timestamp r)) all))
    as [Hperm Hsort].
  set (rows := orderBy P Review review_timestamp false _) in *.
  assert (Hiso' : Forall (fun r => String.length (JS.splitT0 (review_timestamp r)) = 10%nat) rows).
  { eapply Permutation_Forall; [exact Hperm|].
    rewrite Forall_forall in *. intros r Hr. apply Hiso. now apply filter_In in Hr. }
  assert (Hdates : StronglySorted
            (fun a b => String.leb (JS.splitT0 (review_timestamp a))
                                   (JS.splitT0 (review_timestamp b)) = true) rows).
  { clear Hperm. induction Hsort as [|r rows' Hs IH Hr]; [constructor|].
    inversion Hiso' as [|? ? Hr10 Hrest]; subst.
    constructor; [now apply IH|].
    rewrite Forall_forall in *. intros r' Hr'.
    apply splitT0_monotone; [rewrite Hr10; symmetry; now apply Hrest|now apply Hr]. }
  pose proof (byDate_fold_ascending rows [] Hdates (SSorted_nil _) (Forall_nil _)) as H.
  fold (Server.byDate rows) in H.
  unfold Server.daily_scores_of.
  assert (Hmap : forall l : list (string * Server.Scores),
    StronglySorted (fun a b => String.ltb a b = true) (map fst l) ->
    StronglySorted (fun a b => String.ltb (Server.date a) (Server.date b) = true)
      (map (fun '(d, sc) =>
              Server.mkDailyScore d (JS.round2 (Server.avg (Server.s_overall sc)))
                (JS.round2 (Server.avg (Server.s_alignment sc)))
                (JS.round2 (Server.avg (Server.s_security sc)))) l)).
  { induction l as [|[d sc] l IHl]; cbn [map fst]; intros Hl; [constructor|].
    inversion Hl as [|? ? Hl' Hd]; subst. constructor; [now apply IHl|].
    rewrite Forall_forall in *. intros e He. apply in_map_iff in He.
    destruct He as ([d' sc'] & <- & Hin). cbn [Server.date].
    apply Hd. apply in_map_iff. now exists (d', sc'). }
  now apply Hmap.
Qed.

(** ** ISO-8601 timestamps order as the times they denote *)

(** The handlers and the store compare timestamps as strings.  For
    timestamps in the form [toISOString] writes, that order is the order of
    the instants: fields of fixed width compare as their numbers, and the
    day count grows with year, month, day. *)

Lemma digitValue_10 (c : ascii) (d : Z) :
  JS.digitValue 10 c = Some d -> Z.of_N (N_of_ascii c) = 48 + d /\ 0 <= d < 10.
Proof.
  unfold JS.digitValue. set (n := Z.of_N (N_of_ascii c)).
  destruct ((48 <=? n) && (n <=? 57)) eqn:E0.
  - apply andb_true_iff in E0. destruct E0 as [H1 H2].
    apply Z.leb_le in H1, H2.
    destruct (n - 48 <? 10); [|discriminate]. intros H. injection H as <-. lia.
  - destruct ((97 <=? n) && (n <=? 122)) eqn:E1.
    + apply andb_true_iff in E1. destruct E1 as [H1 _]. apply Z.leb_le in H1.
      destruct (n - 87 <? 10) eqn:E; [apply Z.ltb_lt in E; lia|discriminate].
    + destruct ((65 <=? n) && (n <=? 90)) eqn:E2; [|discriminate].
      apply andb_true_iff in E2. destruct E2 as [H1 _]. apply Z.leb_le in H1.
      destruct (n - 55 <? 10) eqn:E; [apply Z.ltb_lt in E; lia|discriminate].
Qed.

Lemma ascii_compare_digits (c1 c2 : ascii) (d1 d2 : Z) :
  JS.digitValue 10 c1 = Some d1 -> JS.digitValue 10 c2 = Some d2 ->
  Ascii.compare c1 c2 = Z.compare d1 d2.
Proof.
  intros H1 H2. apply digitValue_10 in H1, H2.
  unfold Ascii.compare. rewrite <- N2Z.inj_compare.
  destruct H1 as [H1 _], H2 as [H2 _]. rewrite H1, H2.
  now rewrite Z.add_compare_mono_l.
Qed.

Lemma digits_bounds (n : nat) (s : string) (acc v : Z) (rest : string) :
  Reference.digits n s acc = Some (v, rest) ->
  acc * 10 ^ Z.of_nat n <= v < (acc + 1) * 10 ^ Z.of_nat n.
Proof.
  revert s acc. induction n as [|n IH]; intros s acc H.
  - cbn in H. injection H as <- _. cbn. lia.
  - cbn [Reference.digits] in H. destruct s as [|c s]; [discriminate|].
    destruct (JS.digitValue 10 c) as [d|] eqn:E; [|discriminate].
    apply digitValue_10 in E. apply IH in H.
    rewrite Nat2Z.inj_succ, Z.pow_succ_r by lia.
    assert (0 < 10 ^ Z.of_nat n) by (apply Z.pow_pos_nonneg; lia).
    nia.
Qed.

Lemma digits_compare (n : nat) (s1 s2 : string) (acc v1 v2 : Z) (r1 r2 : string) :
  Reference.digits n s1 acc = Some (v1, r1) ->
  Reference.digits n s2 acc = Some (v2, r2) ->
  String.compare s1 s2 = Spec.lex (Z.compare v1 v2) (String.compare r1 r2).
Proof.
  revert s1 s2 acc. induction n as [|n IH]; intros s1 s2 acc H1 H2.
  - cbn in H1, H2. injection H1 as <- <-. injection H2 as <- <-.
    now rewrite Z.compare_refl.
  - cbn [Reference.digits] in H1, H2.
    destruct s1 as [|c1 s1]; [discriminate|]. destruct s2 as [|c2 s2]; [discriminate|].
    destruct (JS.digitValue 10 c1) as [d1|] eqn:E1; [|discriminate].
    destruct (JS.digitValue 10 c2) as [d2|] eqn:E2; [|discriminate].
    cbn [String.compare]. rewrite (ascii_compare_digits c1 c2 d1 d2 E1 E2).
    apply digitValue_10 in E1, E2.
    pose proof (digits_bounds _ _ _ _ _ H1) as B1.
    pose proof (digits_bounds _ _ _ _ _ H2) as B2.
    assert (0 < 10 ^ Z.of_nat n) by (apply Z.pow_pos_nonneg; lia).
    destruct (Z.compare_spec d1 d2) as [Hd|Hd|Hd].
    + subst d2. now apply (IH s1 s2 (acc * 10 + d1)).
    + assert (Hv : v1 < v2) by nia. apply Z.compare_lt_iff in Hv. now rewrite Hv.
    + assert (Hv : v2 < v1) by nia. apply Z.compare_gt_iff in Hv. now rewrite Hv.
Qed.

Lemma expect_inv (c : ascii) (s s' : string) :
  Reference.expect c s = Some s' -> s = String c s'.
Proof.
  destruct s as [|c' s0]; [discriminate|]. cbn.
  destruct (Ascii.eqb c c') eqn:E; [|discriminate].
  apply Ascii.eqb_eq in E. subst c'. now intros [= ->].
Qed.

Lemma dfc_day (y m d : Z) :
  Reference.days_from_civil y m d = Reference.days_from_civil y m 1 + d - 1.
Proof. unfold Reference.days_from_civil. cbv zeta. destruct (m <=? 2); lia. Qed.

Lemma month_start_lt (y m : Z) :
  1 <= m < 12 ->
  Reference.days_from_civil y m 1 < Reference.days_from_civil y (m + 1) 1.
Proof.
  intros Hm.
  assert (Hc : m = 1 \/ m = 2 \/ m = 3 \/ m = 4 \/ m = 5 \/ m = 6 \/ m = 7 \/
               m = 8 \/ m = 9 \/ m = 10 \/ m = 11) by lia.
  unfold Reference.days_from_civil.
  repeat (destruct Hc as [->|Hc]); [..|subst m]; cbv zeta;
    match goal with
    | |- context [(?a + 9) mod 12] =>
        let v := eval vm_compute in ((a + 9) mod 12) in
        change ((a + 9) mod 12) with v
    end;
    match goal with
    | |- context [(?a + 1 + 9) mod 12] =>
        let v := eval vm_compute in ((a + 1 + 9) mod 12) in
        change ((a + 1 + 9) mod 12) with v
    end;
    match goal with
    | |- context [?a <=? 2] =>
        let v := eval vm_compute in (a <=? 2) in
        change (a <=? 2) with v
    end;
    match goal with
    | |- context [?a + 1 <=? 2] =>
        let v := eval vm_compute in (a + 1 <=? 2) in
        change (a + 1 <=? 2) with v
    end;
    cbv iota;
    Z.to_euclidean_division_equations; lia.
Qed.

Lemma year_start_lt (y : Z) :
  Reference.days_from_civil y 12 1 < Reference.days_from_civil (y + 1) 1 1.
Proof.
  unfold Reference.days_from_civil. cbv zeta.
  change (12 <=? 2) with false. change (1 <=? 2) with true. cbv iota.
  change ((12 + 9) mod 12) with 9. change ((1 + 9) mod 12) with 10.
  replace (y + 1 - 1) with y by lia.
  Z.to_euclidean_division_equations; lia.
Qed.

Lemma year_start_step (y : Z) :
  Reference.days_from_civil y 1 1 < Reference.days_from_civil (y + 1) 1 1.
Proof.
  unfold Reference.days_from_civil. cbv zeta.
  change (1 <=? 2) with true. cbv iota.
  change ((1 + 9) mod 12) with 10.
  replace (y + 1 - 1) with y by lia.
  Z.to_euclidean_division_equations; lia.
Qed.

Lemma year_start_mono (y1 y2 : Z) :
  y1 <= y2 ->
  Reference.days_from_civil y1 1 1 <= Reference.days_from_civil y2 1 1.
Proof.
  intros H. replace y2 with (y1 + (y2 - y1)) by lia.
  assert (Hn : 0 <= y2 - y1) by lia. revert Hn.
  generalize (y2 - y1). apply natlike_ind.
  - rewrite Z.add_0_r. lia.
  - intros n Hn IH. pose proof (year_start_step (y1 + n)).
    replace (y1 + Z.succ n) with (y1 + n + 1) by lia. lia.
Qed.

Lemma month_start_mono (y m1 m2 : Z) :
  1 <= m1 -> m1 <= m2 -> m2 <= 12 ->
  Reference.days_from_civil y m1 1 <= Reference.days_from_civil y m2 1.
Proof.
  intros H1 H12 H2. replace m2 with (m1 + (m2 - m1)) by lia.
  assert (Hb : m1 + (m2 - m1) <= 12) by lia.
  assert (Hn : 0 <= m2 - m1) by lia. revert Hn Hb.
  generalize (m2 - m1). apply (natlike_ind (fun n => m1 + n <= 12 -> _ <= _)).
  - rewrite Z.add_0_r. lia.
  - intros n Hn IH Hb. pose proof (month_start_lt y (m1 + n)).
    replace (m1 + Z.succ n) with (m1 + n + 1) by lia. lia.
Qed.

Lemma before_next_month (y m d : Z) :
  Spec.valid_date y m d ->
  Reference.days_from_civil y m d
  < Reference.days_from_civil (if m =? 12 then y + 1 else y) (if m =? 12 then 1 else m + 1) 1.
Proof.
  intros [Hm Hd]. unfold Reference.days_in_month in Hd.
  rewrite (dfc_day y m d). lia.
Qed.

Lemma before_next_year (y m d : Z) :
  Spec.valid_date y m d ->
  Reference.days_from_civil y m d < Reference.days_from_civil (y + 1) 1 1.
Proof.
  intros Hv. pose proof (before_next_month y m d Hv) as H. destruct Hv as [Hm Hd].
  destruct (m =? 12) eqn:E; [exact H|].
  apply Z.eqb_neq in E.
  pose proof (month_start_mono y (m + 1) 12). pose proof (year_start_lt y). lia.
Qed.

Lemma from_month_start (y m d : Z) :
  1 <= d -> Reference.days_from_civil y m 1 <= Reference.days_from_civil y m d.
Proof. intros H. rewrite (dfc_day y m d). lia. Qed.

Lemma date_compare (y1 m1 d1 y2 m2 d2 : Z) :
  Spec.valid_date y1 m1 d1 -> Spec.valid_date y2 m2 d2 ->
  Spec.lex (y1 ?= y2) (Spec.lex (m1 ?= m2) (d1 ?= d2))
  = (Reference.days_from_civil y1 m1 d1 ?= Reference.days_from_civil y2 m2 d2).
Proof.
  assert (Hlt : forall y1 m1 d1 y2 m2 d2,
    Spec.valid_date y1 m1 d1 -> Spec.valid_date y2 m2 d2 ->
    y1 < y2 \/ (y1 = y2 /\ (m1 < m2 \/ (m1 = m2 /\ d1 < d2))) ->
    Reference.days_from_civil y1 m1 d1 < Reference.days_from_civil y2 m2 d2).
  { clear. intros y1 m1 d1 y2 m2 d2 V1 V2 H.
    destruct H as [Hy|[-> [Hm|[-> Hd]]]].
    - pose proof (before_next_year y1 m1 d1 V1).
      pose proof (year_start_mono (y1 + 1) y2).
      destruct V2 as [Hm2 Hd2].
      pose proof (month_start_mono y2 1 m2).
      pose proof (from_month_start y2 m2 d2). lia.
    - pose proof (before_next_month y2 m1 d1 V1) as H.
      destruct V1 as [Hm1 Hd1], V2 as [Hm2 Hd2].
      destruct (m1 =? 12) eqn:E; [apply Z.eqb_eq in E; lia|].
      pose proof (month_start_mono y2 (m1 + 1) m2).
      pose proof (from_month_start y2 m2 d2). lia.
    - rewrite (dfc_day y2 m2 d1), (dfc_day y2 m2 d2). lia. }
  intros V1 V2. symmetry.
  destruct (Z.compare_spec y1 y2) as [Hy|Hy|Hy]; cbn [Spec.lex].
  - subst y2. destruct (Z.compare_spec m1 m2) as [Hm|Hm|Hm]; cbn [Spec.lex].
    + subst m2. rewrite (dfc_day y1 m1 d1), (dfc_day y1 m1 d2).
      destruct (Z.compare_spec d1 d2) as [Hd|Hd|Hd].
      * subst. apply Z.compare_refl.
      * apply Z.compare_lt_iff. lia.
      * apply Z.compare_gt_iff. lia.
    + apply Z.compare_lt_iff. apply Hlt; auto.
    + apply Z.compare_gt_iff. apply Hlt; auto.
  - apply Z.compare_lt_iff. apply Hlt; auto.
  - apply Z.compare_gt_iff. apply Hlt; auto.
Qed.

Lemma lex_radix (k a1 a2 b1 b2 : Z) :
  0 <= b1 < k -> 0 <= b2 < k ->
  Spec.lex (a1 ?= a2) (b1 ?= b2) = (a1 * k + b1 ?= a2 * k + b2).
Proof.
  intros H1 H2. symmetry.
  destruct (Z.compare_spec a1 a2) as [Ha|Ha|Ha]; cbn [Spec.lex].
  - subst. now rewrite Z.add_compare_mono_l.
  - apply Z.compare_lt_iff. nia.
  - apply Z.compare_gt_iff. nia.
Qed.

Lemma compare_same_head (c : ascii) (a b : string) :
  String.compare (String c a) (String c b) = String.compare a b.
Proof. cbn [String.compare]. unfold Ascii.compare. now rewrite N.compare_refl. Qed.

Ltac read_field H :=
  match type of H with
  | context [Reference.digits ?n ?s 0] =>
      let E := fresh "Edig" in
      destruct (Reference.digits n s 0) as [[? ?]|] eqn:E; [|discriminate H]
  | context [Reference.expect ?c ?s] =>
      let E := fresh "Eexp" in
      destruct (Reference.expect c s) as [?|] eqn:E; [|discriminate H];
      apply expect_inv in E; subst s
  end.

Lemma parse_compare (s1 s2 : string) (t1 t2 : Z) :
  Reference.parse s1 = Some t1 -> Reference.parse s2 = Some t2 ->
  String.compare s1 s2 = (t1 ?= t2).
Proof.
  unfold Reference.parse. intros H1 H2.
  do 13 read_field H1. do 13 read_field H2.
  match type of H1 with (if ?c then _ else _) = _ =>
    destruct c eqn:C1; [|discriminate H1] end.
  match type of H2 with (if ?c then _ else _) = _ =>
    destruct c eqn:C2; [|discriminate H2] end.
  injection H1 as <-. injection H2 as <-.
  repeat (apply andb_true_iff in C1; destruct C1 as [C1 ?]).
  repeat (apply andb_true_iff in C2; destruct C2 as [C2 ?]).
  apply String.eqb_eq in C1, C2. subst.
  repeat match goal with H : (_ <=? _) = true |- _ => apply Z.leb_le in H end.
  repeat match goal with
  | H : Reference.digits _ _ 0 = Some _ |- _ =>
      let B := fresh "B" in pose proof (digits_bounds _ _ _ _ _ H) as B;
      cbn in B; revert H
  end.
  intros.
  repeat first
    [ rewrite compare_same_head
    | match goal with
      | Ha : Reference.digits ?n ?a 0 = Some _, Hb : Reference.digits ?n ?b 0 = Some _
        |- context [String.compare ?a ?b] =>
          rewrite (digits_compare n a b 0 _ _ _ _ Ha Hb)
      end ].
  rewrite string_compare_refl.
  match goal with
  | |- Spec.lex (?y1 ?= ?y2) (Spec.lex (?m1 ?= ?m2) (Spec.lex (?d1 ?= ?d2) ?rest)) = _ =>
      transitivity (Spec.lex (Spec.lex (y1 ?= y2) (Spec.lex (m1 ?= m2) (d1 ?= d2))) rest);
      [ destruct (y1 ?= y2), (m1 ?= m2), (d1 ?= d2); reflexivity
      | rewrite (date_compare y1 m1 d1 y2 m2 d2) by (split; lia) ]
  end.
  match goal with
  | |- Spec.lex ?D (Spec.lex (?h1 ?= ?h2) (Spec.lex (?a1 ?= ?a2) (Spec.lex (?b1 ?= ?b2) (Spec.lex (?c1 ?= ?c2) Eq)))) = _ =>
      replace (Spec.lex (c1 ?= c2) Eq) with (c1 ?= c2) by (now destruct (c1 ?= c2));
      rewrite (lex_radix 1000 b1 b2 c1 c2) by lia;
      rewrite (lex_radix 60000 a1 a2 _ _) by lia;
      rewrite (lex_radix 3600000 h1 h2 _ _) by lia
  end.
  unfold Reference.msPerDay.
  rewrite (lex_radix 86400000) by lia.
  f_equal; lia.
Qed.

(** [toISOString] and [parse] of the reference platform are inverse to
    each other on the instants of the years 0 to 9999. *)

Lemma civil_roundtrip (z : Z) :
  let '(y, m, d) := Reference.civil_from_days z in
  Reference.days_from_civil y m d = z /\ Spec.valid_date y m d /\ d <= 31.
Proof.
  unfold Reference.civil_from_days. cbv zeta.
  set (z' := z + 719468).
  set (era := z' / 146097).
  set (doe := z' - era * 146097).
  assert (Hdoe : 0 <= doe < 146097) by (unfold doe, era; Z.to_euclidean_division_equations; lia).
  set (yoe := (doe - doe / 1460 + doe / 36524 - doe / 146096) / 365).
  assert (Hyoe : 0 <= yoe <= 399) by (unfold yoe; Z.to_euclidean_division_equations; lia).
  set (doy := doe - (365 * yoe + yoe / 4 - yoe / 100)).
  assert (Hdoy : 0 <= doy <= 365).
  { unfold doy, yoe. Z.to_euclidean_division_equations. lia. }
  set (mp := (5 * doy + 2) / 153).
  assert (Hmp : 0 <= mp <= 11) by (unfold mp; Z.to_euclidean_division_equations; lia).
  set (d := doy - (153 * mp + 2) / 5 + 1).
  assert (Hd : 1 <= d <= 31) by (unfold d, mp; Z.to_euclidean_division_equations; lia).
  set (m := if mp <? 10 then mp + 3 else mp - 9).
  assert (Hm : 1 <= m <= 12 /\ (m + 9) mod 12 = mp).
  { unfold m. destruct (mp <? 10) eqn:E;
      [apply Z.ltb_lt in E|apply Z.ltb_ge in E]; Z.to_euclidean_division_equations; lia. }
  set (y := yoe + era * 400).
  assert (Hy : (if m <=? 2 then (if m <=? 2 then y + 1 else y) - 1
                else (if m <=? 2 then y + 1 else y)) = y)
    by (destruct (m <=? 2); lia).
  assert (Hera : y / 400 = era) by (unfold y; Z.to_euclidean_division_equations; lia).
  assert (Hdfc : Reference.days_from_civil (if m <=? 2 then y + 1 else y) m d = z).
  { unfold Reference.days_from_civil. cbv zeta. rewrite Hy, Hera.
    destruct Hm as [_ ->].
    replace (y - era * 400) with yoe by (unfold y; lia).
    unfold d, doy, doe, z'. lia. }
  split; [exact Hdfc|].
  split; [|lia].
  split; [exact (proj1 Hm)|]. split; [lia|].
  assert (Hnext : z < Reference.days_from_civil
                        (if m =? 12 then (if m <=? 2 then y + 1 else y) + 1
                         else (if m <=? 2 then y + 1 else y))
                        (if m =? 12 then 1 else m + 1) 1).
  { clear Hdfc Hy.
    assert (Hz : z = era * 146097 + doe - 719468) by (unfold doe, z'; lia).
    assert (Hdoe' : doe = 365 * yoe + yoe / 4 - yoe / 100 + doy) by (unfold doy; lia).
    assert (Hyoe' : yoe = (doe - doe / 1460 + doe / 36524 - doe / 146096) / 365)
      by reflexivity.
    assert (Hmp' : mp = (5 * doy + 2) / 153) by reflexivity.
    assert (Hy' : y = yoe + era * 400) by reflexivity.
    clearbody era doe yoe doy mp y. clear z' d Hd.
    assert (Hm3 : (mp < 10 /\ m = mp + 3) \/ (10 <= mp /\ m = mp - 9)).
    { unfold m. destruct (mp <? 10) eqn:E;
        [apply Z.ltb_lt in E|apply Z.ltb_ge in E]; lia. }
    clearbody m.
    unfold Reference.days_from_civil. cbv zeta.
    repeat match goal with
    | |- context [if ?c then _ else _] => destruct c eqn:?
    end;
    repeat match goal with
    | H : (_ =? _) = true |- _ => apply Z.eqb_eq in H
    | H : (_ =? _) = false |- _ => apply Z.eqb_neq in H
    | H : (_ <=? _) = true |- _ => apply Z.leb_le in H
    | H : (_ <=? _) = false |- _ => apply Z.leb_gt in H
    end;
    try lia;
    Z.to_euclidean_division_equations; lia. }
  unfold Reference.days_in_month.
  rewrite (dfc_day _ m d) in Hdfc. lia.
Qed.

Lemma string_app_assoc (a b c : string) : ((a ++ b) ++ c = a ++ (b ++ c))%string.
Proof. induction a as [|x a IH]; cbn; [reflexivity|now rewrite IH]. Qed.

Lemma digits_snoc (n : nat) (s : string) (acc : Z) :
  Reference.digits (S n) s acc =
  match Reference.digits n s acc with
  | Some (a, String c r) =>
      match JS.digitValue 10 c with
      | Some d => Some (a * 10 + d, r)
      | None => None
      end
  | _ => None
  end.
Proof.
  revert s acc. induction n as [|n IH]; intros s acc.
  - cbn [Reference.digits]. destruct s as [|c s]; [reflexivity|].
    now destruct (JS.digitValue 10 c).
  - change (Reference.digits (S (S n)) s acc) with
      (match s with
       | String c s' =>
           match JS.digitValue 10 c with
           | Some d => Reference.digits (S n) s' (acc * 10 + d)
           | None => None
           end
       | EmptyString => None
       end).
    cbn [Reference.digits]. destruct s as [|c s]; [reflexivity|].
    destruct (JS.digitValue 10 c) as [d|]; [|reflexivity].
    exact (IH s (acc * 10 + d)).
Qed.

Lemma digitValue_digit (v : Z) :
  JS.digitValue 10 (Reference.digit v) = Some (v mod 10).
Proof.
  assert (H : 0 <= v mod 10 < 10) by (apply Z.mod_pos_bound; lia).
  unfold Reference.digit. 
  assert (Hc : v mod 10 = 0 \/ v mod 10 = 1 \/ v mod 10 = 2 \/ v mod 10 = 3 \/
               v mod 10 = 4 \/ v mod 10 = 5 \/ v mod 10 = 6 \/ v mod 10 = 7 \/
               v mod 10 = 8 \/ v mod 10 = 9) by lia.
  repeat (destruct Hc as [Hc|Hc]); rewrite Hc; reflexivity.
Qed.

Lemma digits_pad (n : nat) (v acc : Z) (rest : string) :
  0 <= v < 10 ^ Z.of_nat n ->
  Reference.digits n (Reference.pad n v ++ rest) acc = Some (acc * 10 ^ Z.of_nat n + v, rest).
Proof.
  revert v acc rest. induction n as [|n IH]; intros v acc rest Hv.
  - cbn in *. f_equal. f_equal. lia.
  - rewrite digits_snoc. cbn [Reference.pad]. rewrite string_app_assoc.
    rewrite Nat2Z.inj_succ, Z.pow_succ_r in * by lia.
    rewrite IH by (Z.to_euclidean_division_equations; nia).
    cbn [String.append]. rewrite digitValue_digit.
    f_equal. f_equal. Z.to_euclidean_division_equations; nia.
Qed.

Lemma parse_toISOString (t : Z) :
  0 <= fst (fst (Reference.civil_from_days (t / Reference.msPerDay))) <= 9999 ->
  Reference.parse (Reference.toISOString t) = Some t.
Proof.
  intros Hy.
  pose proof (civil_roundtrip (t / Reference.msPerDay)) as Hrt.
  unfold Reference.toISOString, Reference.date_string, Reference.time_string.
  destruct (Reference.civil_from_days (t / Reference.msPerDay)) as [[y m] d].
  cbn [fst] in Hy. destruct Hrt as [Hdfc [[Hm Hd] Hd31]].
  replace ((0 <=? y) && (y <=? 9999)) with true
    by (symmetry; apply andb_true_iff; split; apply Z.leb_le; lia).
  unfold Reference.msPerDay in *.
  set (ms := t mod 86400000).
  assert (Hms : 0 <= ms < 86400000) by (apply Z.mod_pos_bound; lia).
  unfold Reference.parse.
  repeat rewrite string_app_assoc.
  rewrite (digits_pad 4 y 0) by (cbn; lia).
  cbn [String.append Reference.expect]. rewrite Ascii.eqb_refl.
  rewrite (digits_pad 2 m 0) by (cbn; lia).
  cbn [String.append Reference.expect]. rewrite Ascii.eqb_refl.
  rewrite (digits_pad 2 d 0) by (cbn; lia).
  cbn [String.append Reference.expect]. rewrite Ascii.eqb_refl.
  rewrite (digits_pad 2 (ms / 3600000) 0)
    by (cbn; Z.to_euclidean_division_equations; lia).
  cbn [String.append Reference.expect]. rewrite Ascii.eqb_refl.
  rewrite (digits_pad 2 (ms / 60000 mod 60) 0)
    by (cbn; Z.to_euclidean_division_equations; lia).
  cbn [String.append Reference.expect]. rewrite Ascii.eqb_refl.
  rewrite (digits_pad 2 (ms / 1000 mod 60) 0)
    by (cbn; Z.to_euclidean_division_equations; lia).
  cbn [String.append Reference.expect]. rewrite Ascii.eqb_refl.
  rewrite (digits_pad 3 (t mod 1000) 0)
    by (cbn; Z.to_euclidean_division_equations; lia).
  rewrite String.eqb_refl.
  change (0 * 10 ^ Z.of_nat 4) with 0. change (0 * 10 ^ Z.of_nat 2) with 0.
  change (0 * 10 ^ Z.of_nat 3) with 0. rewrite !Z.add_0_l. cbn [andb].
  replace ((1 <=? m) && (m <=? 12) && (1 <=? d) && (d <=? Reference.days_in_month y m) &&
           (ms / 3600000 <=? 23) && (ms / 60000 mod 60 <=? 59) && (ms / 1000 mod 60 <=? 59))
    with true.
  - rewrite Hdfc. f_equal. unfold ms, Reference.msPerDay.
    Z.to_euclidean_division_equations; lia.
  - symmetry. repeat (apply andb_true_iff; split); apply Z.leb_le; try lia;
      Z.to_euclidean_division_equations; lia.
Qed.

Lemma year_in_range (t : Z) :
  -62167219200000 <= t < 253402300800000 ->
  0 <= fst (fst (Reference.civil_from_days (t / Reference.msPerDay))) <= 9999.
Proof.
  intros Ht.
  pose proof (civil_roundtrip (t / Reference.msPerDay)) as Hrt.
  destruct (Reference.civil_from_days (t / Reference.msPerDay)) as [[y m] d].
  cbn [fst]. destruct Hrt as [Hdfc [Hv _]].
  assert (Hz : -719528 <= t / Reference.msPerDay < 2932897)
    by (unfold Reference.msPerDay; Z.to_euclidean_division_equations; lia).
  assert (V0 : Spec.valid_date 0 1 1) by (vm_compute; intuition discriminate).
  assert (V1 : Spec.valid_date 10000 1 1) by (vm_compute; intuition discriminate).
  pose proof (date_compare 0 1 1 y m d V0 Hv) as H0.
  pose proof (date_compare y m d 10000 1 1 Hv V1) as H1.
  rewrite Hdfc in H0, H1.
  change (Reference.days_from_civil 0 1 1) with (-719528) in H0.
  change (Reference.days_from_civil 10000 1 1) with 2932897 in H1.
  destruct Hv as [Hm Hd].
  split.
  - destruct (Z.compare_spec 0 y) as [?|?|Hgt]; try lia.
    cbn [Spec.lex] in H0. symmetry in H0. apply Z.compare_gt_iff in H0. lia.
  - destruct (Z.compare_spec y 10000) as [Heq|?|Hgt]; try lia; cbn [Spec.lex] in H1.
    + destruct (Z.compare_spec m 1) as [?|?|?]; try lia; cbn [Spec.lex] in H1.
      * destruct (Z.compare_spec d 1) as [?|?|?]; try lia;
          symmetry in H1; [apply Z.compare_eq_iff in H1|apply Z.compare_gt_iff in H1]; lia.
      * symmetry in H1. apply Z.compare_gt_iff in H1. lia.
    + symmetry in H1. apply Z.compare_gt_iff in H1. lia.
Qed.

Lemma parse_toISOString_in_range (t : Z) :
  -62167219200000 <= t < 253402300800000 ->
  Reference.parse (Reference.toISOString t) = Some t.
Proof. intros Ht. apply parse_toISOString. now apply year_in_range. Qed.

Lemma iso_order_is_time_order (s1 s2 : string) (t1 t2 : Z) :
  Reference.parse s1 = Some t1 -> Reference.parse s2 = Some t2 ->
  (String.ltb s1 s2 = true <-> t1 < t2) /\
  (String.leb s1 s2 = true <-> t1 <= t2).
Proof.
  intros H1 H2. unfold String.ltb, String.leb.
  rewrite (parse_compare s1 s2 t1 t2 H1 H2).
  destruct (Z.compare_spec t1 t2); split; split; intros; try lia; easy.
Qed.

(** On the reference platform [cleanupOldLogs] is chronological: of the
    events whose timestamp is an ISO-8601 instant, it keeps exactly those
    that are not before the instant [retentionDays] days ago. *)
Lemma cleanup_is_chronological (index_walk : bool) (fs : FileSystem) (s : LogStore.t)
    (now retentionDays : Z) (rows : list Action) :
  let cutoff := now - retentionDays * Reference.msPerDay in
  LogStore.db s = true ->
  LogStore.actions_of fs = Some rows ->
  -62167219200000 <= cutoff < 253402300800000 ->
  exists fs' n,
    LogStore.cleanupOldLogs (Reference.platform index_walk) fs s now retentionDays
      = Ok (fs', n) /\
    forall r t,
      In r rows -> Reference.parse (timestamp r) = Some t ->
      (In r (Spec.stored fs') <-> cutoff <= t).
Proof.
  intros cutoff Hdb Hrows Hrange.
  pose proof (parse_toISOString_in_range cutoff Hrange) as Hparse.
  assert (Hvalid : validTime cutoff = true)
    by (unfold validTime; apply Z.leb_le; lia).
  assert (Hcut : Date_toISOString (Reference.platform index_walk)
                   (addDays (Reference.platform index_walk) now (- retentionDays))
                 = Ok (Reference.toISOString cutoff)).
  { unfold Date_toISOString. cbn [addDays Reference.platform toISOString].
    replace (now + - retentionDays * Reference.msPerDay) with cutoff
      by (unfold cutoff; lia).
    now rewrite Hvalid. }
  eexists _, _.
  split; [exact (cleanupOldLogs_initialized _ _ _ _ _ rows _ Hdb Hrows Hcut)|].
  intros r t Hr Ht. unfold Spec.stored.
  rewrite (actions_of_set_actions fs _ rows _ Hrows), filter_In, negb_true_iff.
  unfold Spec.older_than.
  destruct (iso_order_is_time_order _ _ _ _ Ht Hparse) as [Hlt _].
  split.
  - intros [_ Hnot]. destruct (Z.lt_ge_cases t cutoff) as [Hc|Hc]; [|exact Hc].
    apply Hlt in Hc. congruence.
  - intros Hge. split; [exact Hr|].
    apply not_true_iff_false. intros E. apply Hlt in E. lia.
Qed.

Lemma newest_first_is_latest_first (l : list Action) :
  Spec.newest_first l ->
  StronglySorted
    (fun a b => forall ta tb,
       Reference.parse (timestamp a) = Some ta ->
       Reference.parse (timestamp b) = Some tb -> tb <= ta)
    l.
Proof.
  induction 1 as [|a l Hl IH Ha]; constructor; [exact IH|].
  eapply Forall_impl; [|exact Ha]. intros b Hb ta tb Hta Htb.
  now apply (iso_order_is_time_order _ _ _ _ Htb Hta).
Qed.

(** On the reference platform a page of GET /api/logs runs from the latest
    instant to the earliest. *)
Lemma logs_page_is_chronological (index_walk : bool) (db : Database)
    (rows : list Action) (q : Server.LogsQuery) (page : list Action) (total : Z) :
  actions db = Some rows ->
  Server.get_api_logs (Reference.platform index_walk) (Some db) q
    = Server.json_ok (Server.LogsBody page total) ->
  StronglySorted
    (fun a b => forall ta tb,
       Reference.parse (timestamp a) = Some ta ->
       Reference.parse (timestamp b) = Some tb -> tb <= ta)
    page.
Proof.
  intros Hrows Hresp.
  destruct (logs_full_ordering (Reference.platform index_walk) rows q
              (reference_platform_ok index_walk)) as [_ Hfull].
  unfold Server.get_api_logs in Hresp. rewrite Hrows in Hresp.
  cbn [from_table bind] in Hresp. injection Hresp as Hpage _.
  apply newest_first_is_latest_first. rewrite <- Hpage.
  exact (limit_offset_sorted _ (Server.limit q) (Server.offset q) _ Hfull).
Qed.

(** ** The model at work *)

Example parseInt_decimal : JS.parseInt (Some "25") = Some 25.
Proof. reflexivity. Qed.

Example parseInt_leading_digits : JS.parseInt (Some "  -12px") = Some (-12).
Proof. reflexivity. Qed.

Example parseInt_hexadecimal : JS.parseInt (Some "0x1f") = Some 31.
Proof. reflexivity. Qed.

Example parseInt_exponent : JS.parseInt (Some "1e3") = Some 1.
Proof. reflexivity. Qed.

Example parseInt_empty : JS.parseInt (Some "") = None.
Proof. reflexivity. Qed.

Example limit_zero_is_default : Server.limit (Demo.paged "0" "0") = 50.
Proof. reflexivity. Qed.

Example tier_zero_is_a_filter :
  Server.conditions (Demo.tier_query "0") = [Server.TierEq (Some 0)].
Proof. reflexivity. Qed.

Example like_is_case_insensitive : Sql.like "%EMAIL%" "send_email" = true.
Proof. reflexivity. Qed.

Example toISOString_epoch : Reference.toISOString 0 = "1970-01-01T00:00:00.000Z".
Proof. reflexivity. Qed.

Example parse_of_toISOString_at_noon :
  Reference.parse (Reference.toISOString Demo.noon_may_15) = Some Demo.noon_may_15.
Proof. reflexivity. Qed.

(** An engine that walks the timestamp index downwards meets two rows of
    equal timestamp in descending [id]; one that sorts keeps them in
    ascending [id].  Both are answers to [ORDER BY timestamp DESC]. *)
Example tied_rows_by_engine :
  Server.get_api_logs Demo.walking (Some (Demo.db_of Demo.tied)) Demo.no_query
    = Server.json_ok (Server.LogsBody (rev Demo.tied) 2) /\
  Server.get_api_logs Demo.sorting (Some (Demo.db_of Demo.tied)) Demo.no_query
    = Server.json_ok (Server.LogsBody Demo.tied 2).
Proof. split; reflexivity. Qed.

(** The whole answer of the trend endpoint on the 60-then-70 fortnight. *)
Example trends_of_a_fortnight :
  exists t,
    Server.get_api_reviews_trends Demo.sorting
      (Some (Demo.reviews_db (Demo.fortnight 60 70))) None
      Demo.noon_may_15 Demo.noon_may_15
      = Server.json_ok (Server.TrendsBody t) /\
    map Server.date (Server.daily_scores t)
      = ["2024-05-02"; "2024-05-04"; "2024-05-07"; "2024-05-09"; "2024-05-12"; "2024-05-14"] /\
    Server.trend_direction t = "improving" /\
    option_map Server.day_date (Server.best_day t) = Some "2024-05-09" /\
    option_map Server.day_date (Server.worst_day t) = Some "2024-05-02".
Proof. eexists. split; [vm_compute; reflexivity|]. vm_compute. repeat split. Qed.

(* ================================================================= *)
(** * Further properties of the code *)

(** ** LogStore: initialize and logAction *)

Lemma initialize_opens (fs : FileSystem) (s : LogStore.t) :
  exists d rows,
    fst (LogStore.initialize fs s) = Some d /\
    actions d = Some rows /\
    rows = Spec.stored fs /\
    LogStore.db (snd (LogStore.initialize fs s)) = true.
Proof.
  unfold LogStore.initialize, Spec.stored, LogStore.actions_of. cbn [fst snd LogStore.db].
  destruct fs as [d|].
  - destruct (actions d) as [rows|] eqn:E.
    + exists d, rows. now rewrite E.
    + eexists _, []. cbn [actions]. repeat split.
  - eexists _, []. cbn [actions]. repeat split.
Qed.

Lemma stored_initialize (fs : FileSystem) (s : LogStore.t) :
  Spec.stored (fst (LogStore.initialize fs s)) = Spec.stored fs.
Proof. now destruct fs as [[[rows|] seq revs]|]. Qed.

Lemma seq_of_initialize (fs : FileSystem) (s : LogStore.t) :
  LogStore.seq_of (fst (LogStore.initialize fs s)) = LogStore.seq_of fs.
Proof. now destruct fs as [[[rows|] seq revs]|]. Qed.

(** X1: [initialize] can be repeated: run again on the file and the store
    it has left behind, it changes neither.  It leaves the store with a
    connection and with the session start it had, keeps the events and the
    id counter of an existing file (a missing file or table starts empty),
    and does not touch the reviews of an existing file. *)
Theorem initialize_is_idempotent (fs : FileSystem) (s : LogStore.t) :
  let st := LogStore.initialize fs s in
  LogStore.initialize (fst st) (snd st) = st /\
  LogStore.db (snd st) = true /\
  LogStore.sessionStart (snd st) = LogStore.sessionStart s /\
  LogStore.actions_of (fst st) = Some (Spec.stored fs) /\
  LogStore.seq_of (fst st) = LogStore.seq_of fs /\
  option_map reviews (fst st) = match fs with Some d => Some (reviews d) | None => Some None end.
Proof.
  unfold LogStore.initialize, Spec.stored, LogStore.actions_of, LogStore.seq_of.
  cbn [fst snd LogStore.db LogStore.sessionStart LogStore.dbPath].
  destruct fs as [[[rows|] seq revs]|]; cbn; repeat split.
Qed.

Lemma step_without_initialize (P : Platform) (fs : FileSystem) (s : LogStore.t)
    (c : LogStore.call) :
  LogStore.db s = false -> c <> LogStore.Initialize ->
  LogStore.step P (fs, s) c = (fs, s).
Proof.
  intros Hdb Hc. destruct c as [|now entry|now days]; [congruence| |];
    cbn [LogStore.step fst snd];
    unfold LogStore.logAction, LogStore.cleanupOldLogs; now rewrite Hdb.
Qed.

(** X2: a store that has been constructed and not initialized is inert:
    whatever sequence of [logAction] and [cleanupOldLogs] calls is made on
    it, the file stays as it was (also when there is none); [logAction]
    throws the not-initialized error and [getSessionStats] reports zeros
    with the session start of the constructor. *)
Theorem store_is_inert_before_initialize
    (P : Platform) (homedir : string) (t0 : Z) (fs : FileSystem)
    (calls : list LogStore.call) (now : Z) (entry : LogStore.LogEntry) :
  Forall (fun c => c <> LogStore.Initialize) calls ->
  let s := LogStore.constructor P homedir t0 in
  LogStore.run P (fs, s) calls = (fs, s) /\
  LogStore.logAction P fs s now entry
    = Throw "LogStore not initialized. Call initialize() first." /\
  LogStore.getSessionStats fs s
    = Ok (LogStore.mkSessionStats 0 0 0 0 (0, 0, 0) (toISOString P t0)).
Proof.
  intros Hcalls s. split; [|split; reflexivity].
  induction Hcalls as [|c calls Hc _ IH]; [reflexivity|].
  cbn [LogStore.run fold_left]. rewrite step_without_initialize by easy. exact IH.
Qed.

Lemma store_is_inert_before_initialize_witness :
  LogStore.run Demo.sorting
    (None, LogStore.constructor Demo.sorting "/home/op" Demo.noon_may_15)
    Demo.early_calls
  = (None, LogStore.constructor Demo.sorting "/home/op" Demo.noon_may_15).
Proof.
  destruct (store_is_inert_before_initialize Demo.sorting "/home/op" Demo.noon_may_15
              None Demo.early_calls 0 Demo.warned) as [H _].
  - repeat constructor; discriminate.
  - exact H.
Defined.

Lemma next_id_above (seq : Z) (rows : list Action) :
  seq < LogStore.next_id seq rows /\
  Forall (fun r => id r < LogStore.next_id seq rows) rows.
Proof.
  unfold LogStore.next_id. induction rows as [|r rows [IH1 IH2]]; cbn [map fold_right].
  - split; [lia|constructor].
  - split; [lia|]. constructor; [lia|].
    eapply Forall_impl; [|exact IH2]. cbv beta. intros; lia.
Qed.

Lemma logAction_initialized (P : Platform) (fs : FileSystem) (s : LogStore.t)
    (now : Z) (entry : LogStore.LogEntry) (rows : list Action) :
  LogStore.db s = true ->
  LogStore.actions_of fs = Some rows ->
  let i := LogStore.next_id (LogStore.seq_of fs) rows in
  LogStore.logAction P fs s now entry
  = Ok (LogStore.set_actions fs i (rows ++ [LogStore.new_row P s now i entry]), i).
Proof.
  intros Hdb Hrows i. unfold LogStore.logAction. now rewrite Hdb, Hrows.
Qed.

Lemma seq_of_set_actions (fs : FileSystem) (seq : Z) (rows rows' : list Action) :
  LogStore.actions_of fs = Some rows ->
  LogStore.seq_of (LogStore.set_actions fs seq rows') = seq.
Proof. destruct fs as [d|]; [reflexivity|discriminate]. Qed.

(** X3: on an initialized store [logAction] succeeds and appends exactly
    one row after the rows already there, which stay as they are, and leaves
    the reviews alone.  The id it returns is the id of that row; it is above
    the id counter and above the id of every row of the table.  The row
    carries the fields of the entry, a missing tier being stored as 0. *)
Theorem logAction_appends_one_fresh_row
    (P : Platform) (fs : FileSystem) (s : LogStore.t) (now : Z)
    (entry : LogStore.LogEntry) (rows : list Action) :
  LogStore.db s = true ->
  LogStore.actions_of fs = Some rows ->
  exists fs' i r,
    LogStore.logAction P fs s now entry = Ok (fs', i) /\
    LogStore.actions_of fs' = Some (rows ++ [r]) /\
    option_map reviews fs' = option_map reviews fs /\
    id r = i /\
    LogStore.seq_of fs < i /\
    Forall (fun old => id old < i) rows /\
    timestamp r = LogStore.e_timestamp entry /\
    action_type r = LogStore.e_action_type entry /\
    target r = LogStore.e_target entry /\
    amount r = LogStore.e_amount entry /\
    description r = LogStore.e_description entry /\
    verdict r = LogStore.e_verdict entry /\
    reason r = LogStore.e_reason entry /\
    key_was_valid r = LogStore.e_key_was_valid entry /\
    tier r = match LogStore.e_tier entry with Some n => n | None => 0 end.
Proof.
  intros Hdb Hrows.
  pose proof (next_id_above (LogStore.seq_of fs) rows) as [Hseq Hids].
  eexists _, _, _. split; [exact (logAction_initialized P fs s now entry rows Hdb Hrows)|].
  split; [eapply actions_of_set_actions; eassumption|].
  split; [apply reviews_set_actions|].
  repeat split; assumption.
Qed.

Lemma logAction_appends_one_fresh_row_witness :
  exists fs' i r,
    LogStore.logAction Demo.sorting Demo.three_file Demo.store
      (Demo.noon_may_15 + 3600000) Demo.warned = Ok (fs', i) /\
    LogStore.actions_of fs' = Some (Demo.three ++ [r]) /\
    3 < i.
Proof.
  destruct (logAction_appends_one_fresh_row Demo.sorting Demo.three_file Demo.store
              (Demo.noon_may_15 + 3600000) Demo.warned Demo.three eq_refl eq_refl)
    as (fs' & i & r & Hlog & Hact & _ & _ & Hseq & _).
  exists fs', i, r. split; [exact Hlog|]. split; [exact Hact|exact Hseq].
Defined.

Lemma step_ids_in_order (P : Platform) (st : FileSystem * LogStore.t) (c : LogStore.call) :
  Spec.ids_in_order (fst st) ->
  Spec.ids_in_order (fst (LogStore.step P st c)) /\
  LogStore.seq_of (fst st) <= LogStore.seq_of (fst (LogStore.step P st c)).
Proof.
  destruct st as [fs s]. cbn [fst snd]. intros [Hnd Hle].
  destruct c as [|now entry|now days]; cbn [LogStore.step fst snd].
  - unfold Spec.ids_in_order.
    rewrite (stored_initialize fs s), (seq_of_initialize fs s).
    split; [now split|lia].
  - unfold LogStore.logAction.
    destruct (LogStore.db s); cbn [negb fst]; [|split; [now split|lia]].
    destruct (LogStore.actions_of fs) as [rows|] eqn:E; cbn [from_table bind fst];
      [|split; [now split|lia]].
    pose proof (next_id_above (LogStore.seq_of fs) rows) as [Hseq Hids].
    unfold Spec.ids_in_order, Spec.stored in *. rewrite E in Hnd, Hle.
    rewrite (actions_of_set_actions fs _ rows _ E), (seq_of_set_actions fs _ rows _ E).
    split; [split|lia].
    + rewrite map_app. cbn [map LogStore.new_row id].
      apply NoDup_app; [exact Hnd|repeat constructor; easy|].
      intros a Ha [<-|[]]. apply in_map_iff in Ha. destruct Ha as (r & Hr & Hin).
      rewrite Forall_forall in Hids. specialize (Hids r Hin). lia.
    + apply Forall_app. split.
      * eapply Forall_impl; [|exact Hids]. cbv beta. intros; lia.
      * constructor; [cbn; lia|constructor].
  - unfold LogStore.cleanupOldLogs.
    destruct (LogStore.db s); cbn [negb fst]; [|split; [now split|lia]].
    destruct (Date_toISOString P (addDays P now (- days))) as [cutoffStr|];
      cbn [bind fst]; [|split; [now split|lia]].
    destruct (LogStore.actions_of fs) as [rows|] eqn:E; cbn [from_table bind fst];
      [|split; [now split|lia]].
    unfold Spec.ids_in_order, Spec.stored in *. rewrite E in Hnd, Hle.
    rewrite (actions_of_set_actions fs _ rows _ E), (seq_of_set_actions fs _ rows _ E).
    split; [split|lia].
    + clear - Hnd. induction rows as [|r rows IH]; cbn [filter map]; [constructor|].
      inversion Hnd as [|? ? Hnot Hnd']; subst.
      destruct (negb _); cbn [map]; [|now apply IH].
      constructor; [|now apply IH].
      intros Hin. apply Hnot. apply in_map_iff in Hin.
      destruct Hin as (r' & Hr' & Hin). apply filter_In in Hin.
      apply in_map_iff. exists r'. now split.
    + apply Forall_forall. intros r Hr. apply filter_In in Hr.
      rewrite Forall_forall in Hle. now apply Hle.
Qed.

Lemma run_ids_in_order (P : Platform) (calls : list LogStore.call)
    (st : FileSystem * LogStore.t) :
  Spec.ids_in_order (fst st) ->
  Spec.ids_in_order (fst (LogStore.run P st calls)) /\
  LogStore.seq_of (fst st) <= LogStore.seq_of (fst (LogStore.run P st calls)).
Proof.
  revert st. induction calls as [|c calls IH]; intros st Hst;
    [split; [exact Hst|apply Z.le_refl]|].
  cbn [LogStore.run fold_left]. fold (LogStore.run P (LogStore.step P st c) calls).
  destruct (step_ids_in_order P st c Hst) as [H1 H2].
  destruct (IH _ H1) as [H3 H4]. split; [exact H3|lia].
Qed.

(** X4: ids are never reused.  Starting from a table whose ids are
    distinct and not above the id counter, after any sequence of
    [initialize], [logAction] and [cleanupOldLogs] calls the id that a
    further [logAction] returns is larger than the id of every row the
    table held at the start, deleted since or not, and of every row it
    holds now; the ids stay distinct. *)
Theorem ids_are_never_reused
    (P : Platform) (fs : FileSystem) (s : LogStore.t) (calls : list LogStore.call)
    (now : Z) (entry : LogStore.LogEntry) (fs' : FileSystem) (i : Z) :
  Spec.ids_in_order fs ->
  let st := LogStore.run P (fs, s) calls in
  LogStore.logAction P (fst st) (snd st) now entry = Ok (fs', i) ->
  Forall (fun r => id r < i) (Spec.stored fs) /\
  Forall (fun r => id r < i) (Spec.stored (fst st)) /\
  Spec.ids_in_order (fst st) /\
  Spec.ids_in_order fs'.
Proof.
  intros Hwf st Hlog.
  destruct (run_ids_in_order P calls (fs, s) Hwf) as [Hwf1 Hseq]. fold st in Hwf1, Hseq.
  cbn [fst] in Hseq.
  pose proof (step_ids_in_order P st (LogStore.LogAction now entry) Hwf1) as [Hwf2 _].
  cbn [LogStore.step] in Hwf2. rewrite Hlog in Hwf2. cbn [fst] in Hwf2.
  apply logAction_appends in Hlog. destruct Hlog as (rows & _ & Hrows & _ & Hi).
  pose proof (next_id_above (LogStore.seq_of (fst st)) rows) as [Hlt Hids].
  rewrite <- Hi in Hlt, Hids.
  split; [|split; [|split; assumption]].
  - destruct Hwf as [_ Hle]. eapply Forall_impl; [|exact Hle]. cbv beta. intros.
    lia.
  - unfold Spec.stored. now rewrite Hrows.
Qed.

Lemma ids_are_never_reused_witness :
  Forall (fun r => id r < 4) Demo.three /\
  Forall (fun r => id r < 4) (Spec.stored (fst Demo.cleaned)).
Proof.
  destruct (ids_are_never_reused Demo.sorting Demo.three_file Demo.store
              [LogStore.CleanupOldLogs Demo.noon_may_15 14]
              (Demo.noon_may_15 + 3600000) Demo.warned Demo.logged 4)
    as (H1 & H2 & _).
  - split.
    + repeat constructor; cbn; intuition discriminate.
    + repeat constructor; cbn; discriminate.
  - vm_compute. reflexivity.
  - split; [exact H1|exact H2].
Defined.

(** ** LogStore and the dashboard *)

Lemma actions_of_file (fs : FileSystem) (rows : list Action) :
  LogStore.actions_of fs = Some rows ->
  exists d, fs = Some d /\ actions d = Some rows.
Proof. destruct fs as [d|]; [|discriminate]. intros H. now exists d. Qed.

Lemma get_api_logs_on_rows (P : Platform) (fs : FileSystem) (rows : list Action)
    (q : Server.LogsQuery) :
  LogStore.actions_of fs = Some rows ->
  Server.get_api_logs P fs q =
  Server.json_ok
    (Server.LogsBody
       (Sql.limit_offset (Server.limit q) (Server.offset q)
          (orderBy P Action timestamp true (filter (Spec.matches q) rows)))
       (Spec.number_of (Spec.matches q) rows)).
Proof.
  intros H. apply actions_of_file in H. destruct H as (d & -> & Hd).
  unfold Server.get_api_logs. rewrite Hd. cbn [from_table bind].
  rewrite <- (count_number_of (Spec.matches q) rows). unfold Sql.count.
  now rewrite filter_where_matches.
Qed.

Lemma number_of_app (p : Action -> bool) (l1 l2 : list Action) :
  Spec.number_of p (l1 ++ l2) = Spec.number_of p l1 + Spec.number_of p l2.
Proof. induction l1 as [|r l1 IH]; cbn [app Spec.number_of]; lia. Qed.



(** ** LogStore.getSessionStats *)

Lemma number_of_le (p q : Action -> bool) (rows : list Action) :
  (forall r, p r = true -> q r = true) ->
  0 <= Spec.number_of p rows <= Spec.number_of q rows.
Proof.
  intros H. induction rows as [|r rows IH]; cbn [Spec.number_of]; [lia|].
  specialize (H r). destruct (p r), (q r); lia.
Qed.

Lemma getSessionStats_initialized (fs : FileSystem) (s : LogStore.t) (rows : list Action) :
  LogStore.db s = true ->
  LogStore.actions_of fs = Some rows ->
  LogStore.getSessionStats fs s =
  Ok (LogStore.mkSessionStats
        (Spec.number_of (LogStore.this_session s) rows)
        (Spec.number_of (fun r => LogStore.this_session s r && key_was_valid r) rows)
        (Spec.number_of
           (fun r => LogStore.this_session s r && String.eqb (verdict r) "block") rows)
        (Spec.number_of
           (fun r => LogStore.this_session s r && (tier r =? 1) && negb (key_was_valid r))
           rows)
        (Spec.number_of (fun r => LogStore.this_session s r && (tier r =? 1)) rows,
         Spec.number_of (fun r => LogStore.this_session s r && (tier r =? 2)) rows,
         Spec.number_of (fun r => LogStore.this_session s r && (tier r =? 3)) rows)
        (LogStore.sessionStart s)).
Proof.
  intros Hdb Hrows. unfold LogStore.getSessionStats. rewrite Hdb, Hrows.
  cbn [negb from_table bind]. now rewrite !count_number_of.
Qed.

Lemma get_api_logs_stats_on_rows (P : Platform) (fs : FileSystem) (rows : list Action)
    (now : Z) :
  LogStore.actions_of fs = Some rows ->
  exists g,
    Server.get_api_logs_stats P fs now = Server.json_ok (Server.StatsBody g) /\
    Server.totalActions g = Z.of_nat (List.length rows) /\
    Server.verifiedCount g = Spec.number_of key_was_valid rows /\
    Server.unverifiedCount g = Spec.number_of (fun r => negb (key_was_valid r)) rows /\
    Server.blockedCount g = Spec.number_of (fun r => String.eqb (verdict r) "block") rows /\
    Server.unverifiedTier1Count g =
      Spec.number_of (fun r => negb (key_was_valid r) && (tier r =? 1)) rows /\
    Server.t1 (Server.tierBreakdown g) = Spec.number_of (fun r => tier r =? 1) rows /\
    Server.t2 (Server.tierBreakdown g) = Spec.number_of (fun r => tier r =? 2) rows /\
    Server.t3 (Server.tierBreakdown g) = Spec.number_of (fun r => tier r =? 3) rows /\
    Server.dailySpend g = Sql.sum (map amount (filter (Server.spent_today P now) rows)).
Proof.
  intros H. apply actions_of_file in H. destruct H as (d & -> & Hd).
  eexists. split; [unfold Server.get_api_logs_stats; rewrite Hd; reflexivity|].
  cbn [Server.totalActions Server.verifiedCount Server.unverifiedCount Server.blockedCount
       Server.unverifiedTier1Count Server.tierBreakdown Server.t1 Server.t2 Server.t3
       Server.dailySpend].
  rewrite !count_number_of, number_of_true.
  change (fun r : Action => key_was_valid r) with key_was_valid.
  pose proof (number_of_split key_was_valid rows).
  repeat split; try reflexivity; lia.
Qed.

(** X6: the statistics of a session never exceed those of the dashboard
    over the same file.  [getSessionStats] counts the rows of its own
    session; each of its counts is non-negative and at most the matching
    count of GET /api/logs/stats; verified, blocked and the three tiers
    together are at most the total, the unverified tier 1 count at most
    the tier 1 count, and the session start it reports is the store's. *)
Theorem session_stats_within_dashboard_stats
    (P : Platform) (fs : FileSystem) (s : LogStore.t) (rows : list Action) (now : Z) :
  LogStore.db s = true ->
  LogStore.actions_of fs = Some rows ->
  exists st g,
    LogStore.getSessionStats fs s = Ok st /\
    Server.get_api_logs_stats P fs now = Server.json_ok (Server.StatsBody g) /\
    LogStore.totalActions st = Spec.number_of (LogStore.this_session s) rows /\
    0 <= LogStore.totalActions st <= Server.totalActions g /\
    0 <= LogStore.verifiedActions st <= Server.verifiedCount g /\
    0 <= LogStore.blockedActions st <= Server.blockedCount g /\
    0 <= LogStore.unverifiedTier1 st <= Server.unverifiedTier1Count g /\
    LogStore.verifiedActions st <= LogStore.totalActions st /\
    LogStore.blockedActions st <= LogStore.totalActions st /\
    LogStore.unverifiedTier1 st <= fst (fst (LogStore.tierBreakdown st)) /\
    fst (fst (LogStore.tierBreakdown st)) + snd (fst (LogStore.tierBreakdown st))
      + snd (LogStore.tierBreakdown st) <= LogStore.totalActions st /\
    LogStore.stats_sessionStart st = LogStore.sessionStart s.
Proof.
  intros Hdb Hrows.
  destruct (get_api_logs_stats_on_rows P fs rows now Hrows)
    as (g & Hg & Htot & Hver & _ & Hblk & Hu1 & _).
  eexists _, g. split; [exact (getSessionStats_initialized fs s rows Hdb Hrows)|].
  split; [exact Hg|].
  cbn [LogStore.totalActions LogStore.verifiedActions LogStore.blockedActions
       LogStore.unverifiedTier1 LogStore.tierBreakdown LogStore.stats_sessionStart fst snd].
  rewrite Htot, Hver, Hblk, Hu1, <- number_of_true.
  split; [reflexivity|].
  set (S := LogStore.this_session s).
  assert (Htiers :
    Spec.number_of (fun r => S r && (tier r =? 1)) rows
    + Spec.number_of (fun r => S r && (tier r =? 2)) rows
    + Spec.number_of (fun r => S r && (tier r =? 3)) rows
    <= Spec.number_of S rows).
  { clear. induction rows as [|r rows IH]; cbn [Spec.number_of]; [lia|].
    destruct (S r), (tier r =? 1) eqn:E1, (tier r =? 2) eqn:E2, (tier r =? 3) eqn:E3;
      cbn [andb]; lia. }
  repeat split; try exact Htiers;
    try (apply number_of_le; intros r Hr;
         repeat (apply andb_true_iff in Hr; destruct Hr as [Hr ?]);
         rewrite ?andb_true_iff, ?negb_true_iff in *; intuition congruence).
  all: apply (number_of_le _ (fun _ => true)); reflexivity.
Qed.

Lemma session_stats_within_dashboard_stats_witness :
  exists st g,
    LogStore.getSessionStats Demo.three_file Demo.store = Ok st /\
    Server.get_api_logs_stats Demo.sorting Demo.three_file Demo.noon_may_15
      = Server.json_ok (Server.StatsBody g) /\
    0 <= LogStore.totalActions st <= Server.totalActions g.
Proof.
  destruct (session_stats_within_dashboard_stats Demo.sorting Demo.three_file Demo.store
              Demo.three Demo.noon_may_15 eq_refl eq_refl)
    as (st & g & Hst & Hg & _ & Htot & _).
  exists st, g. split; [exact Hst|]. split; [exact Hg|exact Htot].
Defined.

Lemma number_of_ext (p q : Action -> bool) (rows : list Action) :
  (forall r, In r rows -> p r = q r) ->
  Spec.number_of p rows = Spec.number_of q rows.
Proof.
  induction rows as [|r rows IH]; intros H; cbn [Spec.number_of]; [reflexivity|].
  rewrite (H r (or_introl eq_refl)), IH; [reflexivity|].
  intros r' Hr'. apply H. now right.
Qed.

(** X7: [logAction] counts in the session of the store it is called on
    and in no other.  The totalActions of that session goes up by exactly
    one, verifiedActions by one when the key was valid, blockedActions by
    one when the verdict is block, unverifiedTier1 by one when the tier is
    1 and the key was not valid; for a store with another session start
    [getSessionStats] answers as before. *)
Theorem logAction_counts_in_its_own_session
    (P : Platform) (fs : FileSystem) (s : LogStore.t) (now : Z)
    (entry : LogStore.LogEntry) (rows : list Action) :
  LogStore.db s = true ->
  LogStore.actions_of fs = Some rows ->
  exists fs' i st st',
    LogStore.logAction P fs s now entry = Ok (fs', i) /\
    LogStore.getSessionStats fs s = Ok st /\
    LogStore.getSessionStats fs' s = Ok st' /\
    LogStore.totalActions st' = LogStore.totalActions st + 1 /\
    LogStore.verifiedActions st' =
      LogStore.verifiedActions st + (if LogStore.e_key_was_valid entry then 1 else 0) /\
    LogStore.blockedActions st' =
      LogStore.blockedActions st
      + (if String.eqb (LogStore.e_verdict entry) "block" then 1 else 0) /\
    LogStore.unverifiedTier1 st' =
      LogStore.unverifiedTier1 st
      + (match LogStore.e_tier entry with
         | Some 1 => if LogStore.e_key_was_valid entry then 0 else 1
         | _ => 0
         end) /\
    forall s2,
      LogStore.sessionStart s2 <> LogStore.sessionStart s ->
      LogStore.getSessionStats fs' s2 = LogStore.getSessionStats fs s2.
Proof.
  intros Hdb Hrows.
  pose proof (logAction_initialized P fs s now entry rows Hdb Hrows) as Hlog.
  cbv zeta in Hlog.
  set (i := LogStore.next_id (LogStore.seq_of fs) rows) in *.
  set (r := LogStore.new_row P s now i entry) in *.
  set (fs' := LogStore.set_actions fs i (rows ++ [r])) in *.
  pose proof (actions_of_set_actions fs i rows (rows ++ [r]) Hrows) as Hrows'.
  fold fs' in Hrows'.
  eexists fs', i, _, _.
  split; [exact Hlog|].
  split; [exact (getSessionStats_initialized fs s rows Hdb Hrows)|].
  split; [exact (getSessionStats_initialized fs' s (rows ++ [r]) Hdb Hrows')|].
  cbn [LogStore.totalActions LogStore.verifiedActions LogStore.blockedActions
       LogStore.unverifiedTier1].
  rewrite !number_of_app. cbn [Spec.number_of].
  assert (Hs : LogStore.this_session s r = true) by apply String.eqb_refl.
  rewrite Hs. cbn [andb].
  change (key_was_valid r) with (LogStore.e_key_was_valid entry).
  change (verdict r) with (LogStore.e_verdict entry).
  change (tier r) with (match LogStore.e_tier entry with Some n => n | None => 0 end).
  repeat split; try lia.
  - destruct (LogStore.e_tier entry) as [[|[p|p|]|p]|], (LogStore.e_key_was_valid entry);
      cbn; lia.
  - intros s2 Hne. unfold LogStore.getSessionStats.
    destruct (negb (LogStore.db s2)); [reflexivity|].
    rewrite Hrows, Hrows'. cbn [from_table bind].
    assert (Hs2 : LogStore.this_session s2 r = false).
    { unfold LogStore.this_session. apply String.eqb_neq. intros E. apply Hne.
      symmetry. exact E. }
    rewrite !count_number_of, !number_of_app. cbn [Spec.number_of].
    rewrite Hs2. cbn [andb]. now rewrite !Z.add_0_r.
Qed.

Lemma logAction_counts_in_its_own_session_witness :
  exists fs' i st st',
    LogStore.logAction Demo.sorting Demo.three_file Demo.store
      (Demo.noon_may_15 + 3600000) Demo.warned = Ok (fs', i) /\
    LogStore.getSessionStats Demo.three_file Demo.store = Ok st /\
    LogStore.getSessionStats fs' Demo.store = Ok st' /\
    LogStore.totalActions st' = LogStore.totalActions st + 1.
Proof.
  destruct (logAction_counts_in_its_own_session Demo.sorting Demo.three_file Demo.store
              (Demo.noon_may_15 + 3600000) Demo.warned Demo.three eq_refl eq_refl)
    as (fs' & i & st & st' & Hlog & Hst & Hst' & Htot & _).
  exists fs', i, st, st'. split; [exact Hlog|]. split; [exact Hst|].
  split; [exact Hst'|exact Htot].
Defined.

(** ** LogStore.getActionsByTimeRange *)

(** X8: [getActionsByTimeRange] on an initialized store returns, most
    recent first, exactly the rows whose timestamp lies between start and
    end, both ends included (timestamps compared as strings): a row dated
    exactly at the start or at the end of a non-empty range is returned,
    and a range whose end is before its start returns nothing. *)
Theorem time_range_is_inclusive_and_newest_first
    (P : Platform) (fs : FileSystem) (s : LogStore.t) (rows : list Action)
    (start end_ : string) :
  platform_ok P ->
  LogStore.db s = true ->
  LogStore.actions_of fs = Some rows ->
  exists page,
    LogStore.getActionsByTimeRange P fs s start end_ = Ok page /\
    Spec.newest_first page /\
    Permutation (filter (Spec.in_range start end_) rows) page /\
    (forall r, In r page <->
               In r rows /\ String.leb start (timestamp r) = true /\
               String.leb (timestamp r) end_ = true) /\
    (forall r, In r rows -> timestamp r = start -> String.leb start end_ = true ->
               In r page) /\
    (forall r, In r rows -> timestamp r = end_ -> String.leb start end_ = true ->
               In r page) /\
    (String.ltb end_ start = true -> page = []).
Proof.
  intros HP Hdb Hrows.
  unfold LogStore.getActionsByTimeRange. rewrite Hdb, Hrows. cbn [negb from_table bind].
  fold (Spec.in_range start end_).
  destruct (HP Action timestamp true (filter (Spec.in_range start end_) rows))
    as [Hperm Hsorted].
  set (page := orderBy P Action timestamp true (filter (Spec.in_range start end_) rows)) in *.
  assert (Hin : forall r, In r page <->
               In r rows /\ String.leb start (timestamp r) = true /\
               String.leb (timestamp r) end_ = true).
  { intros r. split.
    - intros H. apply (Permutation_in _ (Permutation_sym Hperm)) in H.
      apply filter_In in H. destruct H as [H1 H2].
      apply andb_true_iff in H2. tauto.
    - intros (H1 & H2 & H3). apply (Permutation_in _ Hperm).
      apply filter_In. split; [exact H1|]. unfold Spec.in_range. now rewrite H2, H3. }
  exists page. split; [reflexivity|]. split; [exact Hsorted|]. split; [exact Hperm|].
  split; [exact Hin|]. split; [|split].
  - intros r Hr Hts Hle. apply Hin. rewrite Hts. split; [exact Hr|]. split; [|exact Hle].
    unfold String.leb. now rewrite string_compare_refl.
  - intros r Hr Hts Hle. apply Hin. rewrite Hts. split; [exact Hr|]. split; [exact Hle|].
    unfold String.leb. now rewrite string_compare_refl.
  - intros Hlt. destruct page as [|r page']; [reflexivity|]. exfalso.
    destruct (proj1 (Hin r) (or_introl eq_refl)) as (_ & H2 & H3).
    pose proof (string_leb_trans _ _ _ H2 H3) as Hle.
    rewrite string_ltb_leb_false, Hle in Hlt. discriminate Hlt.
Qed.

Lemma time_range_is_inclusive_and_newest_first_witness :
  exists page,
    LogStore.getActionsByTimeRange Demo.sorting Demo.three_file Demo.store
      "2024-05-01T12:00:00.000Z" "2024-05-09T12:00:00.000Z" = Ok page /\
    Spec.newest_first page /\
    In Demo.at_cutoff page /\ In Demo.younger page.
Proof.
  destruct (time_range_is_inclusive_and_newest_first Demo.sorting Demo.three_file
              Demo.store Demo.three "2024-05-01T12:00:00.000Z" "2024-05-09T12:00:00.000Z"
              (reference_platform_ok false) eq_refl eq_refl)
    as (page & Hpage & Hsorted & _ & _ & Hstart & Hend & _).
  exists page. split; [exact Hpage|]. split; [exact Hsorted|]. split.
  - apply Hstart; [cbn; tauto|reflexivity|reflexivity].
  - apply Hend; [cbn; tauto|reflexivity|reflexivity].
Defined.

(** ** LogStore.cleanupOldLogs, again *)

Lemma filter_keeps_all {A : Type} (q : A -> bool) (l : list A) :
  (forall a, In a l -> q a = true) -> filter q l = l.
Proof.
  induction l as [|x l IH]; intros H; cbn [filter]; [reflexivity|].
  rewrite (H x (or_introl eq_refl)), IH; [reflexivity|]. intros a Ha. apply H. now right.
Qed.

Lemma number_of_none (p : Action -> bool) (rows : list Action) :
  (forall r, In r rows -> p r = false) -> Spec.number_of p rows = 0.
Proof.
  induction rows as [|r rows IH]; intros H; cbn [Spec.number_of]; [reflexivity|].
  rewrite (H r (or_introl eq_refl)), IH; [reflexivity|]. intros r' Hr'. apply H. now right.
Qed.

Lemma set_actions_set_actions (fs : FileSystem) (seq seq' : Z) (rows rows' : list Action) :
  LogStore.set_actions (LogStore.set_actions fs seq rows) seq' rows'
  = LogStore.set_actions fs seq' rows'.
Proof. now destruct fs. Qed.

Lemma older_than_mono (c1 c2 : string) (r : Action) :
  String.leb c2 c1 = true ->
  Spec.older_than c2 r = true -> Spec.older_than c1 r = true.
Proof.
  unfold Spec.older_than. intros Hle Hlt.
  destruct (String.ltb (timestamp r) c1) eqn:E; [reflexivity|].
  rewrite string_ltb_leb_false in E. apply negb_false_iff in E.
  pose proof (string_leb_trans _ _ _ Hle E) as H.
  rewrite string_ltb_leb_false, H in Hlt. discriminate Hlt.
Qed.

(** X9: [cleanupOldLogs] is idempotent.  After a cleanup, a second one
    with the same cut-off or an earlier one (the cut-offs being valid dates)
    deletes nothing: it returns 0 and leaves the file exactly as the first
    cleanup left it. *)
Theorem cleanup_is_idempotent
    (P : Platform) (fs : FileSystem) (s : LogStore.t) (now now' days days' : Z)
    (rows : list Action) (cutoff cutoff' : string) :
  LogStore.db s = true ->
  LogStore.actions_of fs = Some rows ->
  Date_toISOString P (addDays P now (- days)) = Ok cutoff ->
  Date_toISOString P (addDays P now' (- days')) = Ok cutoff' ->
  String.leb cutoff' cutoff = true ->
  exists fs1 n,
    LogStore.cleanupOldLogs P fs s now days = Ok (fs1, n) /\
    LogStore.cleanupOldLogs P fs1 s now' days' = Ok (fs1, 0).
Proof.
  intros Hdb Hrows Hc Hc' Hle.
  eexists _, _. split; [exact (cleanupOldLogs_initialized P fs s now days rows cutoff Hdb Hrows Hc)|].
  set (kept := filter (fun r => negb (Spec.older_than cutoff r)) rows).
  pose proof (actions_of_set_actions fs (LogStore.seq_of fs) rows kept Hrows) as Hkept.
  rewrite (cleanupOldLogs_initialized P _ s now' days' kept cutoff' Hdb Hkept Hc').
  rewrite set_actions_set_actions, (seq_of_set_actions fs _ rows kept Hrows).
  assert (Hnone : forall r, In r kept -> Spec.older_than cutoff' r = false).
  { intros r Hr. apply filter_In in Hr. destruct Hr as [_ Hr].
    apply negb_true_iff in Hr.
    destruct (Spec.older_than cutoff' r) eqn:E; [|reflexivity].
    now rewrite (older_than_mono cutoff cutoff' r Hle E) in Hr. }
  rewrite (number_of_none _ kept Hnone).
  rewrite (filter_keeps_all _ kept); [reflexivity|].
  intros r Hr. now rewrite (Hnone r Hr).
Qed.

Lemma cleanup_is_idempotent_witness :
  exists fs1 n,
    LogStore.cleanupOldLogs Demo.sorting Demo.three_file Demo.store Demo.noon_may_15 14
      = Ok (fs1, n) /\
    LogStore.cleanupOldLogs Demo.sorting fs1 Demo.store Demo.noon_may_15 14 = Ok (fs1, 0).
Proof.
  exact (cleanup_is_idempotent Demo.sorting Demo.three_file Demo.store
           Demo.noon_may_15 Demo.noon_may_15 14 14 Demo.three
           (timestamp Demo.at_cutoff) (timestamp Demo.at_cutoff)
           eq_refl eq_refl eq_refl eq_refl eq_refl).
Defined.

Lemma filter_filter_implied {A : Type} (p q : A -> bool) (l : list A) :
  (forall a, p a = true -> q a = true) ->
  filter p (filter q l) = filter p l.
Proof.
  intros H. induction l as [|x l IH]; cbn [filter]; [reflexivity|].
  destruct (q x) eqn:Eq; cbn [filter]; rewrite IH; [reflexivity|].
  destruct (p x) eqn:Ep; [|reflexivity]. rewrite (H x Ep) in Eq. discriminate Eq.
Qed.

Lemma number_of_filter (p q : Action -> bool) (rows : list Action) :
  Spec.number_of p (filter q rows) = Spec.number_of (fun r => p r && q r) rows.
Proof.
  induction rows as [|r rows IH]; cbn [filter Spec.number_of]; [reflexivity|].
  destruct (q r); cbn [Spec.number_of]; rewrite IH; destruct (p r); cbn [andb]; lia.
Qed.

(** X10: what [cleanupOldLogs] deletes is what the dashboard loses.  The
    number it returns lies between 0 and the totalActions the dashboard
    reported before, and the totalActions reported afterwards is smaller by
    exactly that number; every GET /api/logs query with a since parameter
    at or after the cut-off is answered as before the cleanup. *)
Theorem cleanup_is_seen_by_the_dashboard
    (P : Platform) (fs : FileSystem) (s : LogStore.t) (now days at_ : Z)
    (rows : list Action) (cutoff : string) :
  LogStore.db s = true ->
  LogStore.actions_of fs = Some rows ->
  Date_toISOString P (addDays P now (- days)) = Ok cutoff ->
  exists fs' n g g',
    LogStore.cleanupOldLogs P fs s now days = Ok (fs', n) /\
    Server.get_api_logs_stats P fs at_ = Server.json_ok (Server.StatsBody g) /\
    Server.get_api_logs_stats P fs' at_ = Server.json_ok (Server.StatsBody g') /\
    0 <= n <= Server.totalActions g /\
    Server.totalActions g' = Server.totalActions g - n /\
    (forall q since,
       Spec.supplied (Server.q_since q) = Some since ->
       String.leb cutoff since = true ->
       Server.get_api_logs P fs' q = Server.get_api_logs P fs q).
Proof.
  intros Hdb Hrows Hc.
  set (kept := filter (fun r => negb (Spec.older_than cutoff r)) rows).
  pose proof (actions_of_set_actions fs (LogStore.seq_of fs) rows kept Hrows) as Hkept.
  destruct (get_api_logs_stats_on_rows P fs rows at_ Hrows) as (g & Hg & Htot & _).
  destruct (get_api_logs_stats_on_rows P _ kept at_ Hkept) as (g' & Hg' & Htot' & _).
  exists (LogStore.set_actions fs (LogStore.seq_of fs) kept),
         (Spec.number_of (Spec.older_than cutoff) rows), g, g'.
  split; [exact (cleanupOldLogs_initialized P fs s now days rows cutoff Hdb Hrows Hc)|].
  split; [exact Hg|]. split; [exact Hg'|].
  rewrite Htot, Htot', <- !number_of_true.
  unfold kept. rewrite number_of_filter. cbn [andb].
  pose proof (number_of_split (Spec.older_than cutoff) rows) as Hsplit.
  rewrite <- number_of_true in Hsplit.
  pose proof (number_of_le (Spec.older_than cutoff) (fun _ => true) rows
                (fun _ _ => eq_refl)) as Hn.
  split; [exact Hn|]. split; [lia|].
  intros q since Hsince Hle. fold kept.
  rewrite (get_api_logs_on_rows P _ kept q Hkept), (get_api_logs_on_rows P fs rows q Hrows).
  assert (Himp : forall r, Spec.matches q r = true ->
                           negb (Spec.older_than cutoff r) = true).
  { intros r Hm. unfold Spec.matches in Hm.
    apply andb_true_iff in Hm. destruct Hm as [_ Hm].
    unfold Spec.since_filter in Hm. rewrite Hsince in Hm.
    unfold Spec.older_than. rewrite string_ltb_leb_false, negb_involutive.
    exact (string_leb_trans _ _ _ Hle Hm). }
  unfold kept. rewrite (filter_filter_implied _ _ rows Himp).
  rewrite number_of_filter.
  rewrite (number_of_ext (fun r => Spec.matches q r && negb (Spec.older_than cutoff r))
             (Spec.matches q) rows); [reflexivity|].
  intros r _. specialize (Himp r). destruct (Spec.matches q r); [|reflexivity].
  now rewrite Himp.
Qed.

Lemma cleanup_is_seen_by_the_dashboard_witness :
  exists fs' n g g',
    LogStore.cleanupOldLogs Demo.sorting Demo.three_file Demo.store Demo.noon_may_15 14
      = Ok (fs', n) /\
    Server.get_api_logs_stats Demo.sorting Demo.three_file Demo.noon_may_15
      = Server.json_ok (Server.StatsBody g) /\
    Server.get_api_logs_stats Demo.sorting fs' Demo.noon_may_15
      = Server.json_ok (Server.StatsBody g') /\
    Server.totalActions g' = Server.totalActions g - n.
Proof.
  destruct (cleanup_is_seen_by_the_dashboard Demo.sorting Demo.three_file Demo.store
              Demo.noon_may_15 14 Demo.noon_may_15 Demo.three (timestamp Demo.at_cutoff)
              eq_refl eq_refl eq_refl)
    as (fs' & n & g & g' & Hrun & Hg & Hg' & _ & Htot & _).
  exists fs', n, g, g'. split; [exact Hrun|]. split; [exact Hg|]. split; [exact Hg'|exact Htot].
Defined.

(** ** String(n) and parseInt *)

Lemma readDigits_of_uint_acc (d : Decimal.uint) (acc : positive) :
  JS.readDigits 10 (NilEmpty.string_of_uint d) (Some (Z.pos acc))
  = Some (Z.pos (Pos.of_uint_acc d acc)).
Proof.
  revert acc. induction d; intros acc; cbn [NilEmpty.string_of_uint Pos.of_uint_acc];
    [reflexivity|..];
    (cbn [JS.readDigits];
     match goal with
     | |- context [JS.digitValue 10 ?c] =>
         let v := eval vm_compute in (JS.digitValue 10 c) in
         change (JS.digitValue 10 c) with v
     end;
     cbv beta iota; rewrite <- IHd; f_equal; f_equal; lia).
Qed.

Lemma readDigits_of_uint_zero (d : Decimal.uint) :
  JS.readDigits 10 (NilEmpty.string_of_uint d) (Some 0) = Some (Z.of_N (Pos.of_uint d)).
Proof.
  induction d; cbn [NilEmpty.string_of_uint Pos.of_uint]; [reflexivity|..];
    (cbn [JS.readDigits];
     match goal with
     | |- context [JS.digitValue 10 ?c] =>
         let v := eval vm_compute in (JS.digitValue 10 c) in
         change (JS.digitValue 10 c) with v
     end;
     cbv beta iota; first [exact IHd | apply readDigits_of_uint_acc]).
Qed.

Lemma readDigits_of_uint (d : Decimal.uint) :
  JS.readDigits 10 (NilZero.string_of_uint d) None = Some (Z.of_N (Pos.of_uint d)).
Proof.
  destruct d; cbn [NilZero.string_of_uint NilEmpty.string_of_uint Pos.of_uint];
    [reflexivity|..];
    (cbn [JS.readDigits];
     match goal with
     | |- context [JS.digitValue 10 ?c] =>
         let v := eval vm_compute in (JS.digitValue 10 c) in
         change (JS.digitValue 10 c) with v
     end;
     cbv beta iota; first [apply readDigits_of_uint_zero | apply readDigits_of_uint_acc]).
Qed.

Lemma parseIntString_of_uint (d : Decimal.uint) :
  JS.parseIntString (NilZero.string_of_uint d) = Some (Z.of_N (Pos.of_uint d)) /\
  JS.parseIntString (String "-" (NilZero.string_of_uint d))
  = Some (- Z.of_N (Pos.of_uint d)).
Proof.
  pose proof (readDigits_of_uint d) as H.
  assert (Hp : JS.stripPrefix (NilZero.string_of_uint d) = (10, NilZero.string_of_uint d)).
  { destruct d as [|d|d|d|d|d|d|d|d|d|d]; try reflexivity; destruct d; reflexivity. }
  split.
  - unfold JS.parseIntString.
    assert (Ht : JS.stripSign (JS.trimStart (NilZero.string_of_uint d))
                 = (1, NilZero.string_of_uint d)).
    { destruct d; reflexivity. }
    rewrite Ht. cbv beta iota. rewrite Hp. cbv beta iota. rewrite H. f_equal; lia.
  - unfold JS.parseIntString.
    change (JS.stripSign (JS.trimStart (String "-" (NilZero.string_of_uint d))))
      with (-1, NilZero.string_of_uint d).
    cbv beta iota. rewrite Hp. cbv beta iota. rewrite H. f_equal; lia.
Qed.

Lemma parseInt_numberToString (n : Z) :
  JS.parseInt (Some (JS.numberToString n)) = Some n.
Proof.
  unfold JS.parseInt, JS.numberToString.
  destruct n as [|p|p]; cbn [Z.to_int NilZero.string_of_int].
  - reflexivity.
  - rewrite (proj1 (parseIntString_of_uint _)), DecimalPos.Unsigned.of_to. reflexivity.
  - rewrite (proj2 (parseIntString_of_uint _)), DecimalPos.Unsigned.of_to. reflexivity.
Qed.

(** ** The client: [getLogs] *)

Lemma numberToString_nonempty (n : Z) :
  exists c s, JS.numberToString n = String c s.
Proof.
  unfold JS.numberToString.
  destruct n as [|p|p]; cbn [Z.to_int NilZero.string_of_int]; try (now eexists _, _).
  destruct (Pos.to_uint p); now eexists _, _.
Qed.

Lemma limit_params (query : Client.LogsQuery) :
  Server.limit (Client.params query) = Spec.asked_limit query.
Proof.
  unfold Server.limit, Client.params, Spec.asked_limit. cbn [Server.q_limit].
  destruct (Client.limit query) as [n|]; [|reflexivity].
  cbn [option_map]. rewrite parseInt_numberToString. now destruct n.
Qed.

Lemma offset_params (query : Client.LogsQuery) :
  Server.offset (Client.params query) = Spec.asked_offset query.
Proof.
  unfold Server.offset, Client.params, Spec.asked_offset. cbn [Server.q_offset].
  destruct (Client.offset query) as [n|]; [|reflexivity].
  cbn [option_map]. rewrite parseInt_numberToString. now destruct n.
Qed.

Lemma leb_empty (s : string) : String.leb "" s = true.
Proof. now destruct s. Qed.

Lemma matches_params (query : Client.LogsQuery) (r : Action) :
  Spec.matches (Client.params query) r = Spec.asked query r.
Proof.
  unfold Spec.matches, Spec.asked. f_equal; [f_equal; [f_equal|]|].
  - unfold Spec.verdict_filter, Client.params. cbn [Server.q_verdict].
    destruct (Client.verdict query) as [[|c v]|]; reflexivity.
  - unfold Spec.tier_filter, Client.params. cbn [Server.q_tier].
    destruct (Client.tier query) as [t|]; [|reflexivity].
    cbn [option_map].
    destruct (numberToString_nonempty t) as (c & s & E).
    pose proof (parseInt_numberToString t) as Hp. rewrite E in *.
    cbn [Spec.supplied]. now rewrite Hp.
  - unfold Spec.search_filter, Client.params. cbn [Server.q_search].
    destruct (Client.search query) as [[|c v]|]; reflexivity.
  - unfold Spec.since_filter, Client.params. cbn [Server.q_since].
    destruct (Client.since query) as [[|c v]|]; try reflexivity.
    cbn [JS.truthy Spec.supplied]. now rewrite leb_empty.
Qed.

Lemma getLogs_on_rows (P : Platform) (fs : FileSystem) (rows : list Action)
    (query : Client.LogsQuery) :
  LogStore.actions_of fs = Some rows ->
  Client.getLogs P fs query =
  Server.json_ok
    (Server.LogsBody
       (Sql.limit_offset (Spec.asked_limit query) (Spec.asked_offset query)
          (orderBy P Action timestamp true (filter (Spec.asked query) rows)))
       (Spec.number_of (Spec.asked query) rows)).
Proof.
  intros Hrows. unfold Client.getLogs.
  rewrite (get_api_logs_on_rows P fs rows _ Hrows), limit_params, offset_params.
  rewrite (filter_ext _ _ (matches_params query)).
  now rewrite (number_of_ext _ _ rows (fun r _ => matches_params query r)).
Qed.

(** X11: what [getLogs] of the client gets back for a typed query, once
    the numbers have been written by [String] and read by [parseInt] (limit,
    offset and tier being safe integers): the total is the number of rows
    that pass the filters of the query; the page is cut out of their
    newest-first ordering at the offset asked for (0 when left out) with
    the limit asked for, where a limit of 0 or a missing one means 50 and a
    tier of 0 is a filter on tier 0; the page holds only matching rows and,
    for a positive limit, at most that many. *)
Theorem getLogs_answers_the_typed_query
    (P : Platform) (fs : FileSystem) (rows : list Action) (query : Client.LogsQuery) :
  platform_ok P ->
  Spec.safe (Client.limit query) ->
  Spec.safe (Client.offset query) ->
  Spec.safe (Client.tier query) ->
  LogStore.actions_of fs = Some rows ->
  exists page,
    Client.getLogs P fs query
      = Server.json_ok (Server.LogsBody page (Spec.number_of (Spec.asked query) rows)) /\
    page = Sql.limit_offset (Spec.asked_limit query) (Spec.asked_offset query)
             (orderBy P Action timestamp true (filter (Spec.asked query) rows)) /\
    Spec.newest_first page /\
    (forall r, In r page -> In r rows /\ Spec.asked query r = true) /\
    Spec.asked_limit query <> 0 /\
    (0 < Spec.asked_limit query -> Z.of_nat (List.length page) <= Spec.asked_limit query).
Proof.
  intros HP _ _ _ Hrows.
  eexists. split; [exact (getLogs_on_rows P fs rows query Hrows)|].
  split; [reflexivity|].
  destruct (HP Action timestamp true (filter (Spec.asked query) rows)) as [Hperm Hsorted].
  split; [|split; [|split]].
  - now apply limit_offset_sorted.
  - intros r Hr. apply limit_offset_incl in Hr.
    apply (Permutation_in _ (Permutation_sym Hperm)) in Hr.
    now apply filter_In in Hr.
  - unfold Spec.asked_limit. destruct (Client.limit query) as [n|]; [|discriminate].
    destruct (n =? 0) eqn:E; [discriminate|]. now apply Z.eqb_neq.
  - intros Hpos. unfold Sql.limit_offset.
    destruct (Spec.asked_limit query <? 0) eqn:E; [apply Z.ltb_lt in E; lia|].
    rewrite length_firstn. lia.
Qed.

Lemma getLogs_answers_the_typed_query_witness :
  exists page,
    Client.getLogs Demo.sorting Demo.three_file Demo.typed_query
      = Server.json_ok (Server.LogsBody page 3) /\
    Spec.newest_first page.
Proof.
  destruct (getLogs_answers_the_typed_query Demo.sorting Demo.three_file Demo.three
              Demo.typed_query (reference_platform_ok false))
    as (page & Hpage & _ & Hsorted & _).
  - vm_compute. discriminate.
  - exact I.
  - vm_compute. discriminate.
  - reflexivity.
  - exists page. split; [exact Hpage|exact Hsorted].
Defined.

(** ** The Activity Log page *)

Lemma asked_loadData (P : Platform) (st : Client.ActivityLog) (now : Z) (r : Action) :
  Spec.asked (Client.loadData_query P st now) r = Spec.shown P st now r.
Proof.
  unfold Spec.asked, Spec.shown, Client.loadData_query.
  cbn [Client.verdict Client.tier Client.search Client.since].
  destruct (Client.verdictFilter st), (Client.tierFilter st), (Client.search_box st);
    reflexivity.
Qed.

Lemma shown_with_page (P : Platform) (st : Client.ActivityLog) (k now : Z) (r : Action) :
  Spec.shown P (Spec.with_page st k) now r = Spec.shown P st now r.
Proof. reflexivity. Qed.

Lemma slices_concat {A : Type} (n m : nat) (l : list A) :
  (List.length l <= m * n)%nat ->
  List.concat (map (fun k => firstn n (skipn (k * n) l)) (seq 0 m)) = l.
Proof.
  revert l. induction m as [|m IH]; intros l Hl.
  - destruct l; [reflexivity|cbn in Hl; lia].
  - cbn [seq map List.concat]. rewrite <- seq_shift, map_map.
    rewrite (map_ext _ (fun k => firstn n (skipn (k * n) (skipn n l)))).
    + rewrite IH; [apply firstn_skipn|]. rewrite length_skipn. cbn in Hl. lia.
    + intros k. rewrite skipn_skipn. do 2 f_equal. cbn. lia.
Qed.

Lemma totalPages_bounds (total : Z) :
  0 <= total ->
  1 <= Client.totalPages total /\
  total <= Client.totalPages total * Client.PAGE_SIZE /\
  (0 < total -> (Client.totalPages total - 1) * Client.PAGE_SIZE < total).
Proof.
  intros H. unfold Client.totalPages, Client.PAGE_SIZE.
  Z.to_euclidean_division_equations; lia.
Qed.

(** X12: the pages of the Activity Log cover the log.  For fixed filter
    controls there is one newest-first ordering of the rows the controls
    select such that, for every page number k from 1 on, [loadData] shows
    the rows at positions (k-1)*50 up to k*50 of it together with their
    number; the pages 1 to totalPages, one after the other, give that
    ordering (every selected row once); none of these pages is empty when a
    row is selected, and every page after totalPages is empty. *)
Theorem activity_log_pages_cover_the_log
    (P : Platform) (fs : FileSystem) (rows : list Action) (st : Client.ActivityLog)
    (now : Z) :
  platform_ok P ->
  LogStore.actions_of fs = Some rows ->
  exists all,
    let total := Z.of_nat (List.length all) in
    let page k := Spec.slice ((k - 1) * Client.PAGE_SIZE) Client.PAGE_SIZE all in
    Permutation (filter (Spec.shown P st now) rows) all /\
    Spec.newest_first all /\
    (forall k, 1 <= k ->
       Client.loadData P fs (Spec.with_page st k) now
       = Server.json_ok (Server.LogsBody (page k) total)) /\
    List.concat (map (fun k => page (Z.of_nat k)) (seq 1 (Z.to_nat (Client.totalPages total))))
      = all /\
    (forall k, 1 <= k <= Client.totalPages total -> 0 < total -> page k <> []) /\
    (forall k, Client.totalPages total < k -> page k = []).
Proof.
  intros HP Hrows.
  destruct (HP Action timestamp true (filter (Spec.shown P st now) rows))
    as [Hperm Hsorted].
  set (all := orderBy P Action timestamp true (filter (Spec.shown P st now) rows)) in *.
  exists all. cbv zeta.
  destruct (totalPages_bounds (Z.of_nat (List.length all)) ltac:(lia)) as (H1 & H2 & H3).
  unfold Client.PAGE_SIZE in *.
  split; [exact Hperm|]. split; [exact Hsorted|]. split; [|split; [|split]].
  - intros k Hk. unfold Client.loadData.
    rewrite (getLogs_on_rows P fs rows _ Hrows).
    rewrite (filter_ext _ _ (asked_loadData P (Spec.with_page st k) now)).
    rewrite (number_of_ext _ _ rows (fun r _ => asked_loadData P (Spec.with_page st k) now r)).
    rewrite <- count_number_of. unfold Sql.count.
    rewrite <- (Permutation_length Hperm). reflexivity.
  - rewrite <- seq_shift, map_map.
    rewrite (map_ext _ (fun k => firstn 50 (skipn (k * 50) all))).
    + apply slices_concat. lia.
    + intros k. unfold Spec.slice. do 2 f_equal. lia.
  - intros k Hk Hpos Hnil. apply (f_equal (@List.length Action)) in Hnil.
    unfold Spec.slice in Hnil. rewrite length_firstn, length_skipn in Hnil.
    cbn [List.length] in Hnil. specialize (H3 Hpos). nia.
  - intros k Hk. unfold Spec.slice. rewrite skipn_all2; [now destruct (Z.to_nat 50)|]. nia.
Qed.

Lemma activity_log_pages_cover_the_log_witness :
  exists all,
    Permutation Demo.three all /\
    Client.loadData Demo.sorting Demo.three_file Demo.opening Demo.noon_may_15
      = Server.json_ok (Server.LogsBody all 3).
Proof.
  destruct (activity_log_pages_cover_the_log Demo.sorting Demo.three_file Demo.three
              Demo.opening Demo.noon_may_15 (reference_platform_ok false) eq_refl)
    as (all & Hperm & _ & Hpage & _).
  exists all. split; [exact Hperm|].
  assert (Hlen : List.length all = 3%nat)
    by (rewrite <- (Permutation_length Hperm); reflexivity).
  change Demo.opening with (Spec.with_page Demo.opening 1).
  rewrite (Hpage 1 ltac:(lia)), Hlen.
  do 3 (destruct all as [|? all]; [discriminate Hlen|]).
  destruct all; [reflexivity|discriminate Hlen].
Defined.

(** X13: the paging buttons stay on pages with rows.  From a page
    between 1 and totalPages, the page either button leads to is again
    between 1 and totalPages, at most one page away; the next button stays
    where it is exactly on the last page, the previous button exactly on
    page 1; and when there are rows, the page reached starts before the
    last row. *)
Theorem paging_buttons_stay_on_pages_with_rows
    (total : Z) (st : Client.ActivityLog) :
  0 <= total ->
  1 <= Client.page st <= Client.totalPages total ->
  1 <= Client.previous_page st <= Client.totalPages total /\
  1 <= Client.next_page total st <= Client.totalPages total /\
  Client.page st - 1 <= Client.previous_page st <= Client.page st /\
  Client.page st <= Client.next_page total st <= Client.page st + 1 /\
  (Client.next_page total st = Client.page st <-> Client.page st = Client.totalPages total) /\
  (Client.previous_page st = Client.page st <-> Client.page st = 1) /\
  (0 < total ->
   (Client.previous_page st - 1) * Client.PAGE_SIZE < total /\
   (Client.next_page total st - 1) * Client.PAGE_SIZE < total).
Proof.
  intros Ht Hp. destruct (totalPages_bounds total Ht) as (H1 & H2 & H3).
  unfold Client.previous_page, Client.next_page, Client.PAGE_SIZE in *.
  repeat split; try lia; intros Hpos; specialize (H3 Hpos); lia.
Qed.

Lemma paging_buttons_stay_on_pages_with_rows_witness :
  1 <= Client.previous_page Demo.second_page <= Client.totalPages 120 /\
  1 <= Client.next_page 120 Demo.second_page <= Client.totalPages 120.
Proof.
  destruct (paging_buttons_stay_on_pages_with_rows 120 Demo.second_page)
    as (H1 & H2 & _).
  - lia.
  - split; [cbn; lia|vm_compute; discriminate].
  - split; [exact H1|exact H2].
Defined.

(** X14: the time filter of the Activity Log is chronological.  On the
    reference platform, with the filter set to the last hour, day or week
    (a window of w milliseconds) and the start of the window in the years
    0000 to 9999, an event whose timestamp is an ISO-8601 instant t is
    selected exactly when the other controls select it and t is at or after
    now - w; every such event on the page shown is at or after now - w. *)
Theorem time_filter_is_chronological
    (index_walk : bool) (fs : FileSystem) (rows : list Action) (st : Client.ActivityLog)
    (now w : Z) :
  let P := Reference.platform index_walk in
  LogStore.actions_of fs = Some rows ->
  Spec.window (Client.timeFilter st) = Some w ->
  -62167219200000 <= now - w < 253402300800000 ->
  exists page total,
    Client.loadData P fs st now = Server.json_ok (Server.LogsBody page total) /\
    (forall r t, Reference.parse (timestamp r) = Some t ->
       Spec.shown P st now r
       = Spec.shown P (Spec.with_time st Client.AllTime) now r && (now - w <=? t)) /\
    (forall r t, In r page -> Reference.parse (timestamp r) = Some t -> now - w <= t).
Proof.
  intros P Hrows Hw Hrange.
  pose proof (reference_platform_ok index_walk) as HP. fold P in HP.
  assert (Hsince : Client.getTimeSince P (Client.timeFilter st) now
                   = Some (Reference.toISOString (now - w))).
  { destruct (Client.timeFilter st); cbn in Hw; inversion Hw; subst w; reflexivity. }
  assert (Hshown : forall r t, Reference.parse (timestamp r) = Some t ->
       Spec.shown P st now r
       = Spec.shown P (Spec.with_time st Client.AllTime) now r && (now - w <=? t)).
  { intros r t Ht. unfold Spec.shown. rewrite Hsince.
    cbn [Spec.with_time Client.verdictFilter Client.tierFilter Client.search_box
         Client.timeFilter Client.getTimeSince].
    rewrite andb_true_r. f_equal.
    destruct (iso_order_is_time_order _ _ _ _
                (parse_toISOString_in_range (now - w) Hrange) Ht) as [_ Hle].
    destruct (now - w <=? t) eqn:E.
    - apply Hle. now apply Z.leb_le.
    - apply not_true_iff_false. intros H. apply Hle in H. apply Z.leb_gt in E. lia. }
  eexists _, _. split; [exact (getLogs_on_rows P fs rows _ Hrows)|].
  split; [exact Hshown|].
  intros r t Hr Ht. apply limit_offset_incl in Hr.
  destruct (HP Action timestamp true
              (filter (Spec.asked (Client.loadData_query P st now)) rows)) as [Hperm _].
  apply (Permutation_in _ (Permutation_sym Hperm)) in Hr.
  apply filter_In in Hr. destruct Hr as [_ Hr].
  rewrite asked_loadData, (Hshown r t Ht) in Hr.
  apply andb_true_iff in Hr. destruct Hr as [_ Hr]. now apply Z.leb_le.
Qed.

Lemma time_filter_is_chronological_witness :
  exists page total,
    Client.loadData Demo.sorting Demo.three_file Demo.last_hour Demo.noon_may_15
      = Server.json_ok (Server.LogsBody page total) /\
    forall r t, In r page -> Reference.parse (timestamp r) = Some t ->
                Demo.noon_may_15 - 3600000 <= t.
Proof.
  destruct (time_filter_is_chronological false Demo.three_file Demo.three
              Demo.last_hour Demo.noon_may_15 3600000 eq_refl eq_refl)
    as (page & total & Hpage & _ & Hin).
  - unfold Demo.noon_may_15. lia.
  - exists page, total. split; [exact Hpage|exact Hin].
Defined.

(** ** The Overview page *)

Lemma computeHealth_status (stats : Server.LogStats) :
  let b := Server.blockedCount stats in
  let u := Server.unverifiedTier1Count stats in
  (fst (Overview.computeHealth stats) = Overview.ALERT <-> 3 < b \/ 1 < u) /\
  (fst (Overview.computeHealth stats) = Overview.WARNING <-> b <= 3 /\ u = 1) /\
  (fst (Overview.computeHealth stats) = Overview.HEALTHY <-> b <= 3 /\ u <= 0).
Proof.
  cbv zeta. unfold Overview.computeHealth.
  destruct (3 <? Server.blockedCount stats) eqn:E1,
           (1 <? Server.unverifiedTier1Count stats) eqn:E2,
           (0 <? Server.unverifiedTier1Count stats) eqn:E3; cbn [orb fst];
    rewrite ?Z.ltb_lt, ?Z.ltb_ge in *;
    repeat split; intros; try discriminate; try lia.
Qed.

(** X15: the health shown on the Overview page, read off the log: ALERT
    exactly when more than 3 events are blocked or more than 1 tier 1
    event is unverified; WARNING exactly when at most 3 are blocked and
    exactly 1 tier 1 event is unverified; HEALTHY exactly when at most 3
    are blocked and no tier 1 event is unverified. *)
Theorem health_reads_the_log
    (P : Platform) (fs : FileSystem) (rows : list Action) (now : Z) :
  LogStore.actions_of fs = Some rows ->
  exists stats,
    Server.get_api_logs_stats P fs now = Server.json_ok (Server.StatsBody stats) /\
    let b := Spec.number_of Spec.blocked rows in
    let u := Spec.number_of Spec.unverified_tier1 rows in
    let status := fst (Overview.computeHealth stats) in
    (status = Overview.ALERT <-> 3 < b \/ 1 < u) /\
    (status = Overview.WARNING <-> b <= 3 /\ u = 1) /\
    (status = Overview.HEALTHY <-> b <= 3 /\ u = 0).
Proof.
  intros Hrows.
  destruct (get_api_logs_stats_on_rows P fs rows now Hrows)
    as (g & Hg & _ & _ & _ & Hb & Hu & _).
  exists g. split; [exact Hg|]. cbv zeta.
  destruct (computeHealth_status g) as (HA & HW & HH). cbv zeta in *.
  fold Spec.blocked in Hb. fold Spec.unverified_tier1 in Hu.
  rewrite Hb, Hu in *.
  pose proof (number_of_le Spec.unverified_tier1 (fun _ => true) rows (fun _ _ => eq_refl)).
  split; [exact HA|]. split; [exact HW|]. rewrite HH. lia.
Qed.

Lemma health_reads_the_log_witness :
  exists stats,
    Server.get_api_logs_stats Demo.sorting (Some (Demo.db_of Demo.five)) Demo.noon_may_15
      = Server.json_ok (Server.StatsBody stats) /\
    fst (Overview.computeHealth stats) = Overview.ALERT.
Proof.
  destruct (health_reads_the_log Demo.sorting (Some (Demo.db_of Demo.five)) Demo.five
              Demo.noon_may_15 eq_refl) as (stats & Hstats & Halert & _).
  exists stats. split; [exact Hstats|]. apply Halert. right. cbn. lia.
Defined.

(** X16: logging an event never improves the health of the Overview
    page: across a [logAction] the totalActions of the dashboard goes up by
    one, blockedCount and unverifiedTier1Count do not go down, and the
    health status stays or moves towards ALERT. *)
Theorem health_never_improves_as_events_are_logged
    (P : Platform) (fs : FileSystem) (s : LogStore.t) (now at_ : Z)
    (entry : LogStore.LogEntry) (rows : list Action) :
  LogStore.db s = true ->
  LogStore.actions_of fs = Some rows ->
  exists fs' i stats stats',
    LogStore.logAction P fs s now entry = Ok (fs', i) /\
    Server.get_api_logs_stats P fs at_ = Server.json_ok (Server.StatsBody stats) /\
    Server.get_api_logs_stats P fs' at_ = Server.json_ok (Server.StatsBody stats') /\
    Server.totalActions stats' = Server.totalActions stats + 1 /\
    Server.blockedCount stats <= Server.blockedCount stats' /\
    Server.unverifiedTier1Count stats <= Server.unverifiedTier1Count stats' /\
    Spec.severity (fst (Overview.computeHealth stats))
      <= Spec.severity (fst (Overview.computeHealth stats')).
Proof.
  intros Hdb Hrows.
  pose proof (logAction_initialized P fs s now entry rows Hdb Hrows) as Hlog.
  cbv zeta in Hlog.
  set (i := LogStore.next_id (LogStore.seq_of fs) rows) in *.
  set (r := LogStore.new_row P s now i entry) in *.
  pose proof (actions_of_set_actions fs i rows (rows ++ [r]) Hrows) as Hrows'.
  destruct (get_api_logs_stats_on_rows P fs rows at_ Hrows)
    as (g & Hg & Ht & _ & _ & Hb & Hu & _).
  destruct (get_api_logs_stats_on_rows P _ (rows ++ [r]) at_ Hrows')
    as (g' & Hg' & Ht' & _ & _ & Hb' & Hu' & _).
  exists (LogStore.set_actions fs i (rows ++ [r])), i, g, g'.
  split; [exact Hlog|]. split; [exact Hg|]. split; [exact Hg'|].
  rewrite number_of_app in Hb', Hu'. cbn [Spec.number_of] in Hb', Hu'.
  rewrite length_app in Ht'. cbn [List.length] in Ht'.
  assert (Hbb : Server.blockedCount g <= Server.blockedCount g')
    by (rewrite Hb, Hb'; destruct (String.eqb (verdict r) "block"); lia).
  assert (Huu : Server.unverifiedTier1Count g <= Server.unverifiedTier1Count g')
    by (rewrite Hu, Hu'; destruct (negb (key_was_valid r) && (tier r =? 1)); lia).
  split; [lia|]. split; [exact Hbb|]. split; [exact Huu|].
  unfold Overview.computeHealth.
  destruct (3 <? Server.blockedCount g) eqn:E1,
           (1 <? Server.unverifiedTier1Count g) eqn:E2,
           (0 <? Server.unverifiedTier1Count g) eqn:E3,
           (3 <? Server.blockedCount g') eqn:E1',
           (1 <? Server.unverifiedTier1Count g') eqn:E2',
           (0 <? Server.unverifiedTier1Count g') eqn:E3'; cbn [orb fst Spec.severity];
    rewrite ?Z.ltb_lt, ?Z.ltb_ge in *; lia.
Qed.

Lemma health_never_improves_as_events_are_logged_witness :
  exists fs' i stats stats',
    LogStore.logAction Demo.sorting Demo.three_file Demo.store
      (Demo.noon_may_15 + 3600000) Demo.warned = Ok (fs', i) /\
    Server.get_api_logs_stats Demo.sorting Demo.three_file Demo.noon_may_15
      = Server.json_ok (Server.StatsBody stats) /\
    Server.get_api_logs_stats Demo.sorting fs' Demo.noon_may_15
      = Server.json_ok (Server.StatsBody stats') /\
    Spec.severity (fst (Overview.computeHealth stats))
      <= Spec.severity (fst (Overview.computeHealth stats')).
Proof.
  destruct (health_never_improves_as_events_are_logged Demo.sorting Demo.three_file
              Demo.store (Demo.noon_may_15 + 3600000) Demo.noon_may_15 Demo.warned
              Demo.three eq_refl eq_refl)
    as (fs' & i & g & g' & Hlog & Hg & Hg' & _ & _ & _ & Hsev).
  exists fs', i, g, g'. split; [exact Hlog|]. split; [exact Hg|]. split; [exact Hg'|exact Hsev].
Defined.

(** ** GET /api/reviews *)




(** ** GET /api/reviews/trends: the grouping by day *)

Lemma existsb_eqb_In (d : string) (keys : list string) :
  existsb (fun k => String.eqb k d) keys = true <-> In d keys.
Proof.
  rewrite existsb_exists. split.
  - intros (k & Hk & E). apply String.eqb_eq in E. now subst.
  - intros H. exists d. split; [exact H|apply String.eqb_refl].
Qed.

Lemma reviews_of_day_snoc (d : string) (done : list Review) (r : Review) :
  Spec.reviews_of_day d (done ++ [r]) =
  Spec.reviews_of_day d done ++ (if String.eqb (Spec.day r) d then [r] else []).
Proof. unfold Spec.reviews_of_day. rewrite filter_app. reflexivity. Qed.

Lemma scores_of_snoc (rows : list Review) (r : Review) :
  Server.push_scores (Spec.scores_of rows) r = Spec.scores_of (rows ++ [r]).
Proof. unfold Server.push_scores, Spec.scores_of. cbn. now rewrite !map_app. Qed.

Lemma byDate_add_groups (r : Review) (done : list Review)
    (acc : list (string * Server.Scores)) :
  Spec.grouped done acc ->
  Spec.grouped (done ++ [r]) (Server.byDate_add (Spec.day r) r acc).
Proof.
  intros (Hnd & Hkeys & Hall). set (d := Spec.day r).
  assert (Hnone : ~ In d (map fst acc) -> Spec.reviews_of_day d done = []).
  { intros Hn. unfold Spec.reviews_of_day.
    destruct (filter _ done) as [|x l] eqn:E; [reflexivity|]. exfalso.
    assert (Hx : In x (filter (fun r0 => String.eqb (Spec.day r0) d) done))
      by (rewrite E; now left).
    apply filter_In in Hx. destruct Hx as [Hx Hd]. apply String.eqb_eq in Hd.
    apply Hn. rewrite <- Hd. now apply Hkeys. }
  split; [|split].
  - rewrite byDate_add_keys.
    destruct (existsb (fun k => String.eqb k d) (map fst acc)) eqn:E; [exact Hnd|].
    apply NoDup_app; [exact Hnd|repeat constructor; easy|].
    intros a Ha [<-|[]]. apply existsb_eqb_In in Ha. congruence.
  - intros x Hx. rewrite byDate_add_keys. apply in_app_or in Hx.
    destruct (existsb (fun k => String.eqb k d) (map fst acc)) eqn:E.
    + destruct Hx as [Hx|[<-|[]]]; [now apply Hkeys|now apply existsb_eqb_In].
    + apply in_or_app. destruct Hx as [Hx|[<-|[]]]; [left; now apply Hkeys|right; now left].
  - clear Hkeys. induction acc as [|[k sc] acc IH].
    + cbn [Server.byDate_add]. constructor; [|constructor]. cbn [fst snd].
      rewrite reviews_of_day_snoc, (Hnone (fun H => H)).
      fold d. rewrite String.eqb_refl. cbn [app]. split; [reflexivity|discriminate].
    + cbn [Server.byDate_add]. inversion Hall as [|? ? [Hsc Hne] Hall']; subst.
      cbn [map fst snd] in *. inversion Hnd as [|? ? Hk Hnd']; subst.
      destruct (String.eqb k d) eqn:E.
      * apply String.eqb_eq in E. subst k. constructor.
        -- cbn [fst snd]. rewrite reviews_of_day_snoc. fold d. rewrite String.eqb_refl.
           rewrite <- scores_of_snoc. split; [reflexivity|].
           intros H. now apply app_eq_nil in H.
        -- rewrite Forall_forall in *. intros [k' sc'] Hp. cbn [fst snd].
           rewrite reviews_of_day_snoc.
           assert (Hne' : String.eqb (Spec.day r) k' = false).
           { apply String.eqb_neq. intros Heq. apply Hk. fold d in Heq. rewrite Heq.
             now apply (in_map fst _ (k', sc')). }
           rewrite Hne', app_nil_r. exact (Hall' _ Hp).
      * constructor.
        -- cbn [fst snd]. rewrite reviews_of_day_snoc.
           assert (Hne' : String.eqb (Spec.day r) k = false).
           { fold d. rewrite String.eqb_sym. exact E. }
           rewrite Hne', app_nil_r. now split.
        -- apply IH; [exact Hnd'|exact Hall'|].
           intros Hn. apply Hnone. intros [Hkd|Hin]; [|now apply Hn].
           apply String.eqb_neq in E. now apply E.
Qed.

Lemma byDate_fold_groups (rows done : list Review) (acc : list (string * Server.Scores)) :
  Spec.grouped done acc ->
  Spec.grouped (done ++ rows)
    (fold_left (fun acc r => Server.byDate_add (JS.splitT0 (review_timestamp r)) r acc)
       rows acc).
Proof.
  revert done acc. induction rows as [|r rows IH]; intros done acc H.
  - now rewrite app_nil_r.
  - cbn [fold_left]. replace (done ++ r :: rows) with ((done ++ [r]) ++ rows)
      by (now rewrite <- app_assoc).
    apply IH. now apply byDate_add_groups.
Qed.

Lemma byDate_groups (rows : list Review) : Spec.grouped rows (Server.byDate rows).
Proof.
  apply (byDate_fold_groups rows [] []).
  split; [constructor|split; [intros r []|constructor]].
Qed.

(** X18: the daily scores group the reviews by day.  No date occurs
    twice; the date part of every review (its timestamp up to the first T)
    occurs; and each entry stands for at least one review and reports, for
    each of the three scores, the rounded average over exactly the reviews
    with its date. *)
Theorem daily_scores_group_by_day (rows : list Review) :
  let ds := Server.daily_scores_of rows in
  NoDup (map Server.date ds) /\
  (forall r, In r rows -> In (Spec.day r) (map Server.date ds)) /\
  (forall e, In e ds ->
     let rs := Spec.reviews_of_day (Server.date e) rows in
     rs <> [] /\
     Server.overall e = JS.round2 (Server.avg (map overall_score rs)) /\
     Server.alignment e = JS.round2 (Server.avg (map goal_alignment_score rs)) /\
     Server.security e = JS.round2 (Server.avg (map security_compliance_score rs))).
Proof.
  cbv zeta. destruct (byDate_groups rows) as (Hnd & Hkeys & Hall).
  assert (Hdates : map Server.date (Server.daily_scores_of rows)
                   = map fst (Server.byDate rows)).
  { unfold Server.daily_scores_of. rewrite map_map. apply map_ext. now intros [d sc]. }
  rewrite Hdates. split; [exact Hnd|]. split; [exact Hkeys|].
  intros e He. unfold Server.daily_scores_of in He. apply in_map_iff in He.
  destruct He as ([d sc] & <- & Hp). rewrite Forall_forall in Hall.
  destruct (Hall _ Hp) as [Hsc Hne]. cbn [fst snd] in *.
  cbn [Server.date Server.overall Server.alignment Server.security].
  rewrite Hsc. now split.
Qed.

(** ** GET /api/reviews/trends: the averages *)









(** ** [lib/utils.ts] *)

Lemma length_substring_0 (n : nat) (s : string) :
  String.length (String.substring 0 n s) = Nat.min n (String.length s).
Proof.
  revert n. induction s as [|c s IH]; intros [|n]; cbn; try reflexivity.
  now rewrite IH.
Qed.

Lemma string_length_app (a b : string) :
  String.length (a ++ b) = (String.length a + String.length b)%nat.
Proof. induction a as [|c a IH]; cbn; [reflexivity|now rewrite IH]. Qed.

(** X20: [truncate] leaves a string that fits as it is and otherwise
    keeps the first maxLen characters and appends three dots, so that the
    result has maxLen + 3 characters: never more than that for a
    non-negative maxLen, but longer than the input when the input is one or
    two characters over.  A negative maxLen cuts that many characters off
    the end instead. *)
Theorem truncate_length (str : string) (maxLen : Z) :
  let len := Z.of_nat (String.length str) in
  let out := Utils.truncate str maxLen in
  (len <= maxLen -> out = str) /\
  (0 <= maxLen < len ->
   out = (String.substring 0 (Z.to_nat maxLen) str ++ "...")%string /\
   Z.of_nat (String.length out) = maxLen + 3) /\
  (maxLen < 0 ->
   out = (String.substring 0 (Z.to_nat (len + maxLen)) str ++ "...")%string /\
   Z.of_nat (String.length out) = Z.max 0 (len + maxLen) + 3) /\
  (0 <= maxLen -> Z.of_nat (String.length out) <= maxLen + 3).
Proof.
  cbv zeta. unfold Utils.truncate, JS.slice0.
  set (len := Z.of_nat (String.length str)).
  destruct (len <=? maxLen) eqn:E;
    [apply Z.leb_le in E|apply Z.leb_gt in E].
  - repeat split; intros; try lia. all: fold len; lia.
  - destruct (maxLen <? 0) eqn:E0;
      [apply Z.ltb_lt in E0|apply Z.ltb_ge in E0].
    + repeat split; intros; try lia.
      * do 2 f_equal. lia.
      * rewrite string_length_app, length_substring_0. cbn [String.length]. fold len. lia.
    + repeat split; intros; try lia.
      * do 2 f_equal. lia.
      * rewrite string_length_app, length_substring_0. cbn [String.length]. fold len. lia.
      * rewrite string_length_app, length_substring_0. cbn [String.length]. fold len. lia.
Qed.









Lemma div_ltb (a c k : Z) : 0 < c -> (a / c <? k) = (a <? c * k).
Proof.
  intros Hc. destruct (a <? c * k) eqn:E.
  - apply Z.ltb_lt. apply Z.ltb_lt in E. now apply Z.div_lt_upper_bound.
  - apply Z.ltb_ge. apply Z.ltb_ge in E. now apply Z.div_le_lower_bound.
Qed.

Lemma div_between (a c lo hi : Z) :
  0 < c -> c * lo <= a < c * (hi + 1) -> lo <= a / c <= hi.
Proof.
  intros Hc [H1 H2]. split.
  - now apply Z.div_le_lower_bound.
  - apply Z.lt_succ_r. now apply Z.div_lt_upper_bound.
Qed.

(** X22: the buckets of [formatRelativeTime] for a timestamp that
    parses, diff being now minus that instant in milliseconds: below one
    minute, a timestamp in the future included, Just now; below one hour
    the whole minutes, 1 to 59; below one day the whole hours, 1 to 23;
    below seven days the whole days, 1 to 6; from seven days on the local
    date. *)
Theorem formatRelativeTime_buckets
    (P : Platform) (toLocaleDateString : string -> string) (now then_ : Z)
    (isoString : string) :
  Date_parse P isoString = Some then_ ->
  let diff := now - then_ in
  let out := Utils.formatRelativeTime P toLocaleDateString now isoString in
  (diff < 60000 -> out = "Just now") /\
  (60000 <= diff < 3600000 ->
   out = (JS.numberToString (diff / 60000) ++ " min ago")%string /\
   1 <= diff / 60000 <= 59) /\
  (3600000 <= diff < 86400000 ->
   out = (JS.numberToString (diff / 3600000) ++ "h ago")%string /\
   1 <= diff / 3600000 <= 23) /\
  (86400000 <= diff < 604800000 ->
   out = (JS.numberToString (diff / 86400000) ++ "d ago")%string /\
   1 <= diff / 86400000 <= 6) /\
  (604800000 <= diff -> out = toLocaleDateString isoString).
Proof.
  intros Hparse. cbv zeta. unfold Utils.formatRelativeTime. rewrite Hparse. cbv zeta.
  set (diff := now - then_).
  assert (Hm : diff / 1000 / 60 = diff / 60000)
    by (rewrite Z.div_div by lia; reflexivity).
  assert (Hh : diff / 1000 / 60 / 60 = diff / 3600000)
    by (rewrite !Z.div_div by lia; reflexivity).
  assert (Hd : diff / 1000 / 60 / 60 / 24 = diff / 86400000)
    by (rewrite !Z.div_div by lia; reflexivity).
  rewrite Hd, Hh, Hm, !div_ltb by lia.
  change (1000 * 60) with 60000. change (60000 * 60) with 3600000.
  change (3600000 * 24) with 86400000. change (86400000 * 7) with 604800000.
  split; [|split; [|split; [|split]]].
  - intros H. apply Z.ltb_lt in H. now rewrite H.
  - intros [H1 H2]. apply Z.ltb_ge in H1. apply Z.ltb_lt in H2. rewrite H1, H2.
    split; [reflexivity|]. apply div_between; [lia|].
    apply Z.ltb_ge in H1. apply Z.ltb_lt in H2. lia.
  - intros [H1 H2].
    assert (E1 : (diff <? 60000) = false) by (apply Z.ltb_ge; lia).
    assert (E2 : (diff <? 3600000) = false) by (apply Z.ltb_ge; lia).
    assert (E3 : (diff <? 86400000) = true) by (apply Z.ltb_lt; lia).
    rewrite E1, E2, E3. split; [reflexivity|]. apply div_between; lia.
  - intros [H1 H2].
    assert (E1 : (diff <? 60000) = false) by (apply Z.ltb_ge; lia).
    assert (E2 : (diff <? 3600000) = false) by (apply Z.ltb_ge; lia).
    assert (E3 : (diff <? 86400000) = false) by (apply Z.ltb_ge; lia).
    assert (E4 : (diff <? 604800000) = true) by (apply Z.ltb_lt; lia).
    rewrite E1, E2, E3, E4. split; [reflexivity|]. apply div_between; lia.
  - intros H1.
    assert (E1 : (diff <? 60000) = false) by (apply Z.ltb_ge; lia).
    assert (E2 : (diff <? 3600000) = false) by (apply Z.ltb_ge; lia).
    assert (E3 : (diff <? 86400000) = false) by (apply Z.ltb_ge; lia).
    assert (E4 : (diff <? 604800000) = false) by (apply Z.ltb_ge; lia).
    now rewrite E1, E2, E3, E4.
Qed.

Lemma formatRelativeTime_buckets_witness :
  Utils.formatRelativeTime Demo.sorting (fun s => s) Demo.noon_may_15
    "2024-05-15T10:30:00.000Z" = "1h ago".
Proof.
  destruct (formatRelativeTime_buckets Demo.sorting (fun s => s) Demo.noon_may_15
              (Demo.noon_may_15 - 5400000) "2024-05-15T10:30:00.000Z")
    as (_ & _ & H & _).
  - vm_compute. reflexivity.
  - destruct H as [H _]; [unfold Demo.noon_may_15; lia|]. rewrite H. reflexivity.
Defined.

(** ** The Goals and Security Rules pages *)

Lemma remove_at_split {A : Type} (u : A) (i : nat) (arr : list A) :
  (i < List.length arr)%nat ->
  arr = firstn i arr ++ nth i arr u :: skipn (S i) arr.
Proof.
  revert i. induction arr as [|x arr IH]; intros [|i] H; cbn in *; try lia; [reflexivity|].
  f_equal. apply IH. lia.
Qed.

Lemma remove_at_length {A : Type} (i : nat) (arr : list A) :
  (i < List.length arr)%nat ->
  List.length (Goals.remove_at i arr) = (List.length arr - 1)%nat.
Proof.
  intros H. unfold Goals.remove_at.
  rewrite length_app, length_firstn, length_skipn. lia.
Qed.

Lemma remove_at_insert_at {A : Type} (i : nat) (x : A) (l : list A) :
  Goals.remove_at (Nat.min i (List.length l)) (Goals.insert_at i x l) = l.
Proof.
  unfold Goals.remove_at, Goals.insert_at.
  set (j := Nat.min i (List.length l)).
  assert (Hf : List.length (firstn i l) = j) by (rewrite length_firstn; reflexivity).
  rewrite <- Hf at 1. rewrite firstn_app, Nat.sub_diag, firstn_all. cbn [firstn].
  rewrite app_nil_r.
  replace (S j) with (List.length (firstn i l) + 1)%nat by lia.
  rewrite skipn_app, skipn_all2 by lia.
  replace (List.length (firstn i l) + 1 - List.length (firstn i l))%nat with 1%nat by lia.
  cbn [skipn app]. apply firstn_skipn.
Qed.

Lemma nth_insert_at {A : Type} (u : A) (i : nat) (x : A) (l : list A) :
  nth (Nat.min i (List.length l)) (Goals.insert_at i x l) u = x.
Proof.
  unfold Goals.insert_at.
  assert (Hf : List.length (firstn i l) = Nat.min i (List.length l))
    by (rewrite length_firstn; reflexivity).
  rewrite <- Hf. rewrite app_nth2, Nat.sub_diag by lia. reflexivity.
Qed.

(** X23: [reorder] with an index [from] inside the list moves one item
    and nothing else: the result is a permutation of the list of the same
    length, the item that was at [from] is at [to] (at the last position
    when [to] is beyond it), and the other items keep their order. *)
Theorem reorder_moves_one_item {A : Type} (undefined : A) (arr : list A) (from to : nat) :
  (from < List.length arr)%nat ->
  let out := Goals.reorder undefined arr from to in
  let at_ := Nat.min to (List.length arr - 1) in
  Permutation arr out /\
  List.length out = List.length arr /\
  nth at_ out undefined = nth from arr undefined /\
  Goals.remove_at at_ out = Goals.remove_at from arr.
Proof.
  intros Hfrom. cbv zeta. unfold Goals.reorder.
  set (item := nth from arr undefined).
  set (rest := Goals.remove_at from arr).
  assert (Hlen : List.length rest = (List.length arr - 1)%nat)
    by (now apply remove_at_length).
  rewrite <- Hlen.
  split; [|split; [|split]].
  - apply Permutation_trans with (item :: rest).
    + rewrite (remove_at_split undefined from arr Hfrom) at 1.
      apply Permutation_sym, Permutation_middle.
    + unfold Goals.insert_at. rewrite <- (firstn_skipn to rest) at 1.
      apply Permutation_middle.
  - unfold Goals.insert_at. rewrite length_app. cbn [List.length].
    rewrite length_firstn, length_skipn. lia.
  - apply nth_insert_at.
  - apply remove_at_insert_at.
Qed.

Lemma reorder_moves_one_item_witness :
  Permutation ["ship"; "test"; "write"] (Goals.reorder "" ["ship"; "test"; "write"] 0 2) /\
  nth 2 (Goals.reorder "" ["ship"; "test"; "write"] 0 2) "" = "ship".
Proof.
  destruct (reorder_moves_one_item "" ["ship"; "test"; "write"] 0 2) as (H1 & _ & H2 & _).
  - cbn. lia.
  - split; [exact H1|exact H2].
Defined.

Lemma reorder_missing_item {A : Type} (undefined : A) (arr : list A) (from to : nat) :
  (List.length arr <= from)%nat ->
  Goals.reorder undefined arr from to = Goals.insert_at to undefined arr.
Proof.
  intros H. unfold Goals.reorder, Goals.remove_at.
  rewrite nth_overflow, firstn_all2, skipn_all2 by lia. now rewrite app_nil_r.
Qed.

Lemma rerank_from_spec (i : Z) (ps : list Goals.Priority) :
  map Goals.text (Goals.rerank_from i ps) = map Goals.text ps /\
  map Goals.rank (Goals.rerank_from i ps)
  = map (fun k => i + Z.of_nat k) (seq 1 (List.length ps)).
Proof.
  revert i. induction ps as [|p ps IH]; intros i; [now split|].
  cbn [Goals.rerank_from map List.length seq Goals.text Goals.rank].
  destruct (IH (i + 1)) as [Ht Hr]. rewrite Ht, Hr. split; [reflexivity|].
  f_equal; try lia. rewrite <- (seq_shift (List.length ps) 1), map_map.
  apply map_ext. intros k. lia.
Qed.

(** X24: the renumbering on save gives the priorities the ranks 1, 2,
    ..., n in the order of the list, whatever ranks they had; the texts and
    their order are kept, no rank occurs twice, and renumbering again
    changes nothing. *)
Theorem rerank_numbers_from_one (priorities : list Goals.Priority) :
  map Goals.text (Goals.rerank priorities) = map Goals.text priorities /\
  map Goals.rank (Goals.rerank priorities)
  = map Z.of_nat (seq 1 (List.length priorities)) /\
  NoDup (map Goals.rank (Goals.rerank priorities)) /\
  Goals.rerank (Goals.rerank priorities) = Goals.rerank priorities.
Proof.
  unfold Goals.rerank. destruct (rerank_from_spec 0 priorities) as [Ht Hr].
  assert (Hr' : map Goals.rank (Goals.rerank_from 0 priorities)
                = map Z.of_nat (seq 1 (List.length priorities)))
    by (rewrite Hr; apply map_ext; intros k; lia).
  split; [exact Ht|]. split; [exact Hr'|]. split.
  - rewrite Hr'. apply Finite.Injective_map_NoDup; [|apply seq_NoDup].
    intros a b. apply Nat2Z.inj.
  - assert (H : forall i, Goals.rerank_from i (Goals.rerank_from i priorities)
                         = Goals.rerank_from i priorities); [|apply H].
    clear. induction priorities as [|p ps IH]; intros i; [reflexivity|].
    cbn [Goals.rerank_from Goals.text]. now rewrite IH.
Qed.

(** X25: a click on an action type of the Security Rules page flips
    whether that type is blocked and nothing else: the type is blocked
    afterwards exactly when it was not before, every other type is blocked
    exactly when it was, a list without repetitions stays one, and two
    clicks on a type that was not blocked give back the list. *)
Theorem toggle_blocked_flips_one_type (type : string) (blockedActions : list string) :
  let out := Goals.toggle_blocked type blockedActions in
  (In type out <-> ~ In type blockedActions) /\
  (forall a, a <> type -> (In a out <-> In a blockedActions)) /\
  (NoDup blockedActions -> NoDup out) /\
  (~ In type blockedActions ->
   Goals.toggle_blocked type out = blockedActions).
Proof.
  cbv zeta. unfold Goals.toggle_blocked.
  assert (Hex : forall l, existsb (String.eqb type) l = true <-> In type l).
  { intros l. rewrite existsb_exists. split.
    - intros (x & Hx & E). apply String.eqb_eq in E. now subst.
    - intros H. exists type. split; [exact H|apply String.eqb_refl]. }
  assert (Hfilter : forall l, ~ In type l ->
            filter (fun a => negb (String.eqb a type)) l = l).
  { intros l Hn. induction l as [|x l IH]; [reflexivity|]. cbn [filter].
    destruct (String.eqb x type) eqn:E.
    - apply String.eqb_eq in E. subst. exfalso. apply Hn. now left.
    - cbn [negb]. f_equal. apply IH. intros H. apply Hn. now right. }
  destruct (existsb (String.eqb type) blockedActions) eqn:E.
  - apply Hex in E. split; [|split; [|split]].
    + rewrite filter_In, negb_true_iff, String.eqb_refl. split; [now intros [_ H]|tauto].
    + intros a Ha. rewrite filter_In, negb_true_iff. split; [tauto|].
      intros H. split; [exact H|]. now apply String.eqb_neq.
    + apply NoDup_filter.
    + tauto.
  - assert (Hn : ~ In type blockedActions).
    { intros H. apply Hex in H. congruence. }
    split; [|split; [|split]].
    + rewrite in_app_iff. cbn [In]. tauto.
    + intros a Ha. rewrite in_app_iff. cbn [In]. split; [|tauto].
      intros [H|[H|[]]]; [exact H|]. congruence.
    + intros Hnd. apply NoDup_app; [exact Hnd|repeat constructor; easy|].
      intros a Ha [<-|[]]. contradiction.
    + intros _.
      assert (E' : existsb (String.eqb type) (blockedActions ++ [type]) = true).
      { apply Hex. rewrite in_app_iff. right. now left. }
      rewrite E', filter_app, (Hfilter _ Hn). cbn [filter].
      rewrite String.eqb_refl. cbn [negb]. apply app_nil_r.
Qed.

(** ** LogStore.getRecentActions *)



(** ** GET /api/logs/stats: the spend of the day *)

Lemma date_string_of_day (t : Z) :
  Reference.date_string t
  = Reference.date_string (t / Reference.msPerDay * Reference.msPerDay).
Proof.
  unfold Reference.date_string. rewrite Z.div_mul by discriminate. reflexivity.
Qed.

Lemma toISOString_midnight (d : Z) :
  Reference.toISOString (d * Reference.msPerDay)
  = (Reference.date_string (d * Reference.msPerDay) ++ "T00:00:00.000Z")%string.
Proof.
  unfold Reference.toISOString, Reference.time_string.
  rewrite Z.mod_mul by discriminate.
  replace (d * Reference.msPerDay mod 1000) with 0
    by (unfold Reference.msPerDay; Z.to_euclidean_division_equations; lia).
  reflexivity.
Qed.

Lemma date_string_same_day (t1 t2 : Z) :
  Spec.four_digit_year t1 = true ->
  Spec.four_digit_year t2 = true ->
  String.eqb (Reference.date_string t1) (Reference.date_string t2)
  = (t1 / Reference.msPerDay =? t2 / Reference.msPerDay).
Proof.
  unfold Spec.four_digit_year. rewrite !andb_true_iff, !Z.leb_le, !Z.ltb_lt.
  intros H1 H2.
  destruct (t1 / Reference.msPerDay =? t2 / Reference.msPerDay) eqn:E.
  - apply Z.eqb_eq in E. apply String.eqb_eq.
    now rewrite (date_string_of_day t1), (date_string_of_day t2), E.
  - apply String.eqb_neq. intros Heq. apply Z.eqb_neq in E. apply E.
    rewrite (date_string_of_day t1), (date_string_of_day t2) in Heq.
    set (d1 := t1 / Reference.msPerDay) in *. set (d2 := t2 / Reference.msPerDay) in *.
    assert (R1 : -62167219200000 <= d1 * Reference.msPerDay < 253402300800000)
      by (unfold d1, Reference.msPerDay; Z.to_euclidean_division_equations; lia).
    assert (R2 : -62167219200000 <= d2 * Reference.msPerDay < 253402300800000)
      by (unfold d2, Reference.msPerDay; Z.to_euclidean_division_equations; lia).
    pose proof (parse_toISOString_in_range _ R1) as P1.
    pose proof (parse_toISOString_in_range _ R2) as P2.
    rewrite toISOString_midnight, Heq, <- toISOString_midnight, P2 in P1.
    injection P1 as P1. unfold Reference.msPerDay in P1. lia.
Qed.

(** X27: the daily spend is the spend of the current UTC day.  On the
    reference platform, when the timestamps of the events are ISO-8601
    instants, dailySpend of GET /api/logs/stats is the sum of the amounts
    of exactly the events whose instant falls on the same UTC day as now
    (now within the years 0000 to 9999). *)
Theorem daily_spend_is_of_the_utc_day
    (index_walk : bool) (fs : FileSystem) (rows : list Action) (now : Z) :
  LogStore.actions_of fs = Some rows ->
  forallb Spec.iso_timestamp rows = true ->
  Spec.four_digit_year now = true ->
  exists stats,
    Server.get_api_logs_stats (Reference.platform index_walk) fs now
      = Server.json_ok (Server.StatsBody stats) /\
    Server.dailySpend stats = Sql.sum (map amount (filter (Spec.on_utc_day now) rows)).
Proof.
  intros Hrows Hiso Hnow.
  destruct (get_api_logs_stats_on_rows (Reference.platform index_walk) fs rows now Hrows)
    as (g & Hg & _ & _ & _ & _ & _ & _ & _ & _ & Hspend).
  exists g. split; [exact Hg|]. rewrite Hspend. do 2 f_equal.
  apply filter_ext_in. intros r Hr.
  rewrite forallb_forall in Hiso. specialize (Hiso r Hr).
  unfold Spec.iso_timestamp in Hiso. unfold Server.spent_today, Spec.on_utc_day.
  cbn [sql_date sql_date_now Reference.platform]. unfold Reference.sql_date.
  destruct (Reference.parse (timestamp r)) as [t|]; [|discriminate].
  now apply date_string_same_day.
Qed.

Lemma daily_spend_is_of_the_utc_day_witness :
  exists stats,
    Server.get_api_logs_stats Demo.sorting Demo.three_file Demo.noon_may_15
      = Server.json_ok (Server.StatsBody stats) /\
    Server.dailySpend stats = 0%Q.
Proof.
  destruct (daily_spend_is_of_the_utc_day false Demo.three_file Demo.three
              Demo.noon_may_15 eq_refl) as (stats & Hstats & Hspend).
  - vm_compute. reflexivity.
  - reflexivity.
  - exists stats. split; [exact Hstats|]. rewrite Hspend. vm_compute. reflexivity.
Defined.

(** ** String(n) read back by parseInt *)

(** X28: a safe integer written by [String] is read back by [parseInt]
    as itself.  The string is never empty, so a tier sent by the client is
    taken as a tier filter also when it is 0, while a limit of 0 falls back
    to 50. *)
Theorem String_then_parseInt_is_the_identity (n : Z) :
  Spec.safe_integer n ->
  JS.parseInt (Some (JS.numberToString n)) = Some n /\
  JS.truthy (Some (JS.numberToString n)) = true /\
  Server.tier_param
    (Server.mkLogsQuery None None None (Some (JS.numberToString n)) None None)
  = Some (Some n) /\
  JS.orDefault (JS.parseInt (Some (JS.numberToString n))) 50 = (if n =? 0 then 50 else n).
Proof.
  intros _. pose proof (parseInt_numberToString n) as H.
  destruct (numberToString_nonempty n) as (c & s & E).
  split; [exact H|]. split; [now rewrite E|]. split.
  - unfold Server.tier_param. cbn [Server.q_tier]. rewrite H, E. reflexivity.
  - rewrite H. now destruct n.
Qed.

Lemma String_then_parseInt_is_the_identity_witness :
  JS.parseInt (Some "-5") = Some (-5).
Proof.
  destruct (String_then_parseInt_is_the_identity (-5)) as (H & _).
  - vm_compute. discriminate.
  - exact H.
Defined.
